(** * Bichitras QMS: the testing pipeline and its pass/fail evaluation

    A shallow embedding of [apps/quality/models.py], [apps/testing/models.py],
    [apps/testing/views.py] and the role helpers of [apps/users], followed by
    the properties of the specification validator, the result evaluator and
    the pipeline state machine.

    Conventions.
    - A Python [str] is a [string] whose characters are read as the code
      points U+0000..U+00FF.
    - A Python exception is a constructor of [Exn]; code that may raise
      returns an [Outcome].
    - A database table is the list of its rows, in insertion order; a
      [QuerySet.filter] is a [filter] and [.first()] is the head.
    - The column [updated_at] (a wall-clock time stamp) is not represented.
    - The interpreter's recursion limit is the argument [depth] of the
      methods that call each other; [uuid.uuid4] is a supply of
      identifiers handed to the views. *)

From Stdlib Require Import ZArith NArith QArith Qround Qpower Ascii String DecimalString Lia.
From stdpp Require Import base option list gmap strings.

Local Open Scope char_scope.
Local Open Scope string_scope.
Local Open Scope Z_scope.

(** ** Exceptions and outcomes *)

(** The exception classes that the modelled code can meet.  All of them are
    subclasses of [Exception]; [InvalidOperation] derives from
    [ArithmeticError], [RecursionError] from [RuntimeError],
    [DoesNotExist] and [DatabaseError] are Django's. *)
Inductive Exn : Type :=
| ValueError
| TypeError
| InvalidOperation
| RecursionError
| DoesNotExist
| DatabaseError
| IntegrityError
| MultipleObjectsReturned
| Http404
| UnboundLocalError.

Inductive Outcome (A : Type) : Type :=
| Return (a : A)
| Raise (e : Exn).
Arguments Return {A} a.
Arguments Raise {A} e.

Definition obind {A B} (m : Outcome A) (k : A -> Outcome B) : Outcome B :=
  match m with
  | Return a => k a
  | Raise e => Raise e
  end.

Notation "'let!' x ':=' m 'in' k" := (obind m (fun x => k))
  (at level 10, x name, m at level 100, k at level 200, only parsing).

(** [try: body except (classes): handler]: the handler runs when the body
    raises an exception of one of the listed classes. *)
Definition try_except {A} (body : Outcome A) (caught : Exn -> bool)
    (handler : Outcome A) : Outcome A :=
  match body with
  | Return a => Return a
  | Raise e => if caught e then handler else Raise e
  end.

(** ** Python strings *)

Definition code (c : ascii) : N := N_of_ascii c.

(** [str.isspace] on U+0000..U+00FF. *)
Definition is_space (c : ascii) : bool :=
  let n := code c in
  ((9 <=? n) && (n <=? 13) || (28 <=? n) && (n <=? 32)
   || (n =? 133) || (n =? 160))%N.

(** [str.lower] on one character of U+0000..U+00FF. *)
Definition lower_char (c : ascii) : ascii :=
  let n := code c in
  if ((65 <=? n) && (n <=? 90)
      || (192 <=? n) && (n <=? 222) && negb (n =? 215))%N
  then ascii_of_N (n + 32) else c.

Fixpoint lower (s : string) : string :=
  match s with
  | EmptyString => EmptyString
  | String c s' => String (lower_char c) (lower s')
  end.

Fixpoint lstrip (s : string) : string :=
  match s with
  | EmptyString => EmptyString
  | String c s' => if is_space c then lstrip s' else s
  end.

Fixpoint rstrip (s : string) : string :=
  match s with
  | EmptyString => EmptyString
  | String c s' =>
      match rstrip s' with
      | EmptyString => if is_space c then EmptyString else String c EmptyString
      | t => String c t
      end
  end.

Definition strip (s : string) : string := rstrip (lstrip s).

(** [s.replace("_", "")] *)
Fixpoint remove_underscores (s : string) : string :=
  match s with
  | EmptyString => EmptyString
  | String c s' =>
      if Ascii.eqb c "_" then remove_underscores s'
      else String c (remove_underscores s')
  end.

(** Truthiness of a [str]: non-empty. *)
Definition truthy (s : string) : bool :=
  match s with EmptyString => false | _ => true end.

(** [x in xs] for a list of strings. *)
Definition str_in (x : string) (xs : list string) : bool :=
  existsb (String.eqb x) xs.

(** ** [decimal.Decimal] *)

(** A decimal as the standard library holds it: sign, coefficient and
    exponent ([(-1)^sign * coeff * 10^exp]), an infinity, or a quiet or
    signalling NaN with its diagnostic payload. *)
Inductive Decimal : Type :=
| Finite (sign : bool) (coeff : N) (exp : Z)
| Infinity (sign : bool)
| NaN (sign : bool) (signalling : bool) (diag : N).

Definition is_digit (c : ascii) : bool :=
  let n := code c in ((48 <=? n) && (n <=? 57))%N.

(** Longest prefix of digits, and the rest. *)
Fixpoint span_digits (s : string) : string * string :=
  match s with
  | EmptyString => (EmptyString, EmptyString)
  | String c s' =>
      if is_digit c
      then let '(ds, rest) := span_digits s' in (String c ds, rest)
      else (EmptyString, s)
  end.

(** [int(ds)] for a string of digits (0 for the empty string). *)
Definition digits_value (ds : string) : N :=
  fold_left (fun acc c => (10 * acc + (code c - 48))%N) (list_ascii_of_string ds) 0%N.

Definition strlen (s : string) : Z := Z.of_nat (String.length s).

(** The exponent part of a numeric string: empty, or [E], an optional sign
    and at least one digit, up to the end of the string. *)
Definition parse_exponent (s : string) : option Z :=
  match s with
  | EmptyString => Some 0
  | String c r =>
      if Ascii.eqb c "e" then
        let '(neg, r') :=
          match r with
          | String "-" t => (true, t)
          | String "+" t => (false, t)
          | _ => (false, r)
          end in
        let '(ds, rest) := span_digits r' in
        if truthy ds && negb (truthy rest)
        then Some (if neg then - Z.of_N (digits_value ds) else Z.of_N (digits_value ds))
        else None
      else None
  end.

(** The number alternative: digits, an optional fraction, an optional
    exponent, with at least one digit before or after the point. *)
Definition parse_number (sign : bool) (s : string) : option Decimal :=
  let '(intpart, r1) := span_digits s in
  let '(fracpart, r2) :=
    match r1 with
    | String "." t => span_digits t
    | _ => (EmptyString, r1)
    end in
  if truthy intpart || truthy fracpart then
    match parse_exponent r2 with
    | Some e => Some (Finite sign (digits_value (intpart +:+ fracpart)) (e - strlen fracpart))
    | None => None
    end
  else None.

(** The NaN alternative after the letters: diagnostic digits to the end. *)
Definition parse_nan (sign signalling : bool) (s : string) : option Decimal :=
  let '(ds, rest) := span_digits s in
  if truthy rest then None else Some (NaN sign signalling (digits_value ds)).

(** [Decimal(s)] for a [str]: surrounding white space and underscores are
    dropped, letters are matched without regard to case; [None] stands for
    the syntax error, which the constructor signals as [InvalidOperation]. *)
Definition parse_decimal (s : string) : option Decimal :=
  let t := remove_underscores (strip s) in
  let '(sign, body) :=
    match t with
    | String "-" r => (true, r)
    | String "+" r => (false, r)
    | _ => (false, t)
    end in
  let b := lower body in
  if String.eqb b "inf" || String.eqb b "infinity" then Some (Infinity sign)
  else match b with
       | String "n" (String "a" (String "n" r)) => parse_nan sign false r
       | String "s" (String "n" (String "a" (String "n" r))) => parse_nan sign true r
       | _ => parse_number sign b
       end.

Definition Decimal_of_str (s : string) : Outcome Decimal :=
  match parse_decimal s with
  | Some d => Return d
  | None => Raise InvalidOperation
  end.

Definition signed (sign : bool) (coeff : N) : Z :=
  if sign then - Z.of_N coeff else Z.of_N coeff.

(** Numerical order of two finite decimals, after scaling both to the
    smaller exponent. *)
Definition finite_compare (s1 : bool) (c1 : N) (e1 : Z) (s2 : bool) (c2 : N) (e2 : Z)
    : comparison :=
  let e := Z.min e1 e2 in
  (signed s1 c1 * 10 ^ (e1 - e) ?= signed s2 c2 * 10 ^ (e2 - e)).

(** [a < b]: an ordering comparison that involves a NaN signals
    [InvalidOperation], which the default context traps. *)
Definition dec_lt (a b : Decimal) : Outcome bool :=
  match a, b with
  | NaN _ _ _, _ | _, NaN _ _ _ => Raise InvalidOperation
  | Infinity s1, Infinity s2 => Return (s1 && negb s2)
  | Infinity s1, Finite _ _ _ => Return s1
  | Finite _ _ _, Infinity s2 => Return (negb s2)
  | Finite s1 c1 e1, Finite s2 c2 e2 =>
      Return (match finite_compare s1 c1 e1 s2 c2 e2 with Lt => true | _ => false end)
  end.

(** [a > b] *)
Definition dec_gt (a b : Decimal) : Outcome bool := dec_lt b a.

(** The value of a finite decimal as a rational. *)
Definition finite_value (s : bool) (c : N) (e : Z) : Q :=
  (inject_Z (signed s c) * Qpower (inject_Z 10) e)%Q.

Definition digits_of_N (n : N) : string :=
  NilEmpty.string_of_uint (N.to_uint n).

Definition zeros (n : Z) : string := String.concat "" (repeat "0" (Z.to_nat n)).

(** ["%+d" % n] *)
Definition signed_digits (n : Z) : string :=
  (if n <? 0 then "-" else "+") +:+ digits_of_N (Z.abs_N n).

(** [str(d)]: the scientific string of the decimal arithmetic
    specification. *)
Definition Decimal_str (d : Decimal) : string :=
  match d with
  | Infinity s => (if s then "-" else "") +:+ "Infinity"
  | NaN s sig diag =>
      (if s then "-" else "") +:+ (if sig then "sNaN" else "NaN")
      +:+ (if (diag =? 0)%N then "" else digits_of_N diag)
  | Finite s c e =>
      let ds := digits_of_N c in
      let n := strlen ds in
      let leftdigits := e + n in
      let dotplace := if (e <=? 0) && (-6 <? leftdigits) then leftdigits else 1 in
      let '(intpart, fracpart) :=
        if dotplace <=? 0 then ("0", "." +:+ zeros (- dotplace) +:+ ds)
        else if n <=? dotplace then (ds +:+ zeros (dotplace - n), "")
        else (substring 0 (Z.to_nat dotplace) ds,
              "." +:+ substring (Z.to_nat dotplace) (Z.to_nat (n - dotplace)) ds) in
      let exp := if leftdigits =? dotplace then ""
                 else "E" +:+ signed_digits (leftdigits - dotplace) in
      (if s then "-" else "") +:+ intpart +:+ fracpart +:+ exp
  end.

(** ** [apps/quality/models.py] *)

Definition ID : Type := string.

Record TestParameter : Type := {
  param_id : ID;
  param_name : string;
  data_type : string;
  param_is_active : bool
}.

Record ProductSpecification : Type := {
  spec_product : ID;
  parameter : TestParameter;
  min_value : option Decimal;
  max_value : option Decimal;
  standard_text_value : string;
  spec_is_active : bool
}.

Definition caught_ValueError_TypeError (e : Exn) : bool :=
  match e with ValueError | TypeError => true | _ => false end.

(** [ProductSpecification.validate_value] *)
Definition validate_value (self : ProductSpecification) (actual_value : string)
    : Outcome (bool * option string) :=
  if String.eqb (data_type (parameter self)) "Numeric" then
    try_except
      (let! value := Decimal_of_str actual_value in
       let! below := match min_value self with
                     | Some m => dec_lt value m
                     | None => Return false
                     end in
       if below then
         Return (false, Some ("Value " +:+ Decimal_str value +:+ " is below minimum "
                              +:+ match min_value self with
                                  | Some m => Decimal_str m | None => "None" end))
       else
         let! above := match max_value self with
                       | Some m => dec_gt value m
                       | None => Return false
                       end in
         if above then
           Return (false, Some ("Value " +:+ Decimal_str value +:+ " is above maximum "
                                +:+ match max_value self with
                                    | Some m => Decimal_str m | None => "None" end))
         else Return (true, None))
      caught_ValueError_TypeError
      (Return (false, Some ("Invalid numeric value: " +:+ actual_value)))
  else if String.eqb (data_type (parameter self)) "Text" then
    if truthy (standard_text_value self)
       && negb (String.eqb (lower (strip actual_value))
                           (lower (strip (standard_text_value self))))
    then Return (false, Some ("Value '" +:+ actual_value +:+ "' does not match standard '"
                              +:+ standard_text_value self +:+ "'"))
    else Return (true, None)
  else if String.eqb (data_type (parameter self)) "Boolean" then
    if truthy (standard_text_value self) then
      let expected := str_in (lower (strip (standard_text_value self)))
                             ["true"; "yes"; "1"; "pass"] in
      let actual := str_in (lower (strip actual_value)) ["true"; "yes"; "1"; "pass"] in
      if negb (Bool.eqb expected actual)
      then Return (false, Some "Boolean value mismatch")
      else Return (true, None)
    else Return (true, None)
  else Return (true, None).

(** ** State and exceptions together *)

(** A computation over a mutable state [S]: it returns or raises, and in
    both cases leaves a state behind (what was written before an exception
    stays written). *)
Definition M (S A : Type) : Type := S -> Outcome A * S.

Definition ret {S A} (a : A) : M S A := fun s => (Return a, s).
Definition raise {S A} (e : Exn) : M S A := fun s => (Raise e, s).
Definition lift {S A} (o : Outcome A) : M S A := fun s => (o, s).
Definition get {S} : M S S := fun s => (Return s, s).
Definition modify {S} (f : S -> S) : M S unit := fun s => (Return tt, f s).

Definition bind {S A B} (m : M S A) (k : A -> M S B) : M S B :=
  fun s =>
    match m s with
    | (Return a, s') => k a s'
    | (Raise e, s') => (Raise e, s')
    end.

Notation "'let*' x ':=' m 'in' k" := (bind m (fun x => k))
  (at level 10, x name, m at level 100, k at level 200, only parsing).
Notation "m1 ';;' m2" := (bind m1 (fun _ => m2))
  (at level 100, m2 at level 200, right associativity, only parsing).

(** [try: body except Exception: handler] *)
Definition try_except_Exception {S A} (body handler : M S A) : M S A :=
  fun s =>
    match body s with
    | (Return a, s') => (Return a, s')
    | (Raise _, s') => handler s'
    end.

(** ** [apps/testing/models.py]: rows and tables *)

Record TestRequest : Type := {
  req_id : ID;
  batch_number : string;
  product : ID;
  controller_user : N;
  status : string;
  current_step : Z;
  req_is_active : bool
}.

Record TestResult : Type := {
  result_id : ID;
  test_request_id : option ID;
  parameter_id : option ID;
  actual_value : string;
  pass_fail_status : option bool;
  tested_by : option N
}.

Record Database : Type := {
  test_requests : list TestRequest;
  test_results : list TestResult;
  specifications : list ProductSpecification;
  parameters : list TestParameter
}.

Definition with_test_requests (rows : list TestRequest) (db : Database) : Database :=
  {| test_requests := rows; test_results := test_results db;
     specifications := specifications db; parameters := parameters db |}.

Definition with_test_results (rows : list TestResult) (db : Database) : Database :=
  {| test_requests := test_requests db; test_results := rows;
     specifications := specifications db; parameters := parameters db |}.

Definition set_status (v : string) (r : TestRequest) : TestRequest :=
  {| req_id := req_id r; batch_number := batch_number r; product := product r;
     controller_user := controller_user r; status := v;
     current_step := current_step r; req_is_active := req_is_active r |}.

Definition set_current_step (v : Z) (r : TestRequest) : TestRequest :=
  {| req_id := req_id r; batch_number := batch_number r; product := product r;
     controller_user := controller_user r; status := status r;
     current_step := v; req_is_active := req_is_active r |}.

Definition set_actual_value (v : string) (r : TestResult) : TestResult :=
  {| result_id := result_id r; test_request_id := test_request_id r;
     parameter_id := parameter_id r; actual_value := v;
     pass_fail_status := pass_fail_status r; tested_by := tested_by r |}.

Definition set_pass_fail_status (v : option bool) (r : TestResult) : TestResult :=
  {| result_id := result_id r; test_request_id := test_request_id r;
     parameter_id := parameter_id r; actual_value := actual_value r;
     pass_fail_status := v; tested_by := tested_by r |}.

Definition set_tested_by (v : option N) (r : TestResult) : TestResult :=
  {| result_id := result_id r; test_request_id := test_request_id r;
     parameter_id := parameter_id r; actual_value := actual_value r;
     pass_fail_status := pass_fail_status r; tested_by := v |}.

(** ** [django.db.models.Model.save] *)

(** The keyword arguments of [save] that the code uses. *)
Record SaveArgs : Type := {
  update_fields : option (list string);
  force_insert : bool
}.

Definition plain_save : SaveArgs := {| update_fields := None; force_insert := false |}.
Definition save_fields (fs : list string) : SaveArgs :=
  {| update_fields := Some fs; force_insert := false |}.
Definition save_insert : SaveArgs := {| update_fields := None; force_insert := true |}.

(** The columns of [row] named in [fs] take the values of [self]. *)
Definition write_request_fields (fs : list string) (self row : TestRequest) : TestRequest :=
  {| req_id := req_id row;
     batch_number := if str_in "batch_number" fs then batch_number self else batch_number row;
     product := if str_in "product" fs then product self else product row;
     controller_user := if str_in "controller_user" fs then controller_user self
                        else controller_user row;
     status := if str_in "status" fs then status self else status row;
     current_step := if str_in "current_step" fs then current_step self else current_step row;
     req_is_active := if str_in "is_active" fs then req_is_active self else req_is_active row |}.

Definition write_result_fields (fs : list string) (self row : TestResult) : TestResult :=
  {| result_id := result_id row;
     test_request_id := if str_in "test_request" fs then test_request_id self
                        else test_request_id row;
     parameter_id := if str_in "parameter" fs then parameter_id self else parameter_id row;
     actual_value := if str_in "actual_value" fs then actual_value self else actual_value row;
     pass_fail_status := if str_in "pass_fail_status" fs then pass_fail_status self
                         else pass_fail_status row;
     tested_by := if str_in "tested_by" fs then tested_by self else tested_by row |}.

(** [Model.save] on a table whose primary key is [key]: with
    [update_fields] an UPDATE of the named columns, which raises
    [DatabaseError] when no row has the key; with [force_insert] an INSERT,
    which raises [IntegrityError] on a duplicate key; otherwise an UPDATE of
    every column, or an INSERT when no row has the key. *)
Definition model_save {R : Type} (key : R -> ID) (write : list string -> R -> R -> R)
    (kw : SaveArgs) (self : R) (rows : list R) : Outcome (list R) :=
  let present := existsb (fun row => String.eqb (key row) (key self)) rows in
  match update_fields kw with
  | Some fs =>
      if present
      then Return (map (fun row => if String.eqb (key row) (key self)
                                   then write fs self row else row) rows)
      else Raise DatabaseError
  | None =>
      if force_insert kw then
        if present then Raise IntegrityError else Return (rows ++ [self])%list
      else if present
      then Return (map (fun row => if String.eqb (key row) (key self) then self else row) rows)
      else Return (rows ++ [self])%list
  end.

(** [TestRequest.save]: the inherited [Model.save]. *)
Definition TestRequest_save (kw : SaveArgs) : M (TestRequest * Database) unit :=
  fun '(self, db) =>
    match model_save req_id write_request_fields kw self (test_requests db) with
    | Return rows => (Return tt, (self, with_test_requests rows db))
    | Raise e => (Raise e, (self, db))
    end.

(** The inherited [Model.save] that [TestResult.save] reaches through [super]. *)
Definition super_save (kw : SaveArgs) : M (TestResult * Database) unit :=
  fun '(self, db) =>
    match model_save result_id write_result_fields kw self (test_results db) with
    | Return rows => (Return tt, (self, with_test_results rows db))
    | Raise e => (Raise e, (self, db))
    end.

(** ** [TestRequest] *)

(** [int(x)] for a real [x]: truncation towards zero. *)
Definition int_of_Q (x : Q) : Z := if Qle_bool 0 x then Qfloor x else Qceiling x.

(** [TestRequest.get_progress_percentage].  The quotient
    [current_step / 4] and its product with 100 are computed in binary
    floating point; both are exact as long as [25 * current_step] stays
    below [2^53] in magnitude, which covers every value of the integer
    column, so they are taken here as the rational operations. *)
Definition get_progress_percentage (self : TestRequest) : Z :=
  if String.eqb (status self) "Approved"
     || (String.eqb (status self) "Completed" && (current_step self =? 4))
  then 100
  else if String.eqb (status self) "Submitted for Review" then 75
  else if current_step self =? 4 then 100
  else int_of_Q ((inject_Z (current_step self) / 4) * 100)%Q.

(** [TestRequest.can_proceed_to_next_step] *)
Definition can_proceed_to_next_step (self : TestRequest) : bool :=
  if String.eqb (status self) "Rejected" then false
  else if 4 <=? current_step self then false
  else true.

(** [TestRequest.advance_step] *)
Definition advance_step : M (TestRequest * Database) bool :=
  let* st := get in
  if can_proceed_to_next_step (fst st) then
    modify (fun '(self, db) => (set_current_step (current_step self + 1) self, db)) ;;
    let* st := get in
    (if current_step (fst st) =? 4
     then modify (fun '(self, db) => (set_status "Completed" self, db))
     else modify (fun '(self, db) => (set_status "In-Progress" self, db))) ;;
    TestRequest_save (save_fields ["current_step"; "status"; "updated_at"]) ;;
    ret true
  else ret false.

(** ** [TestResult] *)

Definition find_request (id : ID) (db : Database) : option TestRequest :=
  head (List.filter (fun r => String.eqb (req_id r) id) (test_requests db)).

Definition find_parameter (id : ID) (db : Database) : option TestParameter :=
  head (List.filter (fun p => String.eqb (param_id p) id) (parameters db)).

(** [self.test_request]: the related row, or [DoesNotExist]. *)
Definition related_request (self : TestResult) (db : Database) : Outcome TestRequest :=
  match test_request_id self with
  | Some id => match find_request id db with
               | Some r => Return r
               | None => Raise DoesNotExist
               end
  | None => Raise DoesNotExist
  end.

(** [self.parameter]: the related row, or [DoesNotExist]. *)
Definition related_parameter (self : TestResult) (db : Database) : Outcome TestParameter :=
  match parameter_id self with
  | Some id => match find_parameter id db with
               | Some p => Return p
               | None => Raise DoesNotExist
               end
  | None => Raise DoesNotExist
  end.

(** [self.test_request.product.specifications.filter(parameter=self.parameter,
    is_active=True).first()] *)
Definition first_specification (self : TestResult) (db : Database)
    : Outcome (option ProductSpecification) :=
  let! request := related_request self db in
  let! param := related_parameter self db in
  Return (head (List.filter (fun sp => String.eqb (spec_product sp) (product request)
                                  && String.eqb (param_id (parameter sp)) (param_id param)
                                  && spec_is_active sp)
                       (specifications db))).

Definition assign_pass_fail_status (v : option bool) : M (TestResult * Database) unit :=
  modify (fun '(self, db) => (set_pass_fail_status v self, db)).

Definition status_fields : SaveArgs := save_fields ["pass_fail_status"; "updated_at"].

(** [TestResult.save] and [TestResult.calculate_pass_fail], which call each
    other.  [depth] is the number of nested calls of these two methods that
    the interpreter's recursion limit still admits; a call beyond it raises
    [RecursionError]. *)
Fixpoint save (depth : nat) (kw : SaveArgs) : M (TestResult * Database) unit :=
  match depth with
  | O => raise RecursionError
  | S d =>
      let* st := get in
      if negb (bool_decide (is_Some (pass_fail_status (fst st))))
         && truthy (actual_value (fst st))
      then
        super_save kw ;;
        let* st := get in
        if bool_decide (is_Some (test_request_id (fst st)))
           && bool_decide (is_Some (parameter_id (fst st)))
        then calculate_pass_fail d ;; ret tt
        else ret tt
      else super_save kw
  end
with calculate_pass_fail (depth : nat) : M (TestResult * Database) bool :=
  match depth with
  | O => raise RecursionError
  | S d =>
      try_except_Exception
        (let* st := get in
         let* specification := lift (first_specification (fst st) (snd st)) in
         match specification with
         | None =>
             assign_pass_fail_status None ;;
             save d status_fields ;;
             ret false
         | Some spec =>
             let* r := lift (validate_value spec (actual_value (fst st))) in
             assign_pass_fail_status (Some (fst r)) ;;
             save d status_fields ;;
             ret (fst r)
         end)
        (assign_pass_fail_status None ;;
         save d status_fields ;;
         ret false)
  end.

(** ** [apps/users]: roles *)

Record User : Type := {
  user_id : N;
  role : string
}.

(** [User.is_admin], [User.is_controller] *)
Definition is_admin (u : User) : bool := String.eqb (role u) "ADMIN".
Definition is_controller (u : User) : bool := String.eqb (role u) "CONTROLLER".

(** [request.user] is [None] for the anonymous user, whose
    [is_authenticated] is false. *)
Definition has_admin_access (user : option User) : bool :=
  match user with Some u => is_admin u | None => false end.

Definition has_controller_access (user : option User) : bool :=
  match user with Some u => is_controller u | None => false end.

(** ** Requests, responses and what a view can change *)

Record HttpRequest : Type := {
  user : option User;
  method : string;
  POST : gmap string (list string)
}.

Inductive HttpResponse : Type :=
| redirect (to : string) (test_id : option ID) (step : option Z)
| render (template : string).

(** The database, the session, the messages queued for the user and the
    number of identifiers drawn so far. *)
Record Site : Type := {
  db : Database;
  session : gmap string (list ID);
  messages : list (string * string);
  uuid_calls : nat
}.

Definition with_db (d : Database) (s : Site) : Site :=
  {| db := d; session := session s; messages := messages s; uuid_calls := uuid_calls s |}.

Definition with_session (v : gmap string (list ID)) (s : Site) : Site :=
  {| db := db s; session := v; messages := messages s; uuid_calls := uuid_calls s |}.

Definition add_message (level text : string) : M Site unit :=
  modify (fun s => {| db := db s; session := session s;
                      messages := (messages s ++ [(level, text)])%list;
                      uuid_calls := uuid_calls s |}).

(** [uuid.uuid4()]: the next identifier of the supply [uuid4]. *)
Definition draw_uuid (uuid4 : nat -> ID) : M Site ID :=
  fun s => (Return (uuid4 (uuid_calls s)),
            {| db := db s; session := session s; messages := messages s;
               uuid_calls := S (uuid_calls s) |}).

(** [key in request.POST], [request.POST.getlist(key)] and
    [request.POST.get(key)] (the last value of the key). *)
Definition post_has (key : string) (request : HttpRequest) : bool :=
  bool_decide (is_Some (POST request !! key)).

Definition post_list (key : string) (request : HttpRequest) : list string :=
  default [] (POST request !! key).

Definition post_get (key : string) (request : HttpRequest) : option string :=
  last (post_list key request).

(** [with transaction.atomic():] an exception rolls the database back and
    goes on. *)
Definition atomic {A} (body : M Site A) : M Site A :=
  fun s =>
    match body s with
    | (Return a, s') => (Return a, s')
    | (Raise e, s') => (Raise e, with_db (db s) s')
    end.

(** Run a method of a [TestRequest] object against the database. *)
Definition on_request {A} (obj : TestRequest) (m : M (TestRequest * Database) A)
    : M Site (A * TestRequest) :=
  fun s =>
    match m (obj, db s) with
    | (Return a, (obj', d)) => (Return (a, obj'), with_db d s)
    | (Raise e, (_, d)) => (Raise e, with_db d s)
    end.

(** Run a method of a [TestResult] object against the database. *)
Definition on_result {A} (obj : TestResult) (m : M (TestResult * Database) A)
    : M Site (A * TestResult) :=
  fun s =>
    match m (obj, db s) with
    | (Return a, (obj', d)) => (Return (a, obj'), with_db d s)
    | (Raise e, (_, d)) => (Raise e, with_db d s)
    end.

(** [get_object_or_404(TestRequest, id=test_id, is_active=True)] *)
Definition get_object_or_404 (test_id : ID) : M Site TestRequest :=
  let* s := get in
  match head (List.filter (fun r => String.eqb (req_id r) test_id && req_is_active r)
                          (test_requests (db s))) with
  | Some r => ret r
  | None => raise Http404
  end.

(** ** [apps/testing/forms.py] *)

(** The choices of [TestParameterSelectionForm]: the active parameters that
    have an active specification for the product of the request. *)
Definition selectable_parameters (test_request : TestRequest) (d : Database)
    : list TestParameter :=
  let spec_params :=
    map (fun sp => param_id (parameter sp))
        (List.filter (fun sp => String.eqb (spec_product sp) (product test_request)
                                && spec_is_active sp)
                     (specifications d)) in
  List.filter (fun p => str_in (param_id p) spec_params && param_is_active p) (parameters d).

(** [form.is_valid()] and [form.cleaned_data.get('parameters')]: at least one
    value, every value one of the choices. *)
Definition TestParameterSelectionForm (request : HttpRequest) (test_request : TestRequest)
    (d : Database) : option (list TestParameter) :=
  let values := post_list "parameters" request in
  let choices := selectable_parameters test_request d in
  if bool_decide (values = []) then None
  else if forallb (fun v => str_in v (map param_id choices)) values
       then Some (List.filter (fun p => str_in (param_id p) values) choices)
       else None.

(** [TestReviewForm]: the action must be one of the three choices. *)
Definition TestReviewForm (request : HttpRequest) : option string :=
  match post_get "action" request with
  | Some a => if str_in a ["submit"; "approve"; "reject"] then Some a else None
  | None => None
  end.

(** The cleaned data of a valid [TestRequestForm]. *)
Record TestRequestForm : Type := {
  form_batch_number : string;
  form_product : ID
}.

(** ** [apps/testing/views.py] *)

(** [TestResult.objects.get_or_create(test_request=..., parameter=...,
    defaults={actual_value, tested_by})] *)
Definition get_or_create (depth : nat) (uuid4 : nat -> ID) (test_request : TestRequest)
    (param : TestParameter) (value : string) (by_user : User)
    : M Site (TestResult * bool) :=
  let* s := get in
  match List.filter (fun r => bool_decide (test_request_id r = Some (req_id test_request))
                              && bool_decide (parameter_id r = Some (param_id param)))
                    (test_results (db s)) with
  | [r] => ret (r, false)
  | _ :: _ :: _ => raise MultipleObjectsReturned
  | [] =>
      let* id := draw_uuid uuid4 in
      let obj := {| result_id := id;
                    test_request_id := Some (req_id test_request);
                    parameter_id := Some (param_id param);
                    actual_value := value;
                    pass_fail_status := None;
                    tested_by := Some (user_id by_user) |} in
      let* r := on_result obj (save depth save_insert) in
      ret (snd r, true)
  end.

(** The body of the loop of step 3 for one parameter. *)
Definition enter_result (depth : nat) (uuid4 : nat -> ID) (request : HttpRequest)
    (u : User) (test_request : TestRequest) (param : TestParameter) : M Site unit :=
  let value_key := "value_" +:+ param_id param in
  if post_has value_key request then
    let actual := default "" (post_get value_key request) in
    let* gc := get_or_create depth uuid4 test_request param actual u in
    let* result :=
      (if negb (snd gc) then
         let* r := on_result (set_tested_by (Some (user_id u))
                                (set_actual_value actual (fst gc)))
                             (save depth plain_save) in
         ret (snd r)
       else ret (fst gc)) in
    on_result result (calculate_pass_fail depth) ;;
    ret tt
  else ret tt.

(** [for param in parameters: ...] *)
Fixpoint enter_results (depth : nat) (uuid4 : nat -> ID) (request : HttpRequest)
    (u : User) (test_request : TestRequest) (params : list TestParameter) : M Site unit :=
  match params with
  | [] => ret tt
  | param :: rest =>
      enter_result depth uuid4 request u test_request param ;;
      enter_results depth uuid4 request u test_request rest
  end.

Definition session_key (test_id : ID) : string := "test_" +:+ test_id +:+ "_params".

(** [pipeline_step], under [controller_required] and [login_required]. *)
Definition pipeline_step (depth : nat) (uuid4 : nat -> ID) (request : HttpRequest)
    (test_id : ID) (step : Z) : M Site HttpResponse :=
  match user request with
  | None => ret (redirect "login" None None)
  | Some u =>
    if negb (has_controller_access (user request) || has_admin_access (user request)) then
      add_message "error" "Controller access required." ;;
      ret (redirect "dashboard" None None)
    else
      let* test_request := get_object_or_404 test_id in
      if negb (controller_user test_request =? user_id u)%N && negb (is_admin u) then
        add_message "error" "You do not have permission to access this test." ;;
        ret (redirect "testing:list" None None)
      else if step =? 2 then
        if String.eqb (method request) "POST" then
          let* s := get in
          match TestParameterSelectionForm request test_request (db s) with
          | Some selected_params =>
              modify (fun s => with_session
                                 (<[session_key test_id := map param_id selected_params]>
                                    (session s)) s) ;;
              let test_request := set_status "In-Progress" (set_current_step 2 test_request) in
              on_request test_request (TestRequest_save plain_save) ;;
              add_message "success" "Parameters selected. Proceed to step 3." ;;
              ret (redirect "testing:pipeline_step" (Some test_id) (Some 3))
          | None =>
              (* [specifications] is bound on the GET path only *)
              raise UnboundLocalError
          end
        else ret (render "testing/pipeline_step_2.html")
      else if step =? 3 then
        let* s := get in
        let param_ids := default [] (session s !! session_key test_id) in
        match param_ids with
        | [] =>
            add_message "error" "Please select parameters first." ;;
            ret (redirect "testing:pipeline_step" (Some test_id) (Some 2))
        | _ :: _ =>
            let params := List.filter (fun p => str_in (param_id p) param_ids
                                                && param_is_active p)
                                      (parameters (db s)) in
            if String.eqb (method request) "POST" then
              atomic
                (enter_results depth uuid4 request u test_request params ;;
                 let test_request := set_current_step 3 test_request in
                 on_request test_request (TestRequest_save plain_save) ;;
                 add_message "success" "Results entered. Proceed to review." ;;
                 ret (redirect "testing:pipeline_step" (Some test_id) (Some 4)))
            else ret (render "testing/pipeline_step_3.html")
        end
      else if step =? 4 then
        if String.eqb (method request) "POST" then
          match TestReviewForm request with
          | Some action =>
              if String.eqb action "submit" then
                let test_request :=
                  set_status "Submitted for Review" (set_current_step 4 test_request) in
                on_request test_request (TestRequest_save plain_save) ;;
                add_message "success" "Test request submitted for review. Progress: 75%" ;;
                ret (redirect "testing:detail" (Some test_id) None)
              else if String.eqb action "approve" then
                let test_request := set_status "Approved" (set_current_step 4 test_request) in
                on_request test_request (TestRequest_save plain_save) ;;
                add_message "success" "Test request approved. Progress: 100%" ;;
                ret (redirect "testing:detail" (Some test_id) None)
              else if String.eqb action "reject" then
                let test_request := set_status "Rejected" test_request in
                on_request test_request (TestRequest_save plain_save) ;;
                add_message "warning" "Test request rejected." ;;
                ret (redirect "testing:detail" (Some test_id) None)
              else ret (render "testing/pipeline_step_4.html")
          | None => ret (render "testing/pipeline_step_4.html")
          end
        else ret (render "testing/pipeline_step_4.html")
      else
        add_message "error" "Invalid step." ;;
        ret (redirect "testing:list" None None)
  end.

(** [pipeline_start], under [controller_required]; [form] is the cleaned
    data of the posted [TestRequestForm], or [None] when it is not valid.
    The new object has a key of its own, so its [save] is an INSERT. *)
Definition pipeline_start (uuid4 : nat -> ID) (request : HttpRequest)
    (form : option TestRequestForm) : M Site HttpResponse :=
  match user request with
  | None => ret (redirect "login" None None)
  | Some u =>
    if negb (has_controller_access (user request) || has_admin_access (user request)) then
      add_message "error" "Controller access required." ;;
      ret (redirect "dashboard" None None)
    else if String.eqb (method request) "POST" then
      match form with
      | Some f =>
          let* id := draw_uuid uuid4 in
          let test_request :=
            {| req_id := id; batch_number := form_batch_number f;
               product := form_product f; controller_user := user_id u;
               status := "Pending"; current_step := 1; req_is_active := true |} in
          on_request test_request (TestRequest_save save_insert) ;;
          add_message "success" "Test request created. Proceed to step 2." ;;
          ret (redirect "testing:pipeline_step" (Some id) (Some 2))
      | None => ret (render "testing/pipeline_step_1.html")
      end
    else ret (render "testing/pipeline_step_1.html")
  end.

(** [TestRequestDetailView.get_object]: the queryset of the user, filtered
    by the key. *)
Definition get_object (u : User) (test_id : ID) : M Site TestRequest :=
  let* s := get in
  let queryset :=
    if is_admin u
    then List.filter (fun r => req_is_active r) (test_requests (db s))
    else List.filter (fun r => (controller_user r =? user_id u)%N && req_is_active r)
                     (test_requests (db s)) in
  match head (List.filter (fun r => String.eqb (req_id r) test_id) queryset) with
  | Some r => ret r
  | None => raise Http404
  end.

(** [TestRequestDetailView.post], behind [RoleRequiredMixin.dispatch]. *)
Definition TestRequestDetailView_post (request : HttpRequest) (test_id : ID)
    : M Site HttpResponse :=
  match user request with
  | None => ret (redirect "login" None None)
  | Some u =>
    if negb (str_in (role u) ["ADMIN"; "CONTROLLER"]) then
      add_message "error" "You do not have permission to access this page." ;;
      ret (redirect "dashboard" None None)
    else
      let* object := get_object u test_id in
      if negb (is_admin u) then
        add_message "error" "Only admins can approve tests." ;;
        ret (redirect "testing:detail" (Some (req_id object)) None)
      else
        (if String.eqb (status object) "Submitted for Review" then
           let action := post_get "action" request in
           if bool_decide (action = Some "approve") then
             on_request (set_status "Approved" object) (TestRequest_save plain_save) ;;
             add_message "success" "Test request approved. Progress: 100%"
           else if bool_decide (action = Some "reject") then
             on_request (set_status "Rejected" object) (TestRequest_save plain_save) ;;
             add_message "warning" "Test request rejected."
           else add_message "error" "Invalid action."
         else ret tt) ;;
        ret (redirect "testing:detail" (Some (req_id object)) None)
  end.

(** The calls that reach the testing views. *)
Inductive ViewCall : Type :=
| call_pipeline_start (request : HttpRequest) (form : option TestRequestForm)
| call_pipeline_step (request : HttpRequest) (test_id : ID) (step : Z)
| call_detail_post (request : HttpRequest) (test_id : ID).

Definition run_view (depth : nat) (uuid4 : nat -> ID) (c : ViewCall) : M Site HttpResponse :=
  match c with
  | call_pipeline_start request form => pipeline_start uuid4 request form
  | call_pipeline_step request test_id step => pipeline_step depth uuid4 request test_id step
  | call_detail_post request test_id => TestRequestDetailView_post request test_id
  end.

(** ** [apps/core/models.py]: soft deletion *)

Definition set_req_is_active (v : bool) (r : TestRequest) : TestRequest :=
  {| req_id := req_id r; batch_number := batch_number r; product := product r;
     controller_user := controller_user r; status := status r;
     current_step := current_step r; req_is_active := v |}.

(** [BaseModel.soft_delete], as a [TestRequest] inherits it. *)
Definition soft_delete : M (TestRequest * Database) unit :=
  modify (fun '(self, d) => (set_req_is_active false self, d)) ;;
  TestRequest_save (save_fields ["is_active"; "updated_at"]).

(** ** [apps/users/permissions.py] *)

Definition PERMISSION_ADMIN_ACCESS : string := "admin_access".
Definition PERMISSION_CONTROLLER_ACCESS : string := "controller_access".
Definition PERMISSION_PRODUCT_MANAGE : string := "product_manage".
Definition PERMISSION_SUPPLIER_MANAGE : string := "supplier_manage".
Definition PERMISSION_SPECIFICATION_MANAGE : string := "specification_manage".
Definition PERMISSION_TEST_CREATE : string := "test_create".
Definition PERMISSION_TEST_VIEW : string := "test_view".
Definition PERMISSION_ANALYTICS_VIEW : string := "analytics_view".

Definition can_manage_products (user : option User) : bool := has_admin_access user.
Definition can_manage_suppliers (user : option User) : bool := has_admin_access user.
Definition can_manage_specifications (user : option User) : bool := has_admin_access user.
Definition can_create_tests (user : option User) : bool := has_controller_access user.
Definition can_view_analytics (user : option User) : bool := has_admin_access user.

(** The dictionary of [has_permission]. *)
Definition permission_map : gmap string (option User -> bool) :=
  list_to_map
    [(PERMISSION_ADMIN_ACCESS, has_admin_access);
     (PERMISSION_CONTROLLER_ACCESS, has_controller_access);
     (PERMISSION_PRODUCT_MANAGE, can_manage_products);
     (PERMISSION_SUPPLIER_MANAGE, can_manage_suppliers);
     (PERMISSION_SPECIFICATION_MANAGE, can_manage_specifications);
     (PERMISSION_TEST_CREATE, can_create_tests);
     (PERMISSION_ANALYTICS_VIEW, can_view_analytics)].

(** [has_permission] *)
Definition has_permission (user : option User) (permission : string) : bool :=
  match permission_map !! permission with
  | Some checker => checker user
  | None => false
  end.

(** ** [apps/users/decorators.py] and [apps/users/mixins.py] *)

Definition View : Type := HttpRequest -> M Site HttpResponse.

(** [login_required]: the anonymous user is sent to the login page. *)
Definition login_required (view_func : View) : View :=
  fun request =>
    match user request with
    | None => ret (redirect "login" None None)
    | Some _ => view_func request
    end.

(** [role_required(roles)] *)
Definition role_required (roles : list string) (view_func : View) : View :=
  login_required
    (fun request =>
       match user request with
       | Some u =>
           if negb (str_in (role u) roles) then
             add_message "error" "You do not have permission to access this page." ;;
             ret (redirect "dashboard" None None)
           else view_func request
       | None => view_func request
       end).

(** [admin_required] *)
Definition admin_required (view_func : View) : View :=
  login_required
    (fun request =>
       if negb (has_admin_access (user request)) then
         add_message "error" "Admin access required." ;;
         ret (redirect "dashboard" None None)
       else view_func request).

(** [controller_required] *)
Definition controller_required (view_func : View) : View :=
  login_required
    (fun request =>
       if negb (has_controller_access (user request) || has_admin_access (user request)) then
         add_message "error" "Controller access required." ;;
         ret (redirect "dashboard" None None)
       else view_func request).

(** [RoleRequiredMixin.dispatch], [super().dispatch] being [view_func]. *)
Definition RoleRequiredMixin_dispatch (required_roles : list string) (view_func : View)
    : View :=
  fun request =>
    match user request with
    | None => ret (redirect "login" None None)
    | Some u =>
        if negb (bool_decide (required_roles = [])) && negb (str_in (role u) required_roles)
        then
          add_message "error" "You do not have permission to access this page." ;;
          ret (redirect "dashboard" None None)
        else view_func request
    end.

(** [ControllerRequiredMixin.dispatch] *)
Definition ControllerRequiredMixin_dispatch (view_func : View) : View :=
  fun request =>
    match user request with
    | None => ret (redirect "login" None None)
    | Some _ =>
        if negb (has_controller_access (user request) || has_admin_access (user request))
        then
          add_message "error" "Controller access required." ;;
          ret (redirect "dashboard" None None)
        else view_func request
    end.

(** ** [apps/analytics/views.py] and [services/export_service.py]: counts *)

(** [sum(1 for t in tests if cond(t))] *)
Definition count_if {A} (cond : A -> bool) (l : list A) : nat := length (List.filter cond l).

(** The four progress counts of the analytics dashboard. *)
Definition progress_0_25 (filtered_tests : list TestRequest) : nat :=
  count_if (fun t => get_progress_percentage t <=? 25) filtered_tests.
Definition progress_26_50 (filtered_tests : list TestRequest) : nat :=
  count_if (fun t => (26 <=? get_progress_percentage t) && (get_progress_percentage t <=? 50))
           filtered_tests.
Definition progress_51_75 (filtered_tests : list TestRequest) : nat :=
  count_if (fun t => (51 <=? get_progress_percentage t) && (get_progress_percentage t <=? 75))
           filtered_tests.
Definition progress_76_100 (filtered_tests : list TestRequest) : nat :=
  count_if (fun t => 76 <=? get_progress_percentage t) filtered_tests.

(** [progress_data]: a label and a count for every count that is not 0. *)
Definition progress_data (filtered_tests : list TestRequest) : list string * list nat :=
  let add (label : string) (n : nat) (d : list string * list nat) :=
    if (0 <? n)%nat then ((fst d ++ [label])%list, (snd d ++ [n])%list) else d in
  add "76-100%" (progress_76_100 filtered_tests)
    (add "51-75%" (progress_51_75 filtered_tests)
       (add "26-50%" (progress_26_50 filtered_tests)
          (add "0-25%" (progress_0_25 filtered_tests) ([], [])))).



(** ** Notions the properties are stated with *)

Definition is_nan (d : Decimal) : bool :=
  match d with NaN _ _ _ => true | _ => false end.

Definition is_finite (d : Decimal) : bool :=
  match d with Finite _ _ _ => true | _ => false end.

(** [a] is numerically below [b]; a NaN is below nothing and nothing is
    below a NaN. *)
Definition strictly_below (a b : Decimal) : Prop :=
  match a, b with
  | Finite s1 c1 e1, Finite s2 c2 e2 => (finite_value s1 c1 e1 < finite_value s2 c2 e2)%Q
  | Infinity true, Finite _ _ _ => True
  | Finite _ _ _, Infinity false => True
  | Infinity true, Infinity false => True
  | _, _ => False
  end.

(** [a] and [b] denote the same number. *)
Definition same_value (a b : Decimal) : Prop :=
  match a, b with
  | Finite s1 c1 e1, Finite s2 c2 e2 => (finite_value s1 c1 e1 == finite_value s2 c2 e2)%Q
  | Infinity s1, Infinity s2 => s1 = s2
  | _, _ => False
  end.

(** The bounds of a specification are numbers, as the decimal column that
    holds them requires. *)
Definition bounds_finite (self : ProductSpecification) : Prop :=
  (forall m, min_value self = Some m -> is_finite m = true)
  /\ (forall m, max_value self = Some m -> is_finite m = true).

(** The value violates one of the bounds that are set. *)
Definition out_of_bounds (self : ProductSpecification) (value : Decimal) : Prop :=
  (exists m, min_value self = Some m /\ strictly_below value m)
  \/ (exists m, max_value self = Some m /\ strictly_below m value).

Definition eq_ignoring_case (a b : string) : bool := String.eqb (lower a) (lower b).

(** Trimmed, case-insensitive membership in the truthy tokens. *)
Definition truthy_token (s : string) : bool :=
  existsb (eq_ignoring_case (strip s)) ["true"; "yes"; "1"; "pass"].

(** The request of a given key is stored. *)
Definition request_stored (self : TestRequest) (db : Database) : Prop :=
  existsb (fun row => String.eqb (req_id row) (req_id self)) (test_requests db) = true.

(** What [advance_step] leaves in the object after an advance. *)
Definition advanced (self : TestRequest) : TestRequest :=
  set_status (if current_step self + 1 =? 4 then "Completed" else "In-Progress")
             (set_current_step (current_step self + 1) self).

(** The result of a given key is stored. *)
Definition result_stored (self : TestResult) (db : Database) : Prop :=
  existsb (fun row => String.eqb (result_id row) (result_id self)) (test_results db) = true.

Definition find_result (id : ID) (db : Database) : option TestResult :=
  head (List.filter (fun r => String.eqb (result_id r) id) (test_results db)).

(** What the try block of [calculate_pass_fail] computes before it assigns:
    no verdict when no specification applies, the validator's verdict
    otherwise. *)
Definition evaluation (self : TestResult) (db : Database) : Outcome (option bool) :=
  let! specification := first_specification self db in
  match specification with
  | None => Return None
  | Some spec =>
      let! r := validate_value spec (actual_value self) in
      Return (Some (fst r))
  end.

(** Assign the status, save it, return [b]. *)
Definition store_status (d : nat) (v : option bool) (b : bool)
    : M (TestResult * Database) bool :=
  assign_pass_fail_status v ;; save d status_fields ;; ret b.

(** A result in [st] whose evaluation yields no verdict, with a non-empty
    value and both references set: saving its blank status re-enters
    [calculate_pass_fail]. *)
Definition reentrant (st : TestResult * Database) : Prop :=
  (forall b, evaluation (fst st) (snd st) <> Return (Some b))
  /\ actual_value (fst st) <> ""
  /\ is_Some (test_request_id (fst st))
  /\ is_Some (parameter_id (fst st))
  /\ result_stored (fst st) (snd st).

(** The state with the pass/fail status of the object and of its rows
    blanked: what [calculate_pass_fail] reads. *)
Definition erase_row (id : ID) (row : TestResult) : TestResult :=
  if String.eqb (result_id row) id then set_pass_fail_status None row else row.

Definition erase_state (st : TestResult * Database) : TestResult * Database :=
  (set_pass_fail_status None (fst st),
   with_test_results (map (erase_row (result_id (fst st))) (test_results (snd st))) (snd st)).

(** The row update that saving the status column performs. *)
Definition write_status (id : ID) (v : option bool) (row : TestResult) : TestResult :=
  if String.eqb (result_id row) id then set_pass_fail_status v row else row.

(** The claim of C9 as it is worded: after the value of a stored result is
    changed and the result saved, the stored status is the verdict of the
    applicable specification on the new value. *)
Definition saved_status_always_recomputed : Prop :=
  forall (depth : nat) (self : TestResult) (d : Database) (new_value : string)
         (spec : ProductSpecification) (r : bool * option string)
         (st' : TestResult * Database),
    result_stored self d ->
    first_specification (set_actual_value new_value self) d = Return (Some spec) ->
    validate_value spec new_value = Return r ->
    save depth plain_save (set_actual_value new_value self, d) = (Return tt, st') ->
    exists row, find_result (result_id self) (snd st') = Some row
                /\ pass_fail_status row = Some (fst r).

(** The table of requests is the same in two states. *)
Definition same_requests (s s' : Site) : Prop :=
  test_requests (db s') = test_requests (db s).

(** The row update that saving every column of a request performs. *)
Definition replace_request (obj : TestRequest) (row : TestRequest) : TestRequest :=
  if String.eqb (req_id row) (req_id obj) then obj else row.

Definition decided (st : string) : Prop := st = "Approved" \/ st = "Rejected".

(** The user on whose behalf a call is made. *)
Definition caller (c : ViewCall) : option User :=
  match c with
  | call_pipeline_start request _ => user request
  | call_pipeline_step request _ _ => user request
  | call_detail_post request _ => user request
  end.

(** The claim of C8 as it is worded: a row is Approved or Rejected after a
    call only if it had that status before, or the caller is an admin and
    the row was Submitted for Review. *)
Definition only_admins_decide : Prop :=
  forall (depth : nat) (uuid4 : nat -> ID) (c : ViewCall) (s : Site)
         (o : Outcome HttpResponse) (s' : Site) (i : nat) (row' : TestRequest),
    NoDup (map req_id (test_requests (db s))) ->
    run_view depth uuid4 c s = (o, s') ->
    test_requests (db s') !! i = Some row' ->
    decided (status row') ->
    (exists row, test_requests (db s) !! i = Some row /\ status row = status row')
    \/ (exists u row, caller c = Some u /\ is_admin u = true
                      /\ test_requests (db s) !! i = Some row
                      /\ status row = "Submitted for Review").

(** The verdict of an outcome of the validator: the passed flag when it
    returns, nothing when it raises. *)
Definition verdict (o : Outcome (bool * option string)) : option bool :=
  match o with
  | Return r => Some (fst r)
  | Raise _ => None
  end.

(** Every character of the string is white space. *)
Definition blank (s : string) : bool := forallb is_space (list_ascii_of_string s).

(** [a] is numerically at most [b], for two decimals that are no NaN. *)
Definition at_most (a b : Decimal) : Prop :=
  is_nan a = false /\ is_nan b = false /\ ~ strictly_below b a.

(** [n] calls of [advance_step] in a row on the same object. *)
Fixpoint advance_times (n : nat) (st : TestRequest * Database) : TestRequest * Database :=
  match n with
  | O => st
  | S k => advance_times k (snd (advance_step st))
  end.

(** The row update of [advance_step]: the two columns it names. *)
Definition write_step_and_status (obj row : TestRequest) : TestRequest :=
  if String.eqb (req_id row) (req_id obj)
  then set_status (status obj) (set_current_step (current_step obj) row)
  else row.

(** The results, specifications and parameters are the same in two
    states. *)
Definition same_results (s s' : Site) : Prop :=
  test_results (db s') = test_results (db s).

Definition same_catalog (s s' : Site) : Prop :=
  specifications (db s') = specifications (db s)
  /\ parameters (db s') = parameters (db s).

(** The session and the queued messages are the same in two states. *)
Definition same_dialogue (s s' : Site) : Prop :=
  session s' = session s /\ messages s' = messages s.

(** The computation keeps the relation [P] between the state it starts in
    and the state it leaves. *)
Definition frames {A} (P : Site -> Site -> Prop) (m : M Site A) : Prop :=
  forall s, P s (snd (m s)).

(** ** Sample data *)

Definition moisture (dt : string) : TestParameter :=
  {| param_id := "p1"; param_name := "Moisture"; data_type := dt; param_is_active := true |}.

Definition sample_spec (dt : string) (mn mx : option Decimal) (std : string)
    : ProductSpecification :=
  {| spec_product := "corn"; parameter := moisture dt; min_value := mn; max_value := mx;
     standard_text_value := std; spec_is_active := true |}.

(** Moisture of corn between 10 and 12. *)
Definition moisture_spec : ProductSpecification :=
  sample_spec "Numeric" (Some (Finite false 100000 (-4))) (Some (Finite false 120000 (-4))) "".

Definition sample_request (st : string) (step : Z) : TestRequest :=
  {| req_id := "r1"; batch_number := "BATCH-001"; product := "corn";
     controller_user := 7%N; status := st; current_step := step; req_is_active := true |}.

Definition sample_result (v : string) (pf : option bool) : TestResult :=
  {| result_id := "t1"; test_request_id := Some "r1"; parameter_id := Some "p1";
     actual_value := v; pass_fail_status := pf; tested_by := Some 7%N |}.

Definition sample_db (st : string) (step : Z) (v : string) (pf : option bool)
    (specs : list ProductSpecification) : Database :=
  {| test_requests := [sample_request st step]; test_results := [sample_result v pf];
     specifications := specs; parameters := [moisture "Numeric"] |}.

Definition sample_site (st : string) (step : Z) : Site :=
  {| db := {| test_requests :=
                [{| req_id := "r1"; batch_number := "BATCH-001"; product := "corn";
                    controller_user := 7%N; status := st; current_step := step;
                    req_is_active := true |}];
              test_results := []; specifications := []; parameters := [] |};
     session := ∅; messages := []; uuid_calls := 0 |}.

(** The controller who owns the sample request posts an action at step 4. *)
Definition controller_post (action : string) : HttpRequest :=
  {| user := Some {| user_id := 7%N; role := "CONTROLLER" |};
     method := "POST"; POST := {[ "action" := [action] ]} |}.

Definition admin_post (action : string) : HttpRequest :=
  {| user := Some {| user_id := 1%N; role := "ADMIN" |};
     method := "POST"; POST := {[ "action" := [action] ]} |}.

(** * Properties *)

(** ** The pipeline state machine *)

Lemma eqb_string_true (a b : string) : String.eqb a b = true <-> a = b.
Proof. apply String.eqb_eq. Qed.

Lemma eqb_string_false (a b : string) : String.eqb a b = false <-> a <> b.
Proof. apply String.eqb_neq. Qed.

Lemma can_proceed_false (self : TestRequest) :
  can_proceed_to_next_step self = false <->
  (status self = "Rejected" \/ 4 <= current_step self).
Proof.
  unfold can_proceed_to_next_step.
  destruct (String.eqb (status self) "Rejected") eqn:Hs.
  - apply eqb_string_true in Hs. intuition.
  - apply eqb_string_false in Hs.
    destruct (4 <=? current_step self) eqn:Hc.
    + apply Z.leb_le in Hc. intuition.
    + apply Z.leb_gt in Hc. split; [discriminate|]. intros [H|H]; [congruence|lia].
Qed.

Lemma find_request_written (fs : list string) (self : TestRequest) (db : Database) :
  request_stored self db ->
  exists row,
    find_request (req_id self) db = Some row /\
    find_request (req_id self)
      (with_test_requests
         (map (fun row => if String.eqb (req_id row) (req_id self)
                          then write_request_fields fs self row else row)
              (test_requests db)) db)
    = Some (write_request_fields fs self row).
Proof.
  unfold request_stored, find_request. destruct db as [rows ? ? ?]. simpl.
  induction rows as [|r rows IH]; simpl; [discriminate|].
  destruct (String.eqb (req_id r) (req_id self)) eqn:E; simpl.
  - intros _. exists r. simpl. rewrite E. simpl. auto.
  - intros H. rewrite E. apply IH. exact H.
Qed.

(** C1. [advance_step] refuses a rejected request and a request at step 4
    or beyond: it returns false and changes neither object nor database.
    Otherwise, on a stored request, it returns true, the step is one more,
    the status is Completed when the new step is 4 and In-Progress
    otherwise, and the stored row carries the same step and status. *)
Theorem advance_step_spec (self : TestRequest) (db : Database)
    (Hstored : request_stored self db) :
  (status self = "Rejected" \/ 4 <= current_step self ->
     advance_step (self, db) = (Return false, (self, db)))
  /\ (status self <> "Rejected" -> current_step self < 4 ->
      exists db',
        advance_step (self, db) = (Return true, (advanced self, db'))
        /\ current_step (advanced self) = current_step self + 1
        /\ status (advanced self)
           = (if current_step self + 1 =? 4 then "Completed" else "In-Progress")
        /\ exists row,
             find_request (req_id self) db' = Some row
             /\ current_step row = current_step self + 1
             /\ status row = status (advanced self)).
Proof.
  split.
  - intros H. apply can_proceed_false in H.
    unfold advance_step, bind, get. simpl. rewrite H. reflexivity.
  - intros Hs Hc.
    assert (Hp : can_proceed_to_next_step self = true).
    { destruct (can_proceed_to_next_step self) eqn:E; [reflexivity|].
      apply can_proceed_false in E. destruct E; [congruence|lia]. }
    pose proof Hstored as Hst. unfold request_stored in Hst.
    destruct (find_request_written ["current_step"; "status"; "updated_at"]
                (advanced self) db) as (row & Hrow & Hrow').
    { exact Hstored. }
    exists (with_test_requests
              (map (fun row => if String.eqb (req_id row) (req_id self)
                               then write_request_fields
                                      ["current_step"; "status"; "updated_at"]
                                      (advanced self) row
                               else row)
                   (test_requests db)) db).
    split; [|split; [reflexivity|split; [reflexivity|]]].
    + unfold advance_step, bind, get, modify, ret. simpl. rewrite Hp. simpl.
      unfold TestRequest_save, model_save. simpl.
      destruct (current_step self + 1 =? 4) eqn:E; simpl; rewrite Hst;
        unfold advanced; rewrite E; reflexivity.
    + exists (write_request_fields ["current_step"; "status"; "updated_at"]
                (advanced self) row).
      split; [exact Hrow'|]. split; reflexivity.
Qed.

Lemma advance_step_spec_witness :
  request_stored (sample_request "Pending" 1) (sample_db "Pending" 1 "11.0" None [])
  /\ advance_step (sample_request "Pending" 1, sample_db "Pending" 1 "11.0" None [])
     = (Return true,
        (sample_request "In-Progress" 2, sample_db "In-Progress" 2 "11.0" None [])).
Proof.
  split; [reflexivity|].
  destruct (advance_step_spec (sample_request "Pending" 1)
              (sample_db "Pending" 1 "11.0" None []) eq_refl) as [_ H].
  destruct H as (db' & H & _); [discriminate | reflexivity |].
  reflexivity.
Defined.

Lemma progress_quotient (n : Z) :
  int_of_Q ((inject_Z n / 4) * 100)%Q = 25 * n
  /\ Qfloor ((inject_Z n / 4) * 100)%Q = 25 * n.
Proof.
  assert (E : ((inject_Z n / 4) * 100 == inject_Z (25 * n))%Q).
  { unfold Qeq, Qdiv, Qmult, Qinv, inject_Z. simpl. lia. }
  split.
  - unfold int_of_Q. destruct (Qle_bool 0 _).
    + rewrite (Qfloor_comp _ _ E). apply Qfloor_Z.
    + rewrite (Qceiling_comp _ _ E). apply Qceiling_Z.
  - rewrite (Qfloor_comp _ _ E). apply Qfloor_Z.
Qed.

(** C2. The progress percentage is 100 for an approved request and for a
    completed one at step 4; otherwise 75 for a request submitted for
    review, whatever its step; otherwise 100 at step 4; otherwise the floor
    of [current_step / 4 * 100], which is 25, 50 and 75 at steps 1, 2, 3. *)
Theorem get_progress_percentage_spec (self : TestRequest) :
  (status self = "Approved" \/ (status self = "Completed" /\ current_step self = 4) ->
     get_progress_percentage self = 100)
  /\ (~ (status self = "Approved" \/ (status self = "Completed" /\ current_step self = 4)) ->
      (status self = "Submitted for Review" -> get_progress_percentage self = 75)
      /\ (status self <> "Submitted for Review" ->
          (current_step self = 4 -> get_progress_percentage self = 100)
          /\ (current_step self <> 4 ->
              get_progress_percentage self
              = Qfloor ((inject_Z (current_step self) / 4) * 100)%Q
              /\ get_progress_percentage self = 25 * current_step self
              /\ (current_step self = 1 -> get_progress_percentage self = 25)
              /\ (current_step self = 2 -> get_progress_percentage self = 50)
              /\ (current_step self = 3 -> get_progress_percentage self = 75)))).
Proof.
  destruct (progress_quotient (current_step self)) as [Hi Hf].
  unfold get_progress_percentage.
  destruct (String.eqb (status self) "Approved") eqn:Ea;
    [apply eqb_string_true in Ea | apply eqb_string_false in Ea];
    cbn [orb andb].
  { split; [reflexivity|]. intros H. exfalso. apply H. auto. }
  destruct (String.eqb (status self) "Submitted for Review") eqn:Es;
    [apply eqb_string_true in Es | apply eqb_string_false in Es];
    destruct (String.eqb (status self) "Completed") eqn:Ec;
    [apply eqb_string_true in Ec | apply eqb_string_false in Ec
     | apply eqb_string_true in Ec | apply eqb_string_false in Ec];
    destruct (current_step self =? 4) eqn:E4;
    [apply Z.eqb_eq in E4 | apply Z.eqb_neq in E4
     | apply Z.eqb_eq in E4 | apply Z.eqb_neq in E4
     | apply Z.eqb_eq in E4 | apply Z.eqb_neq in E4
     | apply Z.eqb_eq in E4 | apply Z.eqb_neq in E4];
    cbn [orb andb]; try congruence;
    (split; [try reflexivity; intros [H|[H1 H2]]; congruence|]);
    intros Hn;
    (split; [try reflexivity; try congruence|]);
    intros Hs; try congruence;
    (split; [try reflexivity; try congruence|]);
    intros H4; try congruence; try (exfalso; apply Hn; auto; fail);
    rewrite Hi, Hf; repeat split; lia.
Qed.

(** ** The specification validator *)

Lemma finite_compare_Lt (s1 : bool) (c1 : N) (e1 : Z) (s2 : bool) (c2 : N) (e2 : Z) :
  finite_compare s1 c1 e1 s2 c2 e2 = Lt
  <-> (finite_value s1 c1 e1 < finite_value s2 c2 e2)%Q.
Proof.
  unfold finite_compare, finite_value.
  set (a := signed s1 c1). set (b := signed s2 c2). set (e := Z.min e1 e2).
  assert (Hten : ~ (inject_Z 10 == 0)%Q) by (unfold Qeq; simpl; lia).
  assert (Hpos : (0 < Qpower (inject_Z 10) e)%Q)
    by (apply Qpower_0_lt; unfold Qlt; simpl; lia).
  assert (Hscale : forall x n, e <= n ->
            (inject_Z x * Qpower (inject_Z 10) n
             == inject_Z (x * 10 ^ (n - e)) * Qpower (inject_Z 10) e)%Q).
  { intros x n Hn.
    replace n with ((n - e) + e) at 1 by lia.
    rewrite Qpower_plus by exact Hten.
    rewrite inject_Z_mult, Zpower_Qpower by lia. ring. }
  rewrite (Hscale a e1), (Hscale b e2) by (unfold e; lia).
  rewrite Qmult_lt_r by exact Hpos.
  rewrite <- Zlt_Qlt. rewrite Z.compare_lt_iff. reflexivity.
Qed.

Lemma dec_lt_spec (a b : Decimal) :
  is_nan a = false -> is_nan b = false ->
  exists r, dec_lt a b = Return r /\ (r = true <-> strictly_below a b).
Proof.
  destruct a as [s1 c1 e1|s1|], b as [s2 c2 e2|s2|]; try discriminate; intros _ _; simpl.
  - destruct (finite_compare s1 c1 e1 s2 c2 e2) eqn:E; eexists; (split; [reflexivity|]);
      rewrite <- finite_compare_Lt, E; split; congruence.
  - eexists; split; [reflexivity|]. destruct s2; simpl; split; auto; discriminate.
  - eexists; split; [reflexivity|]. destruct s1; simpl; split; auto; discriminate.
  - eexists; split; [reflexivity|]. destruct s1, s2; simpl; split; auto; discriminate.
Qed.

Lemma dec_lt_nan (a b : Decimal) :
  is_nan a = true \/ is_nan b = true ->
  dec_lt a b = Raise InvalidOperation /\ ~ strictly_below a b.
Proof.
  destruct a as [s1 c1 e1|[|]|], b as [s2 c2 e2|s2|]; simpl; intros [H|H];
    try discriminate; split; auto.
Qed.

Lemma same_value_not_below (a b : Decimal) :
  same_value a b -> ~ strictly_below a b /\ ~ strictly_below b a.
Proof.
  destruct a as [s1 c1 e1|[|]|], b as [s2 c2 e2|[|]|]; simpl; try tauto; try discriminate.
  intros E. rewrite E. split; apply Qlt_irrefl.
Qed.

(** The numeric branch, once the value is parsed. *)
Lemma validate_value_numeric (self : ProductSpecification) (actual_value : string)
    (value : Decimal) :
  data_type (parameter self) = "Numeric" ->
  parse_decimal actual_value = Some value ->
  validate_value self actual_value =
  match (match min_value self with Some m => dec_lt value m | None => Return false end) with
  | Raise e => Raise e
  | Return true =>
      Return (false, Some ("Value " +:+ Decimal_str value +:+ " is below minimum "
                           +:+ match min_value self with
                               | Some m => Decimal_str m | None => "None" end))
  | Return false =>
      match (match max_value self with Some m => dec_gt value m | None => Return false end) with
      | Raise e => Raise e
      | Return true =>
          Return (false, Some ("Value " +:+ Decimal_str value +:+ " is above maximum "
                               +:+ match max_value self with
                                   | Some m => Decimal_str m | None => "None" end))
      | Return false => Return (true, None)
      end
  end.
Proof.
  intros Hd Hp. unfold validate_value, Decimal_of_str. rewrite Hd, Hp.
  change (String.eqb "Numeric" "Numeric") with true. cbv iota. cbn [obind].
  destruct (match min_value self with Some m => dec_lt value m | None => Return false end)
    as [[|]|e] eqn:Emin; cbn [obind try_except].
  - reflexivity.
  - destruct (match max_value self with Some m => dec_gt value m | None => Return false end)
      as [[|]|e] eqn:Emax; cbn [obind try_except]; try reflexivity.
    unfold dec_gt in Emax. destruct (max_value self) as [m|]; [|discriminate].
    destruct value, m; simpl in Emax; inversion Emax; reflexivity.
  - destruct (min_value self) as [m|]; [|discriminate].
    destruct value, m; simpl in Emin; inversion Emin; reflexivity.
Qed.

Lemma validate_value_unparsed (self : ProductSpecification) (actual_value : string) :
  data_type (parameter self) = "Numeric" ->
  parse_decimal actual_value = None ->
  validate_value self actual_value = Raise InvalidOperation.
Proof.
  intros Hd Hp. unfold validate_value, Decimal_of_str. rewrite Hd, Hp. reflexivity.
Qed.

(** C4, as the code has it.  A string that is no decimal makes the
    constructor signal [InvalidOperation]; the handler of the numeric
    branch names [ValueError] and [TypeError] only, so the exception
    leaves [validate_value] and no (false, message) pair is returned. *)
Theorem validate_value_unparsable_raises (self : ProductSpecification)
    (actual_value : string) :
  data_type (parameter self) = "Numeric" ->
  parse_decimal actual_value = None ->
  validate_value self actual_value = Raise InvalidOperation
  /\ caught_ValueError_TypeError InvalidOperation = false
  /\ forall passed msg, validate_value self actual_value <> Return (passed, msg).
Proof.
  intros Hd Hp. rewrite (validate_value_unparsed self actual_value Hd Hp).
  split; [reflexivity|]. split; [reflexivity|]. discriminate.
Qed.

Lemma validate_value_unparsable_raises_witness :
  parse_decimal "abc" = None
  /\ validate_value moisture_spec "abc" = Raise InvalidOperation.
Proof.
  split; [reflexivity|].
  apply (validate_value_unparsable_raises moisture_spec "abc"); reflexivity.
Defined.

(** C5. On a numeric parameter, with a value that parses, validation fails
    exactly when a bound that is set is violated strictly; a value that is
    a number passes otherwise; a value equal to a bound is not rejected by
    that bound, and passes when the other bound allows it; with no bound
    set every parsed value passes. *)
Theorem validate_value_numeric_bounds (self : ProductSpecification)
    (actual_value : string) (value : Decimal) :
  data_type (parameter self) = "Numeric" ->
  bounds_finite self ->
  parse_decimal actual_value = Some value ->
  ((exists msg, validate_value self actual_value = Return (false, msg))
   <-> out_of_bounds self value)
  /\ (is_nan value = false ->
      (validate_value self actual_value = Return (true, None)
       <-> ~ out_of_bounds self value))
  /\ (forall m, min_value self = Some m -> same_value value m ->
      ~ strictly_below value m
      /\ ((forall mx, max_value self = Some mx -> ~ strictly_below mx value) ->
          validate_value self actual_value = Return (true, None)))
  /\ (forall m, max_value self = Some m -> same_value value m ->
      ~ strictly_below m value
      /\ ((forall mn, min_value self = Some mn -> ~ strictly_below value mn) ->
          validate_value self actual_value = Return (true, None)))
  /\ (min_value self = None -> max_value self = None ->
      validate_value self actual_value = Return (true, None)).
Proof.
  intros Hd [Hfmin Hfmax] Hp.
  assert (Hcmp : forall a b, is_nan a = false -> is_nan b = false ->
            (dec_lt a b = Return true /\ strictly_below a b)
            \/ (dec_lt a b = Return false /\ ~ strictly_below a b)).
  { intros a b Ha Hb. destruct (dec_lt_spec a b Ha Hb) as ([|] & -> & Hr).
    - left. split; [reflexivity|]. apply Hr. reflexivity.
    - right. split; [reflexivity|]. intros H. apply Hr in H. discriminate. }
  assert (Hfin : forall m, is_finite m = true -> is_nan m = false)
    by (intros [ | | ]; simpl; congruence).
  assert (Hcore :
    ((exists msg, validate_value self actual_value = Return (false, msg))
     <-> out_of_bounds self value)
    /\ (is_nan value = false ->
        (validate_value self actual_value = Return (true, None)
         <-> ~ out_of_bounds self value))
    /\ (min_value self = None -> max_value self = None ->
        validate_value self actual_value = Return (true, None))).
  { rewrite (validate_value_numeric self actual_value value Hd Hp).
    unfold out_of_bounds, dec_gt.
    destruct (is_nan value) eqn:Hnan.
    - assert (Hl : forall m, dec_lt value m = Raise InvalidOperation
                             /\ ~ strictly_below value m)
        by (intros m; apply dec_lt_nan; auto).
      assert (Hg : forall m, dec_lt m value = Raise InvalidOperation
                             /\ ~ strictly_below m value)
        by (intros m; apply dec_lt_nan; auto).
      assert (Hno : ~ ((exists m, min_value self = Some m /\ strictly_below value m)
                       \/ (exists m, max_value self = Some m /\ strictly_below m value))).
      { intros [(m & _ & Hb)|(m & _ & Hb)];
          [exact (proj2 (Hl m) Hb) | exact (proj2 (Hg m) Hb)]. }
      split; [|split; [discriminate|]].
      + split; [|tauto]. intros [msg H]. exfalso.
        destruct (min_value self) as [mn|].
        * rewrite (proj1 (Hl mn)) in H. discriminate.
        * destruct (max_value self) as [mx|].
          -- rewrite (proj1 (Hg mx)) in H. discriminate.
          -- discriminate.
      + intros -> ->. reflexivity.
    - destruct (min_value self) as [mn|] eqn:Emin.
      + destruct (Hcmp value mn Hnan (Hfin _ (Hfmin _ eq_refl))) as [[-> Hb]|[-> Hb]].
        * split; [|split; [|discriminate]].
          -- split; [eauto | intros _; eauto].
          -- intros _. split; [discriminate|]. intros H. exfalso. apply H. eauto.
        * destruct (max_value self) as [mx|] eqn:Emax.
          -- destruct (Hcmp mx value (Hfin _ (Hfmax _ eq_refl)) Hnan)
               as [[-> Hb']|[-> Hb']].
             ++ split; [|split; [|discriminate]].
                ** split; [eauto | intros _; eauto].
                ** intros _. split; [discriminate|]. intros H. exfalso. apply H. eauto.
             ++ assert (Hno : ~ ((exists m, Some mn = Some m /\ strictly_below value m)
                                 \/ (exists m, Some mx = Some m /\ strictly_below m value))).
                { intros [(m & Hm & Hm')|(m & Hm & Hm')]; inversion Hm; subst; tauto. }
                split; [|split; [|discriminate]].
                ** split; [intros [msg H]; discriminate | tauto].
                ** intros _. split; auto.
          -- assert (Hno : ~ ((exists m, Some mn = Some m /\ strictly_below value m)
                              \/ (exists m, @None Decimal = Some m /\ strictly_below m value))).
             { intros [(m & Hm & Hm')|(m & Hm & Hm')]; inversion Hm; subst; tauto. }
             split; [|split; [|discriminate]].
             ++ split; [intros [msg H]; discriminate | tauto].
             ++ intros _. split; auto.
      + destruct (max_value self) as [mx|] eqn:Emax.
        * destruct (Hcmp mx value (Hfin _ (Hfmax _ eq_refl)) Hnan) as [[-> Hb']|[-> Hb']].
          -- split; [|split; [|discriminate]].
             ++ split; [eauto | intros _; eauto].
             ++ intros _. split; [discriminate|]. intros H. exfalso. apply H. eauto.
          -- assert (Hno : ~ ((exists m, @None Decimal = Some m /\ strictly_below value m)
                              \/ (exists m, Some mx = Some m /\ strictly_below m value))).
             { intros [(m & Hm & Hm')|(m & Hm & Hm')]; inversion Hm; subst; tauto. }
             split; [|split; [|discriminate]].
             ++ split; [intros [msg H]; discriminate | tauto].
             ++ intros _. split; auto.
        * assert (Hno : ~ ((exists m, @None Decimal = Some m /\ strictly_below value m)
                           \/ (exists m, @None Decimal = Some m /\ strictly_below m value))).
          { intros [(m & Hm & Hm')|(m & Hm & Hm')]; discriminate. }
          split; [|split; [|reflexivity]].
          -- split; [intros [msg H]; discriminate | tauto].
          -- intros _. split; auto. }
  destruct Hcore as (Hfail & Hpass & Hnone).
  assert (Hsame : forall m, same_value value m -> is_nan value = false)
    by (intros m; destruct value; simpl; tauto).
  split; [exact Hfail|]. split; [exact Hpass|].
  split; [|split; [|exact Hnone]].
  - intros m Hm Hs. pose proof (same_value_not_below _ _ Hs) as [Hn1 Hn2].
    split; [exact Hn1|]. intros Hmax. apply (Hpass (Hsame _ Hs)).
    intros [(m' & Hm' & Hb)|(m' & Hm' & Hb)].
    + rewrite Hm in Hm'. inversion Hm'; subst. exact (Hn1 Hb).
    + exact (Hmax _ Hm' Hb).
  - intros m Hm Hs. pose proof (same_value_not_below _ _ Hs) as [Hn1 Hn2].
    split; [exact Hn2|]. intros Hmin. apply (Hpass (Hsame _ Hs)).
    intros [(m' & Hm' & Hb)|(m' & Hm' & Hb)].
    + exact (Hmin _ Hm' Hb).
    + rewrite Hm in Hm'. inversion Hm'; subst. exact (Hn2 Hb).
Qed.

Lemma moisture_spec_bounds_finite : bounds_finite moisture_spec.
Proof. split; intros m [= <-]; reflexivity. Qed.

Lemma validate_value_numeric_bounds_witness :
  validate_value moisture_spec "10" = Return (true, None)
  /\ (exists msg, validate_value moisture_spec "12.0001" = Return (false, msg)).
Proof.
  split.
  - destruct (validate_value_numeric_bounds moisture_spec "10" (Finite false 10 0)
                eq_refl moisture_spec_bounds_finite eq_refl) as (_ & _ & Hmin & _).
    apply (Hmin (Finite false 100000 (-4)) eq_refl).
    + vm_compute. reflexivity.
    + intros mx [= <-]. vm_compute. discriminate.
  - destruct (validate_value_numeric_bounds moisture_spec "12.0001"
                (Finite false 120001 (-4))
                eq_refl moisture_spec_bounds_finite eq_refl) as (Hfail & _).
    apply Hfail. right. exists (Finite false 120000 (-4)).
    split; [reflexivity|]. vm_compute. reflexivity.
Defined.

(** The boundary cases of the moisture specification (10 to 12). *)
Example validate_value_moisture_boundaries :
  validate_value moisture_spec "9"
  = Return (false, Some "Value 9 is below minimum 10.0000")
  /\ validate_value moisture_spec "10" = Return (true, None)
  /\ validate_value moisture_spec "12" = Return (true, None)
  /\ validate_value moisture_spec "13"
     = Return (false, Some "Value 13 is above maximum 12.0000").
Proof. repeat split; reflexivity. Qed.

Lemma str_in_truthy_token (s : string) :
  str_in (lower (strip s)) ["true"; "yes"; "1"; "pass"] = truthy_token s.
Proof. reflexivity. Qed.

(** C6. On a Boolean parameter with a standard value configured, both the
    standard and the actual value are read as booleans by trimmed,
    case-insensitive membership in the truthy tokens, and validation fails
    exactly when the two booleans differ; with no standard value it
    passes.  With the standard [Negative], the value [Negative] passes and
    the value [Pass] fails. *)
Theorem validate_value_boolean (self : ProductSpecification) (actual_value : string) :
  data_type (parameter self) = "Boolean" ->
  (standard_text_value self <> "" ->
     (truthy_token (standard_text_value self) = truthy_token actual_value ->
        validate_value self actual_value = Return (true, None))
     /\ (truthy_token (standard_text_value self) <> truthy_token actual_value ->
         validate_value self actual_value = Return (false, Some "Boolean value mismatch"))
     /\ ((exists msg, validate_value self actual_value = Return (false, msg))
         <-> truthy_token (standard_text_value self) <> truthy_token actual_value))
  /\ (standard_text_value self = "" ->
      validate_value self actual_value = Return (true, None))
  /\ (standard_text_value self = "Negative" ->
      validate_value self "Negative" = Return (true, None)
      /\ validate_value self "Pass" = Return (false, Some "Boolean value mismatch")).
Proof.
  intros Hd.
  assert (Hv : forall a, validate_value self a =
            if truthy (standard_text_value self) then
              if negb (Bool.eqb (truthy_token (standard_text_value self)) (truthy_token a))
              then Return (false, Some "Boolean value mismatch")
              else Return (true, None)
            else Return (true, None)).
  { intros a. unfold validate_value. rewrite Hd. reflexivity. }
  split; [|split].
  - intros Hstd. rewrite Hv.
    assert (Ht : truthy (standard_text_value self) = true)
      by (destruct (standard_text_value self); [congruence|reflexivity]).
    rewrite Ht.
    destruct (truthy_token (standard_text_value self)), (truthy_token actual_value);
      simpl; (split; [|split]); try congruence; try reflexivity.
    all: split; try congruence; try (intros [msg H]; discriminate); eauto.
  - intros Hstd. rewrite Hv, Hstd. reflexivity.
  - intros Hstd. rewrite !Hv, Hstd. split; reflexivity.
Qed.

Lemma validate_value_boolean_witness :
  validate_value (sample_spec "Boolean" None None "Negative") " negative "
  = Return (true, None)
  /\ validate_value (sample_spec "Boolean" None None "Negative") "PASS"
     = Return (false, Some "Boolean value mismatch").
Proof.
  destruct (validate_value_boolean (sample_spec "Boolean" None None "Negative")
              " negative " eq_refl) as [H _].
  destruct (validate_value_boolean (sample_spec "Boolean" None None "Negative")
              "PASS" eq_refl) as [H' _].
  split.
  - apply H; [discriminate | reflexivity].
  - apply H'; [discriminate | discriminate].
Defined.

(** C10. Whenever [validate_value] returns, the message is absent exactly
    when the value passed, and a failing outcome carries a message that is
    not empty; for a data type other than Numeric, Text and Boolean it
    returns (true, no message). *)
Theorem validate_value_message (self : ProductSpecification) (actual_value : string) :
  (forall passed msg,
     validate_value self actual_value = Return (passed, msg) ->
     (msg = None <-> passed = true)
     /\ (passed = false -> exists m, msg = Some m /\ m <> ""))
  /\ (data_type (parameter self) <> "Numeric" ->
      data_type (parameter self) <> "Text" ->
      data_type (parameter self) <> "Boolean" ->
      validate_value self actual_value = Return (true, None)).
Proof.
  split.
  - intros passed msg.
    destruct (String.eqb (data_type (parameter self)) "Numeric") eqn:En.
    + apply eqb_string_true in En.
      destruct (parse_decimal actual_value) as [value|] eqn:Hp.
      * rewrite (validate_value_numeric self actual_value value En Hp).
        destruct (match min_value self with Some m => dec_lt value m | None => Return false end)
          as [[|]|e]; [| |discriminate].
        -- intros [= <- <-]. split; [split; discriminate|].
           intros _. eexists. split; [reflexivity|]. discriminate.
        -- destruct (match max_value self with
                     | Some m => dec_gt value m | None => Return false end)
             as [[|]|e]; [| |discriminate].
           ++ intros [= <- <-]. split; [split; discriminate|].
              intros _. eexists. split; [reflexivity|]. discriminate.
           ++ intros [= <- <-]. split; [split; reflexivity|]. discriminate.
      * rewrite (validate_value_unparsed self actual_value En Hp). discriminate.
    + unfold validate_value. rewrite En.
      destruct (String.eqb (data_type (parameter self)) "Text").
      * destruct (truthy (standard_text_value self)
                  && negb (String.eqb (lower (strip actual_value))
                                      (lower (strip (standard_text_value self))))).
        -- intros [= <- <-]. split; [split; discriminate|].
           intros _. eexists. split; [reflexivity|]. discriminate.
        -- intros [= <- <-]. split; [split; reflexivity|]. discriminate.
      * destruct (String.eqb (data_type (parameter self)) "Boolean").
        -- destruct (truthy (standard_text_value self)).
           ++ destruct (negb _).
              ** intros [= <- <-]. split; [split; discriminate|].
                 intros _. eexists. split; [reflexivity|]. discriminate.
              ** intros [= <- <-]. split; [split; reflexivity|]. discriminate.
           ++ intros [= <- <-]. split; [split; reflexivity|]. discriminate.
        -- intros [= <- <-]. split; [split; reflexivity|]. discriminate.
  - intros Hn Ht Hb. unfold validate_value.
    apply eqb_string_false in Hn, Ht, Hb. rewrite Hn, Ht, Hb. reflexivity.
Qed.

Lemma validate_value_message_witness :
  validate_value moisture_spec "9" = Return (false, Some "Value 9 is below minimum 10.0000")
  /\ (Some "Value 9 is below minimum 10.0000" = None <-> false = true)
  /\ validate_value (sample_spec "Percentage" None None "") "9" = Return (true, None).
Proof.
  destruct (validate_value_message moisture_spec "9") as [H _].
  destruct (validate_value_message (sample_spec "Percentage" None None "") "9") as [_ H'].
  split; [reflexivity|]. split.
  - apply (H false (Some "Value 9 is below minimum 10.0000")). reflexivity.
  - apply H'; discriminate.
Defined.

(** ** The result evaluator *)

Lemma calculate_pass_fail_unfold (d : nat) (st : TestResult * Database) :
  calculate_pass_fail (S d) st =
  match evaluation (fst st) (snd st) with
  | Return None =>
      try_except_Exception (store_status d None false) (store_status d None false) st
  | Return (Some b) =>
      try_except_Exception (store_status d (Some b) b) (store_status d None false) st
  | Raise _ => store_status d None false st
  end.
Proof.
  destruct st as [self db]. unfold evaluation. cbn [fst snd].
  cbn [calculate_pass_fail]. unfold try_except_Exception, bind, get, lift.
  cbn [fst snd].
  destruct (first_specification self db) as [[spec|]|e]; cbn [obind]; try reflexivity.
  destruct (validate_value spec (actual_value self)) as [r|e]; cbn [obind]; reflexivity.
Qed.

Lemma super_save_status (self : TestResult) (db : Database) :
  super_save status_fields (self, db) =
  if existsb (fun row => String.eqb (result_id row) (result_id self)) (test_results db)
  then (Return tt,
        (self, with_test_results
                 (map (write_status (result_id self) (pass_fail_status self))
                      (test_results db)) db))
  else (Raise DatabaseError, (self, db)).
Proof.
  unfold super_save, model_save, status_fields, save_fields. cbn [update_fields].
  destruct (existsb _ _); [|reflexivity].
  reflexivity.
Qed.

Lemma store_status_unfold (d : nat) (v : option bool) (b : bool)
    (self : TestResult) (db : Database) :
  store_status d v b (self, db) =
  match save d status_fields (set_pass_fail_status v self, db) with
  | (Return _, st') => (Return b, st')
  | (Raise e, st') => (Raise e, st')
  end.
Proof.
  unfold store_status, bind, assign_pass_fail_status, modify, ret.
  destruct (save d status_fields (set_pass_fail_status v self, db)) as [[[]|e] st']; reflexivity.
Qed.

Lemma save_unfold (d : nat) (kw : SaveArgs) (self : TestResult) (db : Database) :
  save (S d) kw (self, db) =
  if negb (bool_decide (is_Some (pass_fail_status self))) && truthy (actual_value self)
  then match super_save kw (self, db) with
       | (Return _, st1) =>
           if bool_decide (is_Some (test_request_id (fst st1)))
              && bool_decide (is_Some (parameter_id (fst st1)))
           then match calculate_pass_fail d st1 with
                | (Return _, st2) => (Return tt, st2)
                | (Raise e, st2) => (Raise e, st2)
                end
           else (Return tt, st1)
       | (Raise e, st1) => (Raise e, st1)
       end
  else super_save kw (self, db).
Proof.
  cbn [save]. unfold bind, get, ret. cbn [fst snd].
  destruct (negb _ && _); [|reflexivity].
  destruct (super_save kw (self, db)) as [[[]|e] st1]; [|reflexivity].
  destruct (_ && _); [|reflexivity].
  destruct (calculate_pass_fail d st1) as [[?|?] ?]; reflexivity.
Qed.

Lemma super_save_self (kw : SaveArgs) (st : TestResult * Database) :
  fst (snd (super_save kw st)) = fst st
  /\ test_requests (snd (snd (super_save kw st))) = test_requests (snd st)
  /\ specifications (snd (snd (super_save kw st))) = specifications (snd st)
  /\ parameters (snd (snd (super_save kw st))) = parameters (snd st).
Proof.
  destruct st as [self db]. unfold super_save.
  destruct (model_save _ _ _ _ _); simpl; auto.
Qed.

Lemma erase_row_write (id : ID) (v : option bool) (row : TestResult) :
  erase_row id (write_status id v row) = erase_row id row.
Proof.
  unfold erase_row, write_status.
  destruct (String.eqb (result_id row) id) eqn:E; simpl; rewrite E; reflexivity.
Qed.

Lemma erase_state_assign (v : option bool) (self : TestResult) (db : Database) :
  erase_state (set_pass_fail_status v self, db) = erase_state (self, db).
Proof. reflexivity. Qed.

Lemma erase_state_super_save (st : TestResult * Database) :
  erase_state (snd (super_save status_fields st)) = erase_state st.
Proof.
  destruct st as [self db]. rewrite super_save_status.
  destruct (existsb _ _); [|reflexivity].
  unfold erase_state. cbn [fst snd]. f_equal.
  unfold with_test_results. cbn. f_equal.
  rewrite map_map. apply map_ext. intros row. apply erase_row_write.
Qed.

(** Saving the status and evaluating leave everything but the status as it
    was. *)
Lemma erase_state_preserved (d : nat) :
  (forall st, erase_state (snd (save d status_fields st)) = erase_state st)
  /\ (forall st, erase_state (snd (calculate_pass_fail d st)) = erase_state st).
Proof.
  induction d as [|d [IHs IHc]].
  - split; intros st; reflexivity.
  - assert (Hstore : forall v b st,
              erase_state (snd (store_status d v b st)) = erase_state st).
    { intros v b [self db]. rewrite store_status_unfold.
      pose proof (IHs (set_pass_fail_status v self, db)) as H.
      destruct (save d status_fields (set_pass_fail_status v self, db)) as [[[]|e] st'];
        cbn [snd] in *; rewrite H; apply erase_state_assign. }
    split.
    + intros [self db]. rewrite save_unfold.
      pose proof (erase_state_super_save (self, db)) as Hsup.
      destruct (negb _ && _); [|exact Hsup].
      destruct (super_save status_fields (self, db)) as [[[]|e] st1]; cbn [snd] in *;
        [|exact Hsup].
      destruct (_ && _); [|exact Hsup].
      pose proof (IHc st1) as H.
      destruct (calculate_pass_fail d st1) as [[?|?] st2]; cbn [snd] in *; congruence.
    + intros st. rewrite calculate_pass_fail_unfold.
      assert (Htry : forall v b,
                erase_state (snd (try_except_Exception (store_status d v b)
                                    (store_status d None false) st)) = erase_state st).
      { intros v b. unfold try_except_Exception.
        pose proof (Hstore v b st) as H1.
        destruct (store_status d v b st) as [[?|?] st1]; cbn [snd] in *; [exact H1|].
        rewrite Hstore. exact H1. }
      destruct (evaluation (fst st) (snd st)) as [[b|]|e]; [apply Htry|apply Htry|apply Hstore].
Qed.

Lemma existsb_erase (id id' : ID) (rows : list TestResult) :
  existsb (fun row => String.eqb (result_id row) id) (map (erase_row id') rows)
  = existsb (fun row => String.eqb (result_id row) id) rows.
Proof.
  induction rows as [|r rows IH]; [reflexivity|]. simpl. rewrite IH. f_equal.
  unfold erase_row. destruct (String.eqb (result_id r) id'); reflexivity.
Qed.

(** What the evaluator reads is the same in two states that differ in the
    status only. *)
Lemma erase_state_inputs (st st' : TestResult * Database) :
  erase_state st' = erase_state st ->
  evaluation (fst st') (snd st') = evaluation (fst st) (snd st)
  /\ actual_value (fst st') = actual_value (fst st)
  /\ test_request_id (fst st') = test_request_id (fst st)
  /\ parameter_id (fst st') = parameter_id (fst st)
  /\ result_id (fst st') = result_id (fst st)
  /\ (result_stored (fst st') (snd st') <-> result_stored (fst st) (snd st)).
Proof.
  intros H.
  assert (He : forall s, evaluation (fst s) (snd s)
                         = evaluation (fst (erase_state s)) (snd (erase_state s)))
    by reflexivity.
  assert (Hs : forall s, result_stored (fst s) (snd s)
                         <-> result_stored (fst (erase_state s)) (snd (erase_state s))).
  { intros [self db]. unfold result_stored, erase_state. cbn.
    rewrite existsb_erase. reflexivity. }
  split; [rewrite (He st), (He st'), H; reflexivity|].
  split; [exact (f_equal (fun s => actual_value (fst s)) H)|].
  split; [exact (f_equal (fun s => test_request_id (fst s)) H)|].
  split; [exact (f_equal (fun s => parameter_id (fst s)) H)|].
  split; [exact (f_equal (fun s => result_id (fst s)) H)|].
  rewrite (Hs st), (Hs st'), H. reflexivity.
Qed.

Lemma erase_state_store (d : nat) (v : option bool) (b : bool) (st : TestResult * Database) :
  erase_state (snd (store_status d v b st)) = erase_state st.
Proof.
  destruct st as [self db]. rewrite store_status_unfold.
  pose proof (proj1 (erase_state_preserved d) (set_pass_fail_status v self, db)) as H.
  destruct (save d status_fields (set_pass_fail_status v self, db)) as [[[]|e] st'];
    cbn [snd] in *; rewrite H; apply erase_state_assign.
Qed.

Lemma truthy_nonempty (s : string) : s <> "" -> truthy s = true.
Proof. destruct s; [congruence|reflexivity]. Qed.

Lemma reentrant_erase (st st' : TestResult * Database) :
  erase_state st' = erase_state st -> reentrant st -> reentrant st'.
Proof.
  intros H (He & Ha & Hr & Hp & Hs).
  destruct (erase_state_inputs st st' H) as (E1 & E2 & E3 & E4 & _ & E6).
  unfold reentrant. rewrite E1, E2, E3, E4, E6. auto.
Qed.

Lemma store_status_reenters (d : nat) :
  (forall st, reentrant st -> fst (calculate_pass_fail d st) = Raise RecursionError) ->
  forall st, reentrant st ->
    fst (store_status (S d) None false st) = Raise RecursionError.
Proof.
  intros IH [self db] Hre.
  pose proof Hre as (He & Ha & Hr & Hp & Hs). cbn [fst snd] in *.
  rewrite store_status_unfold, save_unfold. cbn [pass_fail_status set_pass_fail_status
    actual_value].
  rewrite (truthy_nonempty _ Ha).
  replace (bool_decide (is_Some (@None bool))) with false
    by (symmetry; apply bool_decide_eq_false; intros [x Hx]; discriminate).
  cbn [negb andb]. rewrite super_save_status.
  unfold result_stored in Hs. cbn [result_id set_pass_fail_status]. rewrite Hs.
  cbn [fst test_request_id parameter_id set_pass_fail_status].
  rewrite (bool_decide_eq_true_2 _ Hr), (bool_decide_eq_true_2 _ Hp). cbn [andb].
  match goal with |- context [calculate_pass_fail d ?s] =>
    assert (Hre' : reentrant s) end.
  { eapply reentrant_erase; [|exact Hre].
    pose proof (erase_state_super_save (set_pass_fail_status None self, db)) as H.
    rewrite super_save_status in H. cbn [result_id set_pass_fail_status] in H.
    rewrite Hs in H. exact H. }
  pose proof (IH _ Hre') as H.
  destruct (calculate_pass_fail d _) as [[?|?] ?]; cbn [fst] in *; congruence.
Qed.

Lemma calculate_pass_fail_reenters (d : nat) :
  (forall st, reentrant st -> fst (calculate_pass_fail d st) = Raise RecursionError)
  /\ (forall st, reentrant st -> fst (calculate_pass_fail (S d) st) = Raise RecursionError).
Proof.
  assert (Hstep : forall n,
            (forall st, reentrant st ->
               fst (store_status n None false st) = Raise RecursionError) ->
            forall st, reentrant st ->
              fst (calculate_pass_fail (S n) st) = Raise RecursionError).
  { intros n Hstore st Hre. rewrite calculate_pass_fail_unfold.
    pose proof Hre as (He & _).
    destruct (evaluation (fst st) (snd st)) as [[b|]|e].
    - exfalso. exact (He b eq_refl).
    - unfold try_except_Exception.
      pose proof (Hstore st Hre) as H1.
      pose proof (erase_state_store n None false st) as H2.
      destruct (store_status n None false st) as [[?|?] st1]; cbn [fst snd] in *;
        [discriminate|].
      apply Hstore. eapply reentrant_erase; eauto.
    - apply Hstore. exact Hre. }
  induction d as [|d [IH0 IH1]].
  - split; [reflexivity|]. apply Hstep. intros [self db] _. reflexivity.
  - split; [exact IH1|]. apply Hstep. apply store_status_reenters. exact IH0.
Qed.

(** C3, as the code has it.  A stored result with a non-empty value whose
    product has no active specification for its parameter, or whose
    evaluation fails: [calculate_pass_fail] blanks the status and saves,
    [save] finds the status blank and calls [calculate_pass_fail] again,
    and so on until the recursion limit, whatever that limit is; the call
    ends in [RecursionError] and returns nothing. *)
Theorem calculate_pass_fail_no_verdict_raises (depth : nat) (self : TestResult)
    (db : Database) :
  result_stored self db ->
  is_Some (test_request_id self) ->
  is_Some (parameter_id self) ->
  actual_value self <> "" ->
  (first_specification self db = Return None \/ exists e, evaluation self db = Raise e) ->
  exists st', calculate_pass_fail depth (self, db) = (Raise RecursionError, st').
Proof.
  intros Hs Hr Hp Ha He.
  assert (Hre : reentrant (self, db)).
  { unfold reentrant. cbn [fst snd]. repeat split; auto.
    intros b. destruct He as [He|[e He]].
    - unfold evaluation. rewrite He. discriminate.
    - rewrite He. discriminate. }
  pose proof (proj1 (calculate_pass_fail_reenters depth) _ Hre) as H.
  destruct (calculate_pass_fail depth (self, db)) as [o st']. cbn [fst] in H. subst o.
  exists st'. reflexivity.
Qed.

Lemma calculate_pass_fail_no_verdict_raises_witness :
  first_specification (sample_result "11.0" None) (sample_db "In-Progress" 3 "11.0" None [])
  = Return None
  /\ fst (calculate_pass_fail 6 (sample_result "11.0" None,
                                 sample_db "In-Progress" 3 "11.0" None []))
     = Raise RecursionError.
Proof.
  split; [reflexivity|].
  destruct (calculate_pass_fail_no_verdict_raises 6 (sample_result "11.0" None)
              (sample_db "In-Progress" 3 "11.0" None []))
    as [st' H].
  - reflexivity.
  - eexists; reflexivity.
  - eexists; reflexivity.
  - discriminate.
  - left; reflexivity.
  - rewrite H. reflexivity.
Defined.

(** The unparsable value of C4 takes the same road: the validator raises
    inside the try block, the handler blanks the status and saves. *)
Example calculate_pass_fail_unparsable :
  evaluation (sample_result "abc" None)
             (sample_db "In-Progress" 3 "abc" None [moisture_spec])
  = Raise InvalidOperation
  /\ fst (calculate_pass_fail 6 (sample_result "abc" None,
                                 sample_db "In-Progress" 3 "abc" None [moisture_spec]))
     = Raise RecursionError.
Proof. split; reflexivity. Qed.

(** With an empty value the guard of [save] is false and the call returns
    false with the status left blank. *)
Example calculate_pass_fail_empty_value :
  calculate_pass_fail 6 (sample_result "" (Some true),
                         sample_db "In-Progress" 3 "" (Some true) [])
  = (Return false, (sample_result "" None, sample_db "In-Progress" 3 "" None [])).
Proof. reflexivity. Qed.

Lemma set_pass_fail_status_erase (v : option bool) (a b : TestResult) :
  set_pass_fail_status None a = set_pass_fail_status None b ->
  set_pass_fail_status v a = set_pass_fail_status v b.
Proof.
  destruct a, b. unfold set_pass_fail_status. cbn. intros [= -> -> -> -> ->]. reflexivity.
Qed.

Lemma write_status_erase (id : ID) (v : option bool) (rows1 rows2 : list TestResult) :
  map (erase_row id) rows1 = map (erase_row id) rows2 ->
  map (write_status id v) rows1 = map (write_status id v) rows2.
Proof.
  revert rows2. induction rows1 as [|r1 rows1 IH]; intros [|r2 rows2]; simpl;
    try discriminate; [reflexivity|].
  intros [= Hr Hrows]. f_equal; [|apply IH; exact Hrows].
  unfold erase_row, write_status in *.
  destruct (String.eqb (result_id r1) id) eqn:E1, (String.eqb (result_id r2) id) eqn:E2.
  - apply set_pass_fail_status_erase. exact Hr.
  - exfalso. apply (f_equal result_id) in Hr. cbn in Hr. congruence.
  - exfalso. apply (f_equal result_id) in Hr. cbn in Hr. congruence.
  - exact Hr.
Qed.

Lemma erase_state_tables (self : TestResult) (db1 db2 : Database) :
  erase_state (self, db1) = erase_state (self, db2) ->
  test_requests db1 = test_requests db2
  /\ specifications db1 = specifications db2
  /\ parameters db1 = parameters db2
  /\ map (erase_row (result_id self)) (test_results db1)
     = map (erase_row (result_id self)) (test_results db2).
Proof.
  unfold erase_state, with_test_results. cbn. intros [= H1 H2 H3 H4]. auto.
Qed.

(** Two states that differ in the status only: saving the status gives the
    same outcome, and the same state when it returns. *)
Lemma save_status_agree (d : nat) (self : TestResult) (db1 db2 : Database) :
  erase_state (self, db1) = erase_state (self, db2) ->
  fst (save d status_fields (self, db1)) = fst (save d status_fields (self, db2))
  /\ (forall u, fst (save d status_fields (self, db1)) = Return u ->
      snd (save d status_fields (self, db1)) = snd (save d status_fields (self, db2))).
Proof.
  intros H. destruct (erase_state_tables _ _ _ H) as (Hq & Hsp & Hpa & Hrows).
  destruct d as [|d]; [split; [reflexivity|discriminate]|].
  assert (Hsup : fst (super_save status_fields (self, db1))
                 = fst (super_save status_fields (self, db2))
                 /\ (forall u, fst (super_save status_fields (self, db1)) = Return u ->
                     super_save status_fields (self, db1)
                     = super_save status_fields (self, db2))).
  { rewrite !super_save_status.
    assert (Hex : existsb (fun row => String.eqb (result_id row) (result_id self))
                    (test_results db1)
                  = existsb (fun row => String.eqb (result_id row) (result_id self))
                      (test_results db2)).
    { rewrite <- (existsb_erase _ (result_id self) (test_results db1)),
              <- (existsb_erase _ (result_id self) (test_results db2)), Hrows.
      reflexivity. }
    rewrite Hex. destruct (existsb _ (test_results db2)); [|split; [reflexivity|discriminate]].
    split; [reflexivity|]. intros _ _. do 2 f_equal.
    unfold with_test_results. rewrite Hq, Hsp, Hpa. f_equal.
    apply write_status_erase. exact Hrows. }
  destruct Hsup as [Hsup1 Hsup2].
  rewrite !save_unfold.
  destruct (negb _ && _).
  - destruct (super_save status_fields (self, db1)) as [[[]|e] st1] eqn:E1.
    + rewrite <- (Hsup2 tt eq_refl). split; [reflexivity|]. reflexivity.
    + destruct (super_save status_fields (self, db2)) as [[[]|e'] st2]; cbn [fst] in *;
        [discriminate|]. split; [exact Hsup1|discriminate].
  - split; [exact Hsup1|]. intros u Hu. rewrite (Hsup2 u Hu). reflexivity.
Qed.

Lemma store_status_agree (d : nat) (v : option bool) (b : bool)
    (st1 st2 : TestResult * Database) :
  erase_state st1 = erase_state st2 ->
  fst (store_status d v b st1) = fst (store_status d v b st2)
  /\ (forall r, fst (store_status d v b st1) = Return r ->
      snd (store_status d v b st1) = snd (store_status d v b st2)).
Proof.
  destruct st1 as [self1 db1], st2 as [self2 db2]. intros H.
  assert (Hself : set_pass_fail_status v self1 = set_pass_fail_status v self2).
  { apply set_pass_fail_status_erase. exact (f_equal fst H). }
  rewrite !store_status_unfold, <- Hself.
  destruct (save_status_agree d (set_pass_fail_status v self1) db1 db2) as [H1 H2].
  { rewrite erase_state_assign, Hself, erase_state_assign. exact H. }
  destruct (save d status_fields (set_pass_fail_status v self1, db1)) as [[[]|e] s1];
    destruct (save d status_fields (set_pass_fail_status v self1, db2)) as [[[]|e'] s2];
    cbn [fst snd] in *; try discriminate.
  - split; [reflexivity|]. intros _ _. exact (H2 tt eq_refl).
  - split; [congruence|discriminate].
Qed.

(** [calculate_pass_fail] does not read the status it is about to
    overwrite. *)
Lemma calculate_pass_fail_agree (d : nat) (st1 st2 : TestResult * Database) :
  erase_state st1 = erase_state st2 ->
  fst (calculate_pass_fail d st1) = fst (calculate_pass_fail d st2)
  /\ (forall b, fst (calculate_pass_fail d st1) = Return b ->
      snd (calculate_pass_fail d st1) = snd (calculate_pass_fail d st2)).
Proof.
  intros H. destruct d as [|d]; [split; [reflexivity|discriminate]|].
  rewrite !calculate_pass_fail_unfold.
  destruct (erase_state_inputs st2 st1 H) as (He & _). rewrite He.
  assert (Htry : forall v b,
            fst (try_except_Exception (store_status d v b) (store_status d None false) st1)
            = fst (try_except_Exception (store_status d v b) (store_status d None false) st2)
            /\ (forall r,
                  fst (try_except_Exception (store_status d v b)
                         (store_status d None false) st1) = Return r ->
                  snd (try_except_Exception (store_status d v b)
                         (store_status d None false) st1)
                  = snd (try_except_Exception (store_status d v b)
                           (store_status d None false) st2))).
  { intros v b. unfold try_except_Exception.
    destruct (store_status_agree d v b st1 st2 H) as [H1 H2].
    pose proof (erase_state_store d v b st1) as P1.
    pose proof (erase_state_store d v b st2) as P2.
    destruct (store_status d v b st1) as [[r1|e1] s1];
      destruct (store_status d v b st2) as [[r2|e2] s2]; cbn [fst snd] in *;
      try discriminate.
    - split; [exact H1|]. intros r _. exact (H2 r1 eq_refl).
    - apply store_status_agree. congruence. }
  destruct (evaluation (fst st2) (snd st2)) as [[b|]|e];
    [apply Htry | apply Htry | apply store_status_agree; exact H].
Qed.

(** C7. A second invocation of [calculate_pass_fail] changes nothing: the
    two invocations in sequence have the outcome and leave the state of the
    single one; when the first returns, the second returns the same value
    and leaves the object and every stored row as the first left them. *)
Theorem calculate_pass_fail_idempotent (depth : nat) (st : TestResult * Database) :
  (calculate_pass_fail depth ;; calculate_pass_fail depth) st = calculate_pass_fail depth st
  /\ (forall b st', calculate_pass_fail depth st = (Return b, st') ->
      calculate_pass_fail depth st' = (Return b, st')).
Proof.
  assert (Hfix : forall b st', calculate_pass_fail depth st = (Return b, st') ->
                   calculate_pass_fail depth st' = (Return b, st')).
  { intros b st' Hrun.
    pose proof (proj2 (erase_state_preserved depth) st) as He.
    rewrite Hrun in He. cbn [snd] in He.
    destruct (calculate_pass_fail_agree depth st st' (eq_sym He)) as [H1 H2].
    rewrite Hrun in H1, H2. cbn [fst snd] in *.
    specialize (H2 b eq_refl).
    destruct (calculate_pass_fail depth st') as [o s]. cbn [fst snd] in *. congruence. }
  split; [|exact Hfix].
  unfold bind. destruct (calculate_pass_fail depth st) as [[b|e] st'] eqn:E; [|reflexivity].
  apply Hfix. reflexivity.
Qed.

Lemma calculate_pass_fail_idempotent_witness :
  calculate_pass_fail 3 (sample_result "11.0" None,
                         sample_db "In-Progress" 3 "11.0" None [moisture_spec])
  = (Return true, (sample_result "11.0" (Some true),
                   sample_db "In-Progress" 3 "11.0" (Some true) [moisture_spec]))
  /\ calculate_pass_fail 3 (sample_result "11.0" (Some true),
                            sample_db "In-Progress" 3 "11.0" (Some true) [moisture_spec])
     = (Return true, (sample_result "11.0" (Some true),
                      sample_db "In-Progress" 3 "11.0" (Some true) [moisture_spec])).
Proof.
  split; [reflexivity|].
  apply (proj2 (calculate_pass_fail_idempotent 3
                  (sample_result "11.0" None,
                   sample_db "In-Progress" 3 "11.0" None [moisture_spec]))).
  reflexivity.
Defined.

(** ** Saving a result *)

Lemma find_result_replaced (id : ID) (f : TestResult -> TestResult) (rows : list TestResult)
    (d : Database) :
  (forall row, result_id (f row) = result_id row) ->
  find_result id (with_test_results (map f rows) d)
  = option_map f (find_result id (with_test_results rows d)).
Proof.
  intros Hf. unfold find_result. cbn.
  induction rows as [|r rows IH]; [reflexivity|]. simpl. rewrite Hf.
  destruct (String.eqb (result_id r) id); [reflexivity|exact IH].
Qed.

Lemma find_result_stored (self : TestResult) (d : Database) :
  result_stored self d ->
  exists row, find_result (result_id self) d = Some row /\ result_id row = result_id self.
Proof.
  unfold result_stored, find_result.
  induction (test_results d) as [|r rows IH]; simpl; [discriminate|].
  destruct (String.eqb (result_id r) (result_id self)) eqn:E.
  - intros _. exists r. split; [reflexivity|]. apply eqb_string_true. exact E.
  - exact IH.
Qed.

(** The inherited save of every column of a stored result. *)
Lemma super_save_plain (self : TestResult) (d : Database) :
  result_stored self d ->
  super_save plain_save (self, d)
  = (Return tt,
     (self, with_test_results
              (map (fun row => if String.eqb (result_id row) (result_id self)
                               then self else row) (test_results d)) d)).
Proof.
  unfold result_stored, super_save, model_save, plain_save. cbn. intros ->. reflexivity.
Qed.

(** With a specification found and a verdict returned, the evaluator
    stores the verdict in the object and in its row. *)
Lemma calculate_pass_fail_verdict (d : nat) (self : TestResult) (dbs : Database)
    (spec : ProductSpecification) (r : bool * option string) :
  result_stored self dbs ->
  first_specification self dbs = Return (Some spec) ->
  validate_value spec (actual_value self) = Return r ->
  calculate_pass_fail (S (S d)) (self, dbs)
  = (Return (fst r),
     (set_pass_fail_status (Some (fst r)) self,
      with_test_results
        (map (write_status (result_id self) (Some (fst r))) (test_results dbs)) dbs)).
Proof.
  intros Hs Hspec Hv. rewrite calculate_pass_fail_unfold. unfold evaluation.
  cbn [fst snd]. rewrite Hspec. cbn [obind]. rewrite Hv. cbn [obind].
  unfold try_except_Exception. rewrite store_status_unfold, save_unfold.
  replace (bool_decide (is_Some (pass_fail_status
             (set_pass_fail_status (Some (fst r)) self)))) with true
    by (symmetry; apply bool_decide_eq_true_2; eexists; reflexivity).
  cbn [negb andb]. rewrite super_save_status.
  unfold result_stored in Hs. cbn [result_id set_pass_fail_status]. rewrite Hs.
  reflexivity.
Qed.

Lemma saved_status_stale :
  let self := set_actual_value "13.0" (sample_result "11.0" (Some true)) in
  let d := sample_db "In-Progress" 3 "11.0" (Some true) [moisture_spec] in
  save 3 plain_save (self, d)
  = (Return tt, (self, sample_db "In-Progress" 3 "13.0" (Some true) [moisture_spec]))
  /\ validate_value moisture_spec "13.0"
     = Return (false, Some "Value 13.0 is above maximum 12.0000").
Proof. split; reflexivity. Qed.

(** C9 does not hold as worded: a stored result that passed with the value
    11.0 keeps its passing status when the value 13.0, which the
    specification rejects, is assigned and saved. *)
Lemma saved_status_not_always_recomputed : ~ saved_status_always_recomputed.
Proof.
  intros H.
  destruct (H 3%nat (sample_result "11.0" (Some true))
              (sample_db "In-Progress" 3 "11.0" (Some true) [moisture_spec])
              "13.0" moisture_spec
              (false, Some "Value 13.0 is above maximum 12.0000")
              (set_actual_value "13.0" (sample_result "11.0" (Some true)),
               sample_db "In-Progress" 3 "13.0" (Some true) [moisture_spec]))
    as (row & Hrow & Hst); try reflexivity.
  vm_compute in Hrow. inversion Hrow; subst. discriminate.
Qed.

Lemma first_specification_frame (self self' : TestResult) (d d' : Database) :
  test_request_id self' = test_request_id self ->
  parameter_id self' = parameter_id self ->
  test_requests d' = test_requests d ->
  parameters d' = parameters d ->
  specifications d' = specifications d ->
  first_specification self' d' = first_specification self d.
Proof.
  intros H1 H2 H3 H4 H5.
  unfold first_specification, related_request, related_parameter, find_request,
    find_parameter.
  rewrite H1, H2, H3, H4, H5. reflexivity.
Qed.

Lemma result_stored_replaced (self : TestResult) (f : TestResult -> TestResult)
    (d : Database) :
  (forall row, result_id (f row) = result_id row) ->
  result_stored self d ->
  result_stored self (with_test_results (map f (test_results d)) d).
Proof.
  unfold result_stored. cbn. intros Hf.
  induction (test_results d) as [|r rows IH]; simpl; [auto|].
  rewrite Hf. destruct (String.eqb (result_id r) (result_id self)); simpl; auto.
Qed.

(** Once the inherited save has put the object in its row, [save] returns
    when the value has a verdict, and leaves the value in the object and in
    its row. *)
Lemma save_returns_after (d : nat) (kw : SaveArgs) (self : TestResult)
    (dbs dbs1 : Database) (spec : ProductSpecification) (r : bool * option string) :
  super_save kw (self, dbs) = (Return tt, (self, dbs1)) ->
  result_stored self dbs1 ->
  find_result (result_id self) dbs1 = Some self ->
  first_specification self dbs1 = Return (Some spec) ->
  validate_value spec (actual_value self) = Return r ->
  exists self' dbs',
    save (S (S (S d))) kw (self, dbs) = (Return tt, (self', dbs'))
    /\ result_stored self' dbs'
    /\ first_specification self' dbs' = Return (Some spec)
    /\ actual_value self' = actual_value self
    /\ result_id self' = result_id self
    /\ exists row, find_result (result_id self) dbs' = Some row
                   /\ actual_value row = actual_value self.
Proof.
  intros Hsup Hs Hfind Hspec Hv.
  rewrite save_unfold, Hsup.
  destruct (negb (bool_decide (is_Some (pass_fail_status self)))
            && truthy (actual_value self));
    [cbn [fst];
     destruct (bool_decide (is_Some (test_request_id self))
               && bool_decide (is_Some (parameter_id self)))|].
  - rewrite (calculate_pass_fail_verdict d self dbs1 spec r Hs Hspec Hv).
    do 2 eexists. split; [reflexivity|].
    split; [|split; [|split; [reflexivity|split; [reflexivity|]]]].
    + apply (result_stored_replaced (set_pass_fail_status (Some (fst r)) self)).
      * intros row. unfold write_status. destruct (String.eqb _ _); reflexivity.
      * exact Hs.
    + rewrite <- Hspec. apply first_specification_frame; reflexivity.
    + rewrite find_result_replaced
        by (intros row; unfold write_status; destruct (String.eqb _ _); reflexivity).
      replace (with_test_results (test_results dbs1) dbs1) with dbs1
        by (destruct dbs1; reflexivity).
      rewrite Hfind. cbn. eexists. split; [reflexivity|].
      unfold write_status. destruct (String.eqb _ _); reflexivity.
  - do 2 eexists. split; [reflexivity|]. repeat (split; [solve [auto]|]).
    exists self. auto.
  - do 2 eexists. split; [reflexivity|]. repeat (split; [solve [auto]|]).
    exists self. auto.
Qed.

(** Saving a stored result whose value has a verdict. *)
Lemma save_plain_returns (d : nat) (self : TestResult) (dbs : Database)
    (spec : ProductSpecification) (r : bool * option string) :
  result_stored self dbs ->
  first_specification self dbs = Return (Some spec) ->
  validate_value spec (actual_value self) = Return r ->
  exists self' dbs',
    save (S (S (S d))) plain_save (self, dbs) = (Return tt, (self', dbs'))
    /\ result_stored self' dbs'
    /\ first_specification self' dbs' = Return (Some spec)
    /\ actual_value self' = actual_value self
    /\ result_id self' = result_id self
    /\ exists row, find_result (result_id self) dbs' = Some row
                   /\ actual_value row = actual_value self.
Proof.
  intros Hs Hspec Hv.
  destruct (find_result_stored self dbs Hs) as (row0 & Hrow0 & Hkey0).
  set (replace := fun row => if String.eqb (result_id row) (result_id self)
                             then self else row).
  assert (Hrep : forall row, result_id (replace row) = result_id row).
  { intros row. unfold replace.
    destruct (String.eqb (result_id row) (result_id self)) eqn:E; [|reflexivity].
    apply eqb_string_true in E. congruence. }
  apply (save_returns_after d plain_save self dbs
           (with_test_results (map replace (test_results dbs)) dbs) spec r).
  - apply super_save_plain. exact Hs.
  - apply (result_stored_replaced self replace dbs Hrep Hs).
  - rewrite find_result_replaced by exact Hrep.
    replace (with_test_results (test_results dbs) dbs) with dbs by (destruct dbs; reflexivity).
    rewrite Hrow0. cbn. unfold replace.
    rewrite (proj2 (eqb_string_true _ _) Hkey0). reflexivity.
  - rewrite <- Hspec. apply first_specification_frame; reflexivity.
  - exact Hv.
Qed.

Lemma filter_key_absent (id : ID) (rows : list TestResult) :
  existsb (fun row => String.eqb (result_id row) id) rows = false ->
  List.filter (fun row => String.eqb (result_id row) id) rows = [].
Proof.
  induction rows as [|r rows IH]; [reflexivity|]. simpl.
  destruct (String.eqb (result_id r) id); [discriminate|exact IH].
Qed.

(** Saving a new result, with a key that no row has, whose value has a
    verdict. *)
Lemma save_insert_returns (d : nat) (self : TestResult) (dbs : Database)
    (spec : ProductSpecification) (r : bool * option string) :
  existsb (fun row => String.eqb (result_id row) (result_id self)) (test_results dbs)
  = false ->
  first_specification self dbs = Return (Some spec) ->
  validate_value spec (actual_value self) = Return r ->
  exists self' dbs',
    save (S (S (S d))) save_insert (self, dbs) = (Return tt, (self', dbs'))
    /\ result_stored self' dbs'
    /\ first_specification self' dbs' = Return (Some spec)
    /\ actual_value self' = actual_value self
    /\ result_id self' = result_id self
    /\ exists row, find_result (result_id self) dbs' = Some row
                   /\ actual_value row = actual_value self.
Proof.
  intros Hnew Hspec Hv.
  apply (save_returns_after d save_insert self dbs
           (with_test_results (test_results dbs ++ [self])%list dbs) spec r).
  - unfold super_save, model_save, save_insert. cbn. rewrite Hnew. reflexivity.
  - unfold result_stored. cbn. rewrite existsb_app. cbn.
    rewrite String.eqb_refl. rewrite orb_true_r. reflexivity.
  - unfold find_result. cbn. rewrite List.filter_app, (filter_key_absent _ _ Hnew). cbn.
    rewrite String.eqb_refl. reflexivity.
  - rewrite <- Hspec. apply first_specification_frame; reflexivity.
  - exact Hv.
Qed.

Lemma filter_singleton_stored (P : TestResult -> bool) (r0 : TestResult) (d : Database) :
  List.filter P (test_results d) = [r0] -> result_stored r0 d.
Proof.
  intros H. unfold result_stored. apply existsb_exists. exists r0. split.
  - assert (Hin : In r0 (List.filter P (test_results d))) by (rewrite H; left; reflexivity).
    apply filter_In in Hin. tauto.
  - apply String.eqb_refl.
Qed.

(** C9, as the code has it.  [save] recomputes the status only when the
    object carries none and its value is not empty: then, for a stored
    result with an applicable specification, the stored status is the
    verdict on the value.  With a status already set (or an empty value)
    [save] is the inherited save, and the status goes to the row as it is.
    The result entry of step 3 takes the value alone from the request and
    calls [calculate_pass_fail] after saving, so the row it leaves, whether
    it was there before or is created by the entry, carries the submitted
    value and the verdict on it. *)
Theorem save_recomputes_only_when_unset :
  (forall (d : nat) (kw : SaveArgs) (self : TestResult) (dbs : Database),
     is_Some (pass_fail_status self) \/ actual_value self = "" ->
     save (S d) kw (self, dbs) = super_save kw (self, dbs))
  /\ (forall (d : nat) (self : TestResult) (dbs : Database)
             (spec : ProductSpecification) (r : bool * option string),
        pass_fail_status self = None ->
        actual_value self <> "" ->
        is_Some (test_request_id self) ->
        is_Some (parameter_id self) ->
        result_stored self dbs ->
        first_specification self dbs = Return (Some spec) ->
        validate_value spec (actual_value self) = Return r ->
        exists dbs',
          save (S (S (S d))) plain_save (self, dbs)
          = (Return tt, (set_pass_fail_status (Some (fst r)) self, dbs'))
          /\ exists row, find_result (result_id self) dbs' = Some row
                         /\ actual_value row = actual_value self
                         /\ pass_fail_status row = Some (fst r))
  /\ (forall (d : nat) (uuid4 : nat -> ID) (request : HttpRequest) (u : User)
             (test_request : TestRequest) (param : TestParameter) (s : Site)
             (r0 : TestResult) (v : string) (spec : ProductSpecification)
             (r : bool * option string),
        post_get ("value_" +:+ param_id param) request = Some v ->
        List.filter (fun x => bool_decide (test_request_id x = Some (req_id test_request))
                              && bool_decide (parameter_id x = Some (param_id param)))
                    (test_results (db s)) = [r0] ->
        first_specification (set_actual_value v r0) (db s) = Return (Some spec) ->
        validate_value spec v = Return r ->
        exists s',
          enter_result (S (S (S d))) uuid4 request u test_request param s = (Return tt, s')
          /\ exists row, find_result (result_id r0) (db s') = Some row
                         /\ actual_value row = v
                         /\ pass_fail_status row = Some (fst r))
  /\ (forall (d : nat) (uuid4 : nat -> ID) (request : HttpRequest) (u : User)
             (test_request : TestRequest) (param : TestParameter) (s : Site)
             (v : string) (spec : ProductSpecification) (r : bool * option string),
        let new := {| result_id := uuid4 (uuid_calls s);
                      test_request_id := Some (req_id test_request);
                      parameter_id := Some (param_id param);
                      actual_value := v;
                      pass_fail_status := None;
                      tested_by := Some (user_id u) |} in
        post_get ("value_" +:+ param_id param) request = Some v ->
        List.filter (fun x => bool_decide (test_request_id x = Some (req_id test_request))
                              && bool_decide (parameter_id x = Some (param_id param)))
                    (test_results (db s)) = [] ->
        existsb (fun row => String.eqb (result_id row) (result_id new))
                (test_results (db s)) = false ->
        first_specification new (db s) = Return (Some spec) ->
        validate_value spec v = Return r ->
        exists s',
          enter_result (S (S (S d))) uuid4 request u test_request param s = (Return tt, s')
          /\ exists row, find_result (result_id new) (db s') = Some row
                         /\ actual_value row = v
                         /\ pass_fail_status row = Some (fst r)).
Proof.
  split; [|split; [|split]].
  - intros d kw self dbs H. rewrite save_unfold.
    destruct H as [H|H].
    + rewrite (bool_decide_eq_true_2 _ H). reflexivity.
    + rewrite H. cbn [truthy]. rewrite andb_false_r. reflexivity.
  - intros d self dbs spec r Hnone Ha Hrq Hpa Hs Hspec Hv.
    set (replace := fun row => if String.eqb (result_id row) (result_id self)
                               then self else row).
    assert (Hrep : forall row, result_id (replace row) = result_id row).
    { intros row. unfold replace.
      destruct (String.eqb (result_id row) (result_id self)) eqn:E; [|reflexivity].
      apply eqb_string_true in E. congruence. }
    destruct (find_result_stored self dbs Hs) as (row0 & Hrow0 & Hkey0).
    rewrite save_unfold, (super_save_plain self dbs Hs), Hnone. fold replace.
    rewrite (truthy_nonempty _ Ha).
    replace (bool_decide (is_Some (@None bool))) with false
      by (symmetry; apply bool_decide_eq_false; intros [x Hx]; discriminate).
    cbn [negb andb fst].
    rewrite (bool_decide_eq_true_2 _ Hrq), (bool_decide_eq_true_2 _ Hpa). cbn [andb].
    rewrite (calculate_pass_fail_verdict d self _ spec r).
    + eexists. split; [reflexivity|].
      cbn [test_results with_test_results].
      rewrite find_result_replaced
        by (intros row; unfold write_status; destruct (String.eqb _ _); reflexivity).
      replace (with_test_results (map replace (test_results dbs))
                 (with_test_results (map replace (test_results dbs)) dbs))
        with (with_test_results (map replace (test_results dbs)) dbs) by reflexivity.
      rewrite find_result_replaced by exact Hrep.
      replace (with_test_results (test_results dbs) dbs) with dbs
        by (destruct dbs; reflexivity).
      rewrite Hrow0. cbn [option_map]. eexists. split; [reflexivity|].
      unfold replace. rewrite (proj2 (eqb_string_true _ _) Hkey0).
      unfold write_status. rewrite String.eqb_refl. split; reflexivity.
    + apply (result_stored_replaced self replace dbs Hrep Hs).
    + rewrite <- Hspec. apply first_specification_frame; reflexivity.
    + exact Hv.
  - intros d uuid4 request u test_request param s r0 v spec r Hget Hone Hspec Hv.
    pose proof (filter_singleton_stored _ _ _ Hone) as Hs0.
    set (obj := set_tested_by (Some (user_id u)) (set_actual_value v r0)).
    destruct (save_plain_returns d obj (db s) spec r) as
      (obj' & dbs' & Hsave & Hs' & Hspec' & Hval' & Hid' & row1 & Hrow1 & Hval1).
    { exact Hs0. }
    { rewrite <- Hspec. apply first_specification_frame; reflexivity. }
    { exact Hv. }
    assert (Hhas : post_has ("value_" +:+ param_id param) request = true).
    { unfold post_has. apply bool_decide_eq_true_2.
      unfold post_get, post_list in Hget.
      destruct (POST request !! ("value_" +:+ param_id param)) as [l|];
        [eexists; reflexivity|discriminate]. }
    unfold enter_result. rewrite Hhas, Hget. cbn [from_option]. unfold id.
    unfold bind at 1. unfold get_or_create. unfold bind at 1. unfold get at 1.
    rewrite Hone. unfold ret at 1. cbn [snd fst negb].
    fold obj. unfold bind at 1. unfold bind at 1. unfold on_result at 1.
    rewrite Hsave. unfold ret at 1. cbn [snd fst].
    unfold bind at 1. unfold on_result at 1. cbn [db with_db].
    rewrite (calculate_pass_fail_verdict (S d) obj' dbs' spec r Hs' Hspec')
      by (rewrite Hval'; exact Hv).
    eexists. split; [reflexivity|]. cbn [db with_db].
    rewrite find_result_replaced
      by (intros row; unfold write_status; destruct (String.eqb _ _); reflexivity).
    replace (with_test_results (test_results dbs') dbs') with dbs'
      by (destruct dbs'; reflexivity).
    change (result_id obj) with (result_id r0) in Hrow1. rewrite Hrow1. cbn [option_map].
    eexists. split; [reflexivity|].
    assert (Hk1 : result_id row1 = result_id r0).
    { unfold find_result in Hrow1.
      destruct (List.filter _ (test_results dbs')) as [|x l] eqn:E; [discriminate|].
      cbn in Hrow1. inversion Hrow1; subst x.
      assert (Hin : In row1 (List.filter
                (fun r1 => String.eqb (result_id r1) (result_id r0)) (test_results dbs')))
        by (rewrite E; left; reflexivity).
      apply filter_In in Hin. apply eqb_string_true. tauto. }
    unfold write_status. rewrite Hid'. change (result_id obj) with (result_id r0).
    rewrite (proj2 (eqb_string_true _ _) Hk1). split; [exact Hval1|reflexivity].
  - intros d uuid4 request u test_request param s v spec r new Hget Hnone Hfresh Hspec Hv.
    destruct (save_insert_returns d new (db s) spec r Hfresh Hspec Hv) as
      (obj' & dbs' & Hsave & Hs' & Hspec' & Hval' & Hid' & row1 & Hrow1 & Hval1).
    assert (Hhas : post_has ("value_" +:+ param_id param) request = true).
    { unfold post_has. apply bool_decide_eq_true_2.
      unfold post_get, post_list in Hget.
      destruct (POST request !! ("value_" +:+ param_id param)) as [l|];
        [eexists; reflexivity|discriminate]. }
    unfold enter_result. rewrite Hhas, Hget. cbn [from_option]. unfold id.
    unfold bind at 1. unfold get_or_create. unfold bind at 1. unfold get at 1.
    rewrite Hnone. unfold bind at 1. unfold draw_uuid at 1.
    unfold bind at 1. unfold on_result at 1. cbn [db]. fold new.
    rewrite Hsave. unfold ret at 1. cbn [snd fst negb]. unfold ret at 1.
    unfold bind at 1. unfold ret at 1.
    unfold bind at 1. unfold on_result at 1. cbn [db with_db].
    rewrite (calculate_pass_fail_verdict (S d) obj' dbs' spec r Hs' Hspec')
      by (rewrite Hval'; exact Hv).
    eexists. split; [reflexivity|]. cbn [db with_db].
    rewrite find_result_replaced
      by (intros row; unfold write_status; destruct (String.eqb _ _); reflexivity).
    replace (with_test_results (test_results dbs') dbs') with dbs'
      by (destruct dbs'; reflexivity).
    rewrite Hrow1. cbn [option_map].
    eexists. split; [reflexivity|].
    assert (Hk1 : result_id row1 = result_id new).
    { unfold find_result in Hrow1.
      destruct (List.filter _ (test_results dbs')) as [|x l] eqn:E; [discriminate|].
      cbn in Hrow1. inversion Hrow1; subst x.
      assert (Hin : In row1 (List.filter
                (fun r1 => String.eqb (result_id r1) (result_id new)) (test_results dbs')))
        by (rewrite E; left; reflexivity).
      apply filter_In in Hin. apply eqb_string_true. tauto. }
    unfold write_status. rewrite Hid'.
    rewrite (proj2 (eqb_string_true _ _) Hk1). split; [exact Hval1|reflexivity].
Qed.

Lemma save_recomputes_only_when_unset_witness :
  exists dbs',
    save 3 plain_save (sample_result "11.0" None,
                       sample_db "In-Progress" 3 "11.0" None [moisture_spec])
    = (Return tt, (sample_result "11.0" (Some true), dbs')).
Proof.
  destruct (proj1 (proj2 save_recomputes_only_when_unset) 0%nat
              (sample_result "11.0" None)
              (sample_db "In-Progress" 3 "11.0" None [moisture_spec])
              moisture_spec (true, None)) as (dbs' & H & _).
  - reflexivity.
  - discriminate.
  - eexists; reflexivity.
  - eexists; reflexivity.
  - reflexivity.
  - reflexivity.
  - reflexivity.
  - exists dbs'. exact H.
Defined.

(** ** Who approves and rejects *)

(** The result methods leave the table of requests alone. *)
Lemma result_methods_frame (d : nat) :
  (forall kw st, test_requests (snd (snd (save d kw st))) = test_requests (snd st))
  /\ (forall st, test_requests (snd (snd (calculate_pass_fail d st))) = test_requests (snd st)).
Proof.
  induction d as [|d [IHs IHc]].
  - split; intros; reflexivity.
  - assert (Hstore : forall v b st,
              test_requests (snd (snd (store_status d v b st))) = test_requests (snd st)).
    { intros v b [self dbs]. rewrite store_status_unfold.
      pose proof (IHs status_fields (set_pass_fail_status v self, dbs)) as H.
      destruct (save d status_fields (set_pass_fail_status v self, dbs)) as [[[]|e] st'];
        exact H. }
    split.
    + intros kw [self dbs]. rewrite save_unfold.
      destruct (super_save_self kw (self, dbs)) as (_ & Hsup & _).
      destruct (negb _ && _); [|exact Hsup].
      destruct (super_save kw (self, dbs)) as [[[]|e] st1]; cbn [snd] in *; [|exact Hsup].
      destruct (_ && _); [|exact Hsup].
      pose proof (IHc st1) as H.
      destruct (calculate_pass_fail d st1) as [[?|?] st2]; cbn [snd] in *; congruence.
    + intros st. rewrite calculate_pass_fail_unfold.
      assert (Htry : forall v b,
                test_requests (snd (snd (try_except_Exception (store_status d v b)
                                           (store_status d None false) st)))
                = test_requests (snd st)).
      { intros v b. unfold try_except_Exception.
        pose proof (Hstore v b st) as H1.
        destruct (store_status d v b st) as [[?|?] st1]; cbn [snd] in *; [exact H1|].
        rewrite Hstore. exact H1. }
      destruct (evaluation (fst st) (snd st)) as [[b|]|e]; [apply Htry|apply Htry|apply Hstore].
Qed.

Lemma on_result_frame {A} (obj : TestResult) (m : M (TestResult * Database) A) (s : Site) :
  (forall st, test_requests (snd (snd (m st))) = test_requests (snd st)) ->
  test_requests (db (snd (on_result obj m s))) = test_requests (db s).
Proof.
  intros H. unfold on_result. specialize (H (obj, db s)).
  destruct (m (obj, db s)) as [[a|e] [obj' d]]; exact H.
Qed.

Lemma bind_frame {A B} (P : Site -> Site -> Prop) (m : M Site A) (k : A -> M Site B) :
  (forall s, P s s) ->
  (forall s1 s2 s3, P s1 s2 -> P s2 s3 -> P s1 s3) ->
  (forall s, P s (snd (m s))) ->
  (forall a s, P s (snd (k a s))) ->
  forall s, P s (snd (bind m k s)).
Proof.
  intros Hrefl Htrans Hm Hk s. unfold bind. specialize (Hm s).
  destruct (m s) as [[a|e] s1]; cbn [snd] in *; [|exact Hm].
  eapply Htrans; [exact Hm|apply Hk].
Qed.

Lemma same_requests_refl (s : Site) : same_requests s s.
Proof. reflexivity. Qed.

Lemma same_requests_trans (s1 s2 s3 : Site) :
  same_requests s1 s2 -> same_requests s2 s3 -> same_requests s1 s3.
Proof. unfold same_requests. congruence. Qed.

(** One step of a frame proof: split a [bind] into its two halves. *)
Ltac frame_bind :=
  apply bind_frame; [exact same_requests_refl | exact same_requests_trans | | ].

Lemma enter_result_frame (depth : nat) (uuid4 : nat -> ID) (request : HttpRequest)
    (u : User) (test_request : TestRequest) (param : TestParameter) (s : Site) :
  same_requests s (snd (enter_result depth uuid4 request u test_request param s)).
Proof.
  pose proof (result_methods_frame depth) as [Hsave Hcalc].
  assert (Hres : forall A obj (m : M (TestResult * Database) A),
            (forall st, test_requests (snd (snd (m st))) = test_requests (snd st)) ->
            forall s0, same_requests s0 (snd (on_result obj m s0))).
  { intros A obj m Hm s0. apply on_result_frame. exact Hm. }
  unfold enter_result. destruct (post_has _ request); [|reflexivity].
  revert s. frame_bind.
  - intros s. unfold get_or_create.
    revert s. frame_bind; [reflexivity|].
    intros s0 s. destruct (List.filter _ _) as [|r [|r' l]]; try reflexivity.
    revert s. frame_bind; [reflexivity|].
    intros id. frame_bind; [|reflexivity].
    apply Hres. apply Hsave.
  - intros gc. frame_bind.
    + destruct (negb (snd gc)); [|reflexivity].
      frame_bind; [|reflexivity].
      apply Hres. apply Hsave.
    + intros result. frame_bind; [|reflexivity].
      apply Hres. apply Hcalc.
Qed.

Lemma enter_results_frame (depth : nat) (uuid4 : nat -> ID) (request : HttpRequest)
    (u : User) (test_request : TestRequest) (params : list TestParameter) (s : Site) :
  same_requests s (snd (enter_results depth uuid4 request u test_request params s)).
Proof.
  revert s. induction params as [|param rest IH]; intros s; [reflexivity|].
  cbn [enter_results]. revert s. frame_bind.
  - apply enter_result_frame.
  - intros _. exact IH.
Qed.

Example controller_approves_at_step_4 :
  run_view 3 (fun _ => "new") (call_pipeline_step (controller_post "approve") "r1" 4)
           (sample_site "In-Progress" 3)
  = (Return (redirect "testing:detail" (Some "r1") None),
     {| db := db (sample_site "Approved" 4); session := ∅;
        messages := [("success", "Test request approved. Progress: 100%")];
        uuid_calls := 0 |}).
Proof. vm_compute. reflexivity. Qed.

Lemma head_filter_Some {A} (P : A -> bool) (l : list A) (x : A) :
  head (List.filter P l) = Some x -> In x l /\ P x = true.
Proof.
  intros H. destruct (List.filter P l) as [|y l'] eqn:E; [discriminate|].
  cbn in H. inversion H; subst y. apply filter_In. rewrite E. left. reflexivity.
Qed.

Lemma request_key_present (obj : TestRequest) (rows : list TestRequest) :
  In obj rows -> existsb (fun row => String.eqb (req_id row) (req_id obj)) rows = true.
Proof.
  intros H. apply existsb_exists. exists obj. split; [exact H|apply String.eqb_refl].
Qed.

(** Saving every column of a request whose key is stored. *)
Lemma on_request_save_present (obj obj' : TestRequest) (s : Site) :
  In obj (test_requests (db s)) ->
  req_id obj' = req_id obj ->
  on_request obj' (TestRequest_save plain_save) s
  = (Return (tt, obj'),
     with_db (with_test_requests (map (replace_request obj') (test_requests (db s))) (db s)) s).
Proof.
  intros Hin Hid.
  assert (Hp : existsb (fun row => String.eqb (req_id row) (req_id obj'))
                 (test_requests (db s)) = true)
    by (rewrite Hid; apply request_key_present; exact Hin).
  unfold on_request, TestRequest_save, model_save, plain_save. cbn.
  rewrite Hp. reflexivity.
Qed.

Lemma lookup_replace_request (obj' : TestRequest) (rows : list TestRequest) (i : nat)
    (row' : TestRequest) :
  map (replace_request obj') rows !! i = Some row' ->
  exists row, rows !! i = Some row
              /\ ((req_id row = req_id obj' /\ row' = obj')
                  \/ (req_id row <> req_id obj' /\ row' = row)).
Proof.
  revert i. induction rows as [|r rows IH]; intros [|i]; simpl; try discriminate.
  - intros [= <-]. exists r. split; [reflexivity|]. unfold replace_request.
    destruct (String.eqb (req_id r) (req_id obj')) eqn:E.
    + left. split; [apply eqb_string_true; exact E|reflexivity].
    + right. split; [apply eqb_string_false; exact E|reflexivity].
  - apply IH.
Qed.

Lemma unique_key (rows : list TestRequest) (i : nat) (row obj : TestRequest) :
  NoDup (map req_id rows) ->
  rows !! i = Some row -> In obj rows -> req_id row = req_id obj -> row = obj.
Proof.
  revert i. induction rows as [|r rows IH]; intros i Hnd Hi Hin Hk; [destruct Hin|].
  cbn in Hnd. apply NoDup_cons in Hnd. destruct Hnd as [Hnotin Hnd].
  destruct i as [|i]; cbn in Hi.
  - inversion Hi; subst r. destruct Hin as [->|Hin]; [reflexivity|].
    exfalso. apply Hnotin. rewrite Hk. apply list_elem_of_In. apply in_map. exact Hin.
  - destruct Hin as [->|Hin].
    + exfalso. apply Hnotin. rewrite <- Hk. apply list_elem_of_In. apply in_map.
      apply list_elem_of_In. eapply list_elem_of_lookup_2. exact Hi.
    + eapply IH; eauto.
Qed.

(** A branch of a view that ends without touching the requests. *)
Ltac unchanged H := inversion H; left; reflexivity.

(** What [pipeline_step] does to the table of requests: nothing, or it
    replaces the fetched request by an updated copy. *)
Lemma pipeline_step_effect (depth : nat) (uuid4 : nat -> ID) (request : HttpRequest)
    (test_id : ID) (step : Z) (s : Site) (o : Outcome HttpResponse) (s' : Site) :
  pipeline_step depth uuid4 request test_id step s = (o, s') ->
  same_requests s s'
  \/ exists u obj obj',
       user request = Some u
       /\ (is_controller u = true \/ is_admin u = true)
       /\ In obj (test_requests (db s))
       /\ req_id obj = test_id
       /\ (controller_user obj = user_id u \/ is_admin u = true)
       /\ req_id obj' = req_id obj
       /\ test_requests (db s') = map (replace_request obj') (test_requests (db s))
       /\ (status obj' = status obj
           \/ status obj' = "In-Progress"
           \/ status obj' = "Submitted for Review"
           \/ (step = 4 /\ method request = "POST"
               /\ ((post_get "action" request = Some "approve" /\ status obj' = "Approved")
                   \/ (post_get "action" request = Some "reject"
                       /\ status obj' = "Rejected")))).
Proof.
  intros H. unfold pipeline_step in H.
  destruct (user request) as [u|] eqn:Hu; [|unchanged H].
  destruct (negb (has_controller_access (Some u) || has_admin_access (Some u))) eqn:Hacc.
  { unchanged H. }
  unfold bind at 1 in H. unfold get_object_or_404 in H.
  unfold bind at 1, get at 1 in H.
  destruct (head (List.filter _ (test_requests (db s)))) as [obj|] eqn:Hobj;
    [|unchanged H].
  apply head_filter_Some in Hobj. destruct Hobj as [Hin Hsel].
  apply andb_true_iff in Hsel. destruct Hsel as [Hkey _].
  apply eqb_string_true in Hkey.
  unfold ret at 1 in H.
  destruct (negb (controller_user obj =? user_id u)%N && negb (is_admin u)) eqn:Hown.
  { unchanged H. }
  assert (Hrole : is_controller u = true \/ is_admin u = true).
  { apply negb_false_iff, orb_true_iff in Hacc. exact Hacc. }
  assert (Howner : controller_user obj = user_id u \/ is_admin u = true).
  { apply andb_false_iff in Hown. destruct Hown as [Ho|Ho]; apply negb_false_iff in Ho.
    - left. apply N.eqb_eq. exact Ho.
    - right. exact Ho. }
  assert (Hwrite : forall obj' s0 o0 s0' (k : M Site HttpResponse),
            req_id obj' = req_id obj ->
            same_requests s s0 ->
            (on_request obj' (TestRequest_save plain_save) ;; k) s0 = (o0, s0') ->
            (forall s1, same_requests s1 (snd (k s1))) ->
            test_requests (db s0') = map (replace_request obj') (test_requests (db s))).
  { intros obj' s0 o0 s0' k Hid Hsame Hrun Hk. unfold bind in Hrun.
    rewrite (on_request_save_present obj obj') in Hrun
      by (try rewrite Hsame; assumption).
    specialize (Hk (with_db (with_test_requests
                      (map (replace_request obj') (test_requests (db s0))) (db s0)) s0)).
    rewrite Hrun in Hk. cbn [snd] in Hk. unfold same_requests in Hk. rewrite Hk, Hsame.
    reflexivity. }
  assert (Hmsg : forall level text (r : HttpResponse) s1,
            same_requests s1 (snd ((add_message level text ;; ret r) s1)))
    by (intros; reflexivity).
  destruct (step =? 2) eqn:E2.
  { destruct (String.eqb (method request) "POST"); [|unchanged H].
    unfold bind at 1, get at 1 in H.
    destruct (TestParameterSelectionForm request obj (db s)) as [sel|];
      [|unchanged H].
    unfold bind at 1, modify at 1 in H.
    right. exists u, obj, (set_status "In-Progress" (set_current_step 2 obj)).
    repeat (split; [solve [auto]|]). split.
    - eapply Hwrite; [reflexivity| |exact H|intros; apply Hmsg]. reflexivity.
    - right. left. reflexivity. }
  destruct (step =? 3) eqn:E3.
  { unfold bind at 1, get at 1 in H.
    destruct (default [] (session s !! session_key test_id)) as [|pid pids];
      [unchanged H|].
    destruct (String.eqb (method request) "POST"); [|unchanged H].
    unfold atomic in H. unfold bind at 1 in H.
    match type of H with context [enter_results ?a ?b ?c ?d ?e ?f s] =>
      pose proof (enter_results_frame a b c d e f s) as Hent;
      destruct (enter_results a b c d e f s) as [[[]|e0] s1] end; cbn [snd] in Hent.
    - match type of H with context [bind ?m ?k s1] =>
        destruct (bind m k s1) as [[r|e1] s2] eqn:Hrun end.
      + inversion H; subst. right. exists u, obj, (set_current_step 3 obj).
        repeat (split; [solve [auto]|]). split.
        * eapply (Hwrite (set_current_step 3 obj) s1);
            [reflexivity|exact Hent|exact Hrun|intros; apply Hmsg].
        * left. reflexivity.
      + inversion H; subst. left. reflexivity.
    - inversion H; subst. left. reflexivity. }
  destruct (step =? 4) eqn:E4.
  { apply Z.eqb_eq in E4.
    destruct (String.eqb (method request) "POST") eqn:Em; [|unchanged H].
    apply eqb_string_true in Em.
    destruct (TestReviewForm request) as [action|] eqn:Hform;
      [|unchanged H].
    assert (Hact : post_get "action" request = Some action).
    { unfold TestReviewForm in Hform.
      destruct (post_get "action" request) as [a|]; [|discriminate].
      destruct (str_in a _); inversion Hform; reflexivity. }
    destruct (String.eqb action "submit") eqn:Es.
    { right. exists u, obj, (set_status "Submitted for Review" (set_current_step 4 obj)).
      repeat (split; [solve [auto]|]). split.
      - eapply Hwrite; [reflexivity| |exact H|intros; apply Hmsg]. reflexivity.
      - right. right. left. reflexivity. }
    destruct (String.eqb action "approve") eqn:Ea.
    { apply eqb_string_true in Ea. subst action.
      right. exists u, obj, (set_status "Approved" (set_current_step 4 obj)).
      repeat (split; [solve [auto]|]). split.
      - eapply Hwrite; [reflexivity| |exact H|intros; apply Hmsg]. reflexivity.
      - right. right. right. auto. }
    destruct (String.eqb action "reject") eqn:Er.
    { apply eqb_string_true in Er. subst action.
      right. exists u, obj, (set_status "Rejected" obj).
      repeat (split; [solve [auto]|]). split.
      - eapply Hwrite; [reflexivity| |exact H|intros; apply Hmsg]. reflexivity.
      - right. right. right. auto. }
    unchanged H. }
  unchanged H.
Qed.

(** What [TestRequestDetailView.post] does to the table of requests: nothing,
    or an admin's verdict on a request that was submitted for review. *)
Lemma detail_post_effect (request : HttpRequest) (test_id : ID) (s : Site)
    (o : Outcome HttpResponse) (s' : Site) :
  TestRequestDetailView_post request test_id s = (o, s') ->
  same_requests s s'
  \/ exists u obj obj',
       user request = Some u
       /\ is_admin u = true
       /\ In obj (test_requests (db s))
       /\ req_id obj = test_id
       /\ status obj = "Submitted for Review"
       /\ req_id obj' = req_id obj
       /\ test_requests (db s') = map (replace_request obj') (test_requests (db s))
       /\ ((post_get "action" request = Some "approve" /\ status obj' = "Approved")
           \/ (post_get "action" request = Some "reject" /\ status obj' = "Rejected")).
Proof.
  intros H. unfold TestRequestDetailView_post in H.
  destruct (user request) as [u|] eqn:Hu; [|unchanged H].
  destruct (negb (str_in (role u) ["ADMIN"; "CONTROLLER"]));
    [unchanged H|].
  unfold bind at 1 in H. unfold get_object in H. unfold bind at 1, get at 1 in H.
  destruct (is_admin u) eqn:Hadm.
  - destruct (head (List.filter _ (List.filter _ (test_requests (db s))))) as [obj|] eqn:Hobj;
      [|unchanged H].
    apply head_filter_Some in Hobj. destruct Hobj as [Hin Hkey].
    apply filter_In in Hin. destruct Hin as [Hin _]. apply eqb_string_true in Hkey.
    unfold ret at 1 in H. cbn [negb] in H.
    destruct (String.eqb (status obj) "Submitted for Review") eqn:Est;
      [|unchanged H].
    apply eqb_string_true in Est.
    destruct (bool_decide (post_get "action" request = Some "approve")) eqn:Ea.
    { apply bool_decide_eq_true_1 in Ea.
      right. exists u, obj, (set_status "Approved" obj).
      repeat (split; [solve [auto]|]). split; [|left; auto].
      unfold bind in H.
      rewrite (on_request_save_present obj (set_status "Approved" obj)) in H
        by (assumption || reflexivity).
      inversion H; subst. reflexivity. }
    destruct (bool_decide (post_get "action" request = Some "reject")) eqn:Er.
    { apply bool_decide_eq_true_1 in Er.
      right. exists u, obj, (set_status "Rejected" obj).
      repeat (split; [solve [auto]|]). split; [|right; auto].
      unfold bind in H.
      rewrite (on_request_save_present obj (set_status "Rejected" obj)) in H
        by (assumption || reflexivity).
      inversion H; subst. reflexivity. }
    unchanged H.
  - destruct (head (List.filter _ (List.filter _ (test_requests (db s))))) as [obj|];
      unchanged H.
Qed.

(** What [pipeline_start] does to the table of requests: nothing, or it
    appends a pending request. *)
Lemma pipeline_start_effect (uuid4 : nat -> ID) (request : HttpRequest)
    (form : option TestRequestForm) (s : Site) (o : Outcome HttpResponse) (s' : Site) :
  pipeline_start uuid4 request form s = (o, s') ->
  same_requests s s'
  \/ exists obj, status obj = "Pending"
                 /\ test_requests (db s') = (test_requests (db s) ++ [obj])%list.
Proof.
  intros H. unfold pipeline_start in H.
  destruct (user request) as [u|]; [|unchanged H].
  destruct (negb _); [unchanged H|].
  destruct (String.eqb (method request) "POST"); [|unchanged H].
  destruct form as [f|]; [|unchanged H].
  unfold bind at 1, draw_uuid at 1 in H. unfold bind at 1 in H.
  unfold on_request, TestRequest_save, model_save, save_insert in H. cbn in H.
  destruct (existsb _ (test_requests (db s))); cbn in H.
  - unchanged H.
  - inversion H; subst. right. eexists. split; [|reflexivity]. reflexivity.
Qed.

Lemma controller_decides :
  run_view 3 (fun _ => "new") (call_pipeline_step (controller_post "reject") "r1" 4)
           (sample_site "In-Progress" 3)
  = (Return (redirect "testing:detail" (Some "r1") None),
     {| db := db (sample_site "Rejected" 3); session := ∅;
        messages := [("warning", "Test request rejected.")];
        uuid_calls := 0 |})
  /\ has_admin_access (user (controller_post "reject")) = false.
Proof. split; vm_compute; reflexivity. Qed.

(** C8 does not hold as worded: the controller who owns a request that is
    still In-Progress rejects it (or approves it) through the form of
    step 4. *)
Lemma not_only_admins_decide : ~ only_admins_decide.
Proof.
  intros H.
  destruct (H 3%nat (fun _ => "new")
              (call_pipeline_step (controller_post "reject") "r1" 4)
              (sample_site "In-Progress" 3)
              (Return (redirect "testing:detail" (Some "r1") None))
              {| db := db (sample_site "Rejected" 3); session := ∅;
                 messages := [("warning", "Test request rejected.")];
                 uuid_calls := 0 |}
              0%nat
              (sample_request "Rejected" 3)) as [(row & Hrow & Hst)|(u & row & Hu & Ha & _)].
  - cbn. repeat constructor. intros Hin. inversion Hin.
  - exact (proj1 controller_decides).
  - reflexivity.
  - right. reflexivity.
  - cbn in Hrow. inversion Hrow; subst. discriminate.
  - cbn in Hu. inversion Hu; subst. discriminate.
Qed.

(** C8, as the code has it.  A stored request is Approved or Rejected
    after a call only if it was so before, or an admin decided a request
    Submitted for Review through the detail view, or the controller who
    owns the request or an admin posted approve or reject to step 4 of the
    pipeline, whatever the status was.  At the detail view a user who is
    no admin changes nothing in the database, and is told so whenever the
    view returns; at the pipeline a user who neither owns the request nor
    is an admin changes nothing either, and gets an error message. *)
Theorem approve_reject_transitions :
  (forall (depth : nat) (uuid4 : nat -> ID) (c : ViewCall) (s : Site)
          (o : Outcome HttpResponse) (s' : Site) (i : nat) (row' : TestRequest),
     NoDup (map req_id (test_requests (db s))) ->
     run_view depth uuid4 c s = (o, s') ->
     test_requests (db s') !! i = Some row' ->
     decided (status row') ->
     (exists row, test_requests (db s) !! i = Some row /\ status row = status row')
     \/ (exists request u row,
           c = call_detail_post request (req_id row')
           /\ user request = Some u /\ is_admin u = true
           /\ test_requests (db s) !! i = Some row
           /\ status row = "Submitted for Review"
           /\ ((post_get "action" request = Some "approve" /\ status row' = "Approved")
               \/ (post_get "action" request = Some "reject" /\ status row' = "Rejected")))
     \/ (exists request u row,
           c = call_pipeline_step request (req_id row') 4
           /\ user request = Some u
           /\ (is_controller u = true \/ is_admin u = true)
           /\ (controller_user row = user_id u \/ is_admin u = true)
           /\ method request = "POST"
           /\ test_requests (db s) !! i = Some row
           /\ ((post_get "action" request = Some "approve" /\ status row' = "Approved")
               \/ (post_get "action" request = Some "reject" /\ status row' = "Rejected"))))
  /\ (forall (request : HttpRequest) (test_id : ID) (s : Site) (u : User),
        user request = Some u ->
        is_admin u = false ->
        db (snd (TestRequestDetailView_post request test_id s)) = db s
        /\ forall r, fst (TestRequestDetailView_post request test_id s) = Return r ->
             exists text,
               messages (snd (TestRequestDetailView_post request test_id s))
               = (messages s ++ [("error", text)])%list)
  /\ (forall (depth : nat) (uuid4 : nat -> ID) (request : HttpRequest) (test_id : ID)
             (step : Z) (s : Site) (u : User) (obj : TestRequest),
        user request = Some u ->
        is_admin u = false ->
        head (List.filter (fun r => String.eqb (req_id r) test_id && req_is_active r)
                          (test_requests (db s))) = Some obj ->
        controller_user obj <> user_id u ->
        db (snd (pipeline_step depth uuid4 request test_id step s)) = db s
        /\ exists r text,
             fst (pipeline_step depth uuid4 request test_id step s) = Return r
             /\ messages (snd (pipeline_step depth uuid4 request test_id step s))
                = (messages s ++ [("error", text)])%list).
Proof.
  split; [|split].
  - intros depth uuid4 c s o s' i row' Hnd Hrun Hi Hdec.
    destruct c as [request form|request test_id step|request test_id]; cbn [run_view] in Hrun.
    + destruct (pipeline_start_effect _ _ _ _ _ _ Hrun) as [Hsame|(obj & Hst & Happ)].
      * left. exists row'. rewrite <- Hsame. auto.
      * rewrite Happ in Hi. apply lookup_app_Some in Hi.
        destruct Hi as [Hi|[_ Hi]]; [left; exists row'; auto|].
        exfalso. destruct (i - length (test_requests (db s)))%nat; cbn in Hi;
          [|discriminate].
        inversion Hi; subst. rewrite Hst in Hdec. destruct Hdec; discriminate.
    + destruct (pipeline_step_effect _ _ _ _ _ _ _ _ Hrun)
        as [Hsame|(u & obj & obj' & Hu & Hrole & Hin & Hkey & Hown & Hid & Hrows & Hst)].
      * left. exists row'. rewrite <- Hsame. auto.
      * rewrite Hrows in Hi. apply lookup_replace_request in Hi.
        destruct Hi as (row & Hrow & [[Hk ->]|[_ ->]]); [|left; exists row; auto].
        assert (row = obj) by (eapply unique_key; eauto; congruence). subst row.
        destruct Hst as [Hst|[Hst|[Hst|(H4 & Hm & Hact)]]].
        -- left. exists obj. auto.
        -- exfalso. rewrite Hst in Hdec. destruct Hdec; discriminate.
        -- exfalso. rewrite Hst in Hdec. destruct Hdec; discriminate.
        -- right. right. exists request, u, obj. subst step.
           rewrite Hid, Hkey. repeat (split; [solve [auto]|]). exact Hact.
    + destruct (detail_post_effect _ _ _ _ _ Hrun)
        as [Hsame|(u & obj & obj' & Hu & Hadm & Hin & Hkey & Hsub & Hid & Hrows & Hact)].
      * left. exists row'. rewrite <- Hsame. auto.
      * rewrite Hrows in Hi. apply lookup_replace_request in Hi.
        destruct Hi as (row & Hrow & [[Hk ->]|[_ ->]]); [|left; exists row; auto].
        assert (row = obj) by (eapply unique_key; eauto; congruence). subst row.
        right. left. exists request, u, obj.
        rewrite Hid, Hkey. repeat (split; [solve [auto]|]). exact Hact.
  - intros request test_id s u Hu Hadm.
    destruct (TestRequestDetailView_post request test_id s) as [o s'] eqn:Hrun.
    cbn [fst snd]. unfold TestRequestDetailView_post in Hrun. rewrite Hu in Hrun.
    destruct (negb (str_in (role u) ["ADMIN"; "CONTROLLER"])).
    { inversion Hrun; subst. split; [reflexivity|]. intros r _. eexists. reflexivity. }
    unfold bind at 1 in Hrun. unfold get_object in Hrun.
    unfold bind at 1, get at 1 in Hrun. rewrite Hadm in Hrun.
    destruct (head (List.filter _ (List.filter _ (test_requests (db s))))) as [obj|].
    + inversion Hrun; subst. split; [reflexivity|]. intros r _. eexists. reflexivity.
    + inversion Hrun; subst. split; [reflexivity|]. intros r Hr. discriminate.
  - intros depth uuid4 request test_id step s u obj Hu Hadm Hobj Hown.
    destruct (pipeline_step depth uuid4 request test_id step s) as [o s'] eqn:Hrun.
    cbn [fst snd]. unfold pipeline_step in Hrun. rewrite Hu in Hrun.
    destruct (negb (has_controller_access (Some u) || has_admin_access (Some u))).
    { inversion Hrun; subst. split; [reflexivity|]. do 2 eexists. split; reflexivity. }
    unfold bind at 1 in Hrun. unfold get_object_or_404 in Hrun.
    unfold bind at 1, get at 1 in Hrun. rewrite Hobj in Hrun. unfold ret at 1 in Hrun.
    rewrite Hadm in Hrun. apply N.eqb_neq in Hown. rewrite Hown in Hrun.
    cbn [negb andb] in Hrun.
    inversion Hrun; subst. split; [reflexivity|]. do 2 eexists. split; reflexivity.
Qed.

Lemma approve_reject_transitions_witness :
  db (snd (TestRequestDetailView_post (controller_post "approve") "r1"
             (sample_site "Submitted for Review" 4)))
  = db (sample_site "Submitted for Review" 4).
Proof.
  apply (proj1 (proj2 approve_reject_transitions) (controller_post "approve") "r1"
           (sample_site "Submitted for Review" 4) {| user_id := 7%N; role := "CONTROLLER" |}).
  - reflexivity.
  - reflexivity.
Defined.

(** The scenario of the specification, end to end: the request is created,
    the parameter selected, the value 11.0 entered and found within the
    moisture bounds, the request submitted (progress 75) and approved by
    an admin (progress 100). *)
Example end_to_end :
  let uuid4 := fun n : nat => match n with O => "r1" | _ => "t1" end in
  let controller := {| user_id := 7%N; role := "CONTROLLER" |} in
  let post := fun kvs => {| user := Some controller; method := "POST";
                            POST := list_to_map kvs |} in
  let s0 := {| db := {| test_requests := []; test_results := [];
                        specifications := [moisture_spec];
                        parameters := [moisture "Numeric"] |};
               session := ∅; messages := []; uuid_calls := 0 |} in
  let s1 := snd (pipeline_start uuid4 (post []) (Some {| form_batch_number := "BATCH-001";
                                                         form_product := "corn" |}) s0) in
  let s2 := snd (pipeline_step 3 uuid4 (post [("parameters", ["p1"])]) "r1" 2 s1) in
  let s3 := snd (pipeline_step 3 uuid4 (post [("value_p1", ["11.0"])]) "r1" 3 s2) in
  let s4 := snd (pipeline_step 3 uuid4 (post [("action", ["submit"])]) "r1" 4 s3) in
  let s5 := snd (TestRequestDetailView_post (admin_post "approve") "r1" s4) in
  map (fun r => (status r, current_step r)) (test_requests (db s1)) = [("Pending", 1)]
  /\ map (fun r => (status r, current_step r)) (test_requests (db s2)) = [("In-Progress", 2)]
  /\ map (fun r => (actual_value r, pass_fail_status r)) (test_results (db s3))
     = [("11.0", Some true)]
  /\ map (fun r => (status r, current_step r, get_progress_percentage r))
         (test_requests (db s4)) = [("Submitted for Review", 4, 75)]
  /\ map (fun r => (status r, current_step r, get_progress_percentage r))
         (test_requests (db s5)) = [("Approved", 4, 100)].
Proof. vm_compute. repeat split; reflexivity. Qed.

(** * Further properties *)

(** ** The validator on text and Boolean parameters *)

Lemma is_space_lower_char (c : ascii) : is_space (lower_char c) = is_space c.
Proof. destruct c as [[] [] [] [] [] [] [] []]; reflexivity. Qed.

Lemma lower_char_idempotent (c : ascii) : lower_char (lower_char c) = lower_char c.
Proof. destruct c as [[] [] [] [] [] [] [] []]; reflexivity. Qed.

Lemma lower_idempotent (s : string) : lower (lower s) = lower s.
Proof.
  induction s as [|c s IH]; [reflexivity|]. cbn [lower].
  rewrite lower_char_idempotent, IH. reflexivity.
Qed.

Lemma lower_lstrip (s : string) : lower (lstrip s) = lstrip (lower s).
Proof.
  induction s as [|c s IH]; [reflexivity|]. cbn [lstrip lower].
  rewrite is_space_lower_char. destruct (is_space c); [exact IH|reflexivity].
Qed.

Lemma lower_rstrip (s : string) : lower (rstrip s) = rstrip (lower s).
Proof.
  induction s as [|c s IH]; [reflexivity|]. cbn [rstrip lower].
  rewrite <- IH, is_space_lower_char.
  destruct (rstrip s) as [|c' t]; cbn [lower]; [|reflexivity].
  destruct (is_space c); reflexivity.
Qed.

Lemma lower_strip (s : string) : lower (strip s) = strip (lower s).
Proof. unfold strip. rewrite lower_rstrip, lower_lstrip. reflexivity. Qed.

Lemma blank_cons (c : ascii) (ws : string) :
  blank (String c ws) = true -> is_space c = true /\ blank ws = true.
Proof.
  unfold blank. cbn [list_ascii_of_string forallb]. intros H.
  apply andb_true_iff in H. exact H.
Qed.

Lemma lstrip_blank (ws s : string) : blank ws = true -> lstrip (ws +:+ s) = lstrip s.
Proof.
  induction ws as [|c ws IH]; [reflexivity|]. intros H.
  apply blank_cons in H. destruct H as [Hc Hws].
  change (String c ws +:+ s) with (String c (ws +:+ s)).
  cbn [lstrip]. rewrite Hc. apply IH. exact Hws.
Qed.

Lemma rstrip_blank_only (ws : string) : blank ws = true -> rstrip ws = "".
Proof.
  induction ws as [|c ws IH]; [reflexivity|]. intros H.
  apply blank_cons in H. destruct H as [Hc Hws].
  cbn [rstrip]. rewrite (IH Hws), Hc. reflexivity.
Qed.

Lemma rstrip_blank (s ws : string) : blank ws = true -> rstrip (s +:+ ws) = rstrip s.
Proof.
  intros Hws. induction s as [|c s IH].
  - apply rstrip_blank_only. exact Hws.
  - change (String c s +:+ ws) with (String c (s +:+ ws)).
    cbn [rstrip]. rewrite IH. reflexivity.
Qed.

Lemma lstrip_app (a b : string) :
  lstrip (a +:+ b) = match lstrip a with "" => lstrip b | t => t +:+ b end.
Proof.
  induction a as [|c a IH].
  - change ("" +:+ b) with b. cbn [lstrip]. destruct (lstrip b); reflexivity.
  - change (String c a +:+ b) with (String c (a +:+ b)).
    cbn [lstrip]. destruct (is_space c); [exact IH|reflexivity].
Qed.

(** Surrounding white space does not survive [strip]. *)
Lemma strip_padded (ws a ws' : string) :
  blank ws = true -> blank ws' = true -> strip (ws +:+ a +:+ ws') = strip a.
Proof.
  intros Hws Hws'. unfold strip. rewrite (lstrip_blank ws _ Hws), lstrip_app.
  destruct (lstrip a) as [|c t] eqn:E.
  - assert (Hb : lstrip ws' = "").
    { clear -Hws'. induction ws' as [|c ws' IH]; [reflexivity|].
      apply blank_cons in Hws'. destruct Hws' as [Hc Hr]. cbn [lstrip].
      rewrite Hc. apply IH. exact Hr. }
    rewrite Hb. reflexivity.
  - apply rstrip_blank. exact Hws'.
Qed.

(** What the text and Boolean branches read of the value. *)
Lemma validate_value_reads_folded (self : ProductSpecification) (a a' : string) :
  data_type (parameter self) = "Text" \/ data_type (parameter self) = "Boolean" ->
  lower (strip a') = lower (strip a) ->
  verdict (validate_value self a') = verdict (validate_value self a).
Proof.
  intros Hd E. unfold validate_value. destruct Hd as [Hd|Hd]; rewrite Hd; cbn [String.eqb].
  - change (String.eqb "Text" "Numeric") with false.
    change (String.eqb "Text" "Text") with true. cbv iota. rewrite E.
    destruct (truthy _ && negb _); reflexivity.
  - change (String.eqb "Boolean" "Numeric") with false.
    change (String.eqb "Boolean" "Text") with false.
    change (String.eqb "Boolean" "Boolean") with true. cbv iota. rewrite E.
    destruct (truthy _); [|reflexivity]. destruct (negb _); reflexivity.
Qed.

(** X1. On a text parameter the validator never raises: it passes when no
    standard text is configured, and otherwise exactly when the value
    equals the standard up to letter case and surrounding white space; a
    failure carries a message. *)
Theorem validate_value_text (self : ProductSpecification) (actual_value : string) :
  data_type (parameter self) = "Text" ->
  (standard_text_value self = "" ->
     validate_value self actual_value = Return (true, None))
  /\ (standard_text_value self <> "" ->
      (eq_ignoring_case (strip actual_value) (strip (standard_text_value self)) = true ->
         validate_value self actual_value = Return (true, None))
      /\ (eq_ignoring_case (strip actual_value) (strip (standard_text_value self)) = false ->
          exists msg, msg <> ""
                      /\ validate_value self actual_value = Return (false, Some msg))).
Proof.
  intros Hd.
  assert (Hv : validate_value self actual_value =
            if truthy (standard_text_value self)
               && negb (eq_ignoring_case (strip actual_value)
                                         (strip (standard_text_value self)))
            then Return (false, Some ("Value '" +:+ actual_value
                                      +:+ "' does not match standard '"
                                      +:+ standard_text_value self +:+ "'"))
            else Return (true, None)).
  { unfold validate_value, eq_ignoring_case. rewrite Hd, !lower_strip. reflexivity. }
  rewrite Hv. split.
  - intros ->. reflexivity.
  - intros Hstd. rewrite (truthy_nonempty _ Hstd). split.
    + intros ->. reflexivity.
    + intros ->. eexists. split; [|reflexivity]. discriminate.
Qed.

Lemma validate_value_text_witness :
  validate_value (sample_spec "Text" None None "Negative") " negative " = Return (true, None)
  /\ exists msg, validate_value (sample_spec "Text" None None "Negative") "Positive"
                 = Return (false, Some msg).
Proof.
  destruct (validate_value_text (sample_spec "Text" None None "Negative") " negative "
              eq_refl) as [_ H1].
  destruct (validate_value_text (sample_spec "Text" None None "Negative") "Positive"
              eq_refl) as [_ H2].
  split.
  - apply H1; [discriminate|reflexivity].
  - destruct H2 as [_ H2]; [discriminate|].
    destruct H2 as (msg & _ & H); [reflexivity|]. exists msg. exact H.
Defined.

(** X2. On a text or Boolean parameter the verdict does not depend on the
    letter case of the value nor on white space around it: a value padded
    with white space, in another case, gets the verdict of the value. *)
Theorem validate_value_ignores_case_and_padding (self : ProductSpecification)
    (a b ws ws' : string) :
  data_type (parameter self) = "Text" \/ data_type (parameter self) = "Boolean" ->
  blank ws = true -> blank ws' = true -> lower b = lower a ->
  verdict (validate_value self (ws +:+ b +:+ ws')) = verdict (validate_value self a).
Proof.
  intros Hd Hws Hws' Hcase. apply validate_value_reads_folded; [exact Hd|].
  rewrite (strip_padded ws b ws' Hws Hws'), !lower_strip, Hcase. reflexivity.
Qed.

Lemma validate_value_ignores_case_and_padding_witness :
  verdict (validate_value (sample_spec "Boolean" None None "Yes") "  PASS ")
  = verdict (validate_value (sample_spec "Boolean" None None "Yes") "pass").
Proof.
  apply (validate_value_ignores_case_and_padding
           (sample_spec "Boolean" None None "Yes") "pass" "PASS" "  " " ").
  - right. reflexivity.
  - reflexivity.
  - reflexivity.
  - reflexivity.
Defined.

(** ** The validator on numeric parameters *)

(** With finite bounds and a value that is no NaN the numeric branch
    returns, and passes exactly when no bound is violated. *)
Lemma validate_value_numeric_verdict (self : ProductSpecification) (actual_value : string)
    (value : Decimal) :
  data_type (parameter self) = "Numeric" ->
  bounds_finite self ->
  parse_decimal actual_value = Some value ->
  is_nan value = false ->
  exists b msg, validate_value self actual_value = Return (b, msg)
                /\ (b = true <-> ~ out_of_bounds self value).
Proof.
  intros Hd [Hfmin Hfmax] Hp Hnan.
  rewrite (validate_value_numeric self actual_value value Hd Hp).
  assert (Hfin : forall m, is_finite m = true -> is_nan m = false)
    by (intros [ | | ]; simpl; congruence).
  assert (Hmin : exists r1,
            match min_value self with Some m => dec_lt value m | None => Return false end
            = Return r1
            /\ (r1 = true <-> exists m, min_value self = Some m /\ strictly_below value m)).
  { destruct (min_value self) as [mn|] eqn:E.
    - destruct (dec_lt_spec value mn Hnan (Hfin _ (Hfmin _ eq_refl))) as (r1 & Hr & Hiff).
      exists r1. split; [exact Hr|]. rewrite Hiff. split.
      + intros H. exists mn. auto.
      + intros (m & [= <-] & H). exact H.
    - exists false. split; [reflexivity|]. split; [discriminate|].
      intros (m & Hm & _). discriminate. }
  assert (Hmax : exists r2,
            match max_value self with Some m => dec_gt value m | None => Return false end
            = Return r2
            /\ (r2 = true <-> exists m, max_value self = Some m /\ strictly_below m value)).
  { unfold dec_gt. destruct (max_value self) as [mx|] eqn:E.
    - destruct (dec_lt_spec mx value (Hfin _ (Hfmax _ eq_refl)) Hnan) as (r2 & Hr & Hiff).
      exists r2. split; [exact Hr|]. rewrite Hiff. split.
      + intros H. exists mx. auto.
      + intros (m & [= <-] & H). exact H.
    - exists false. split; [reflexivity|]. split; [discriminate|].
      intros (m & Hm & _). discriminate. }
  destruct Hmin as (r1 & -> & H1). destruct Hmax as (r2 & -> & H2).
  unfold out_of_bounds. destruct r1.
  - do 2 eexists. split; [reflexivity|]. split; [discriminate|].
    intros H. exfalso. apply H. left. apply H1. reflexivity.
  - destruct r2.
    + do 2 eexists. split; [reflexivity|]. split; [discriminate|].
      intros H. exfalso. apply H. right. apply H2. reflexivity.
    + do 2 eexists. split; [reflexivity|]. split; [|reflexivity].
      intros _ [H|H]; [apply H1 in H|apply H2 in H]; discriminate.
Qed.

Lemma strictly_below_same_l (a a' b : Decimal) :
  same_value a a' -> (strictly_below a b <-> strictly_below a' b).
Proof.
  destruct a as [s1 c1 e1|s1|], a' as [s2 c2 e2|s2|]; simpl; try tauto.
  - intros E. destruct b as [s3 c3 e3|[|]|]; simpl; try tauto. rewrite E. reflexivity.
  - intros ->. reflexivity.
Qed.

Lemma strictly_below_same_r (a b b' : Decimal) :
  same_value b b' -> (strictly_below a b <-> strictly_below a b').
Proof.
  destruct b as [s1 c1 e1|s1|], b' as [s2 c2 e2|s2|]; simpl; try tauto.
  - intros E. destruct a as [s3 c3 e3|[|]|]; simpl; try tauto. rewrite E. reflexivity.
  - intros ->. reflexivity.
Qed.

(** X3. On a numeric parameter the verdict depends on the number only, not
    on how it is written: two values that parse to the same number (10,
    10.0, 1E+1) get the same verdict. *)
Theorem validate_value_same_number (self : ProductSpecification) (a a' : string)
    (v v' : Decimal) :
  data_type (parameter self) = "Numeric" ->
  bounds_finite self ->
  parse_decimal a = Some v ->
  parse_decimal a' = Some v' ->
  same_value v v' ->
  verdict (validate_value self a) = verdict (validate_value self a')
  /\ exists b, verdict (validate_value self a) = Some b.
Proof.
  intros Hd Hb Hp Hp' Hs.
  assert (Hn : is_nan v = false) by (destruct v, v'; simpl in *; tauto).
  assert (Hn' : is_nan v' = false) by (destruct v, v'; simpl in *; tauto).
  destruct (validate_value_numeric_verdict self a v Hd Hb Hp Hn) as (b & msg & -> & Hiff).
  destruct (validate_value_numeric_verdict self a' v' Hd Hb Hp' Hn')
    as (b' & msg' & -> & Hiff').
  cbn [verdict fst]. split; [|eauto].
  assert (Hout : out_of_bounds self v <-> out_of_bounds self v').
  { unfold out_of_bounds. split.
    - intros [(m & Hm & H)|(m & Hm & H)]; [left|right]; exists m; split; auto.
      + apply (strictly_below_same_l _ _ _ Hs). exact H.
      + apply (strictly_below_same_r _ _ _ Hs). exact H.
    - intros [(m & Hm & H)|(m & Hm & H)]; [left|right]; exists m; split; auto.
      + apply (strictly_below_same_l _ _ _ Hs). exact H.
      + apply (strictly_below_same_r _ _ _ Hs). exact H. }
  f_equal. destruct b, b'; try reflexivity; exfalso.
  - assert (H : ~ out_of_bounds self v) by (apply Hiff; reflexivity).
    rewrite Hout in H. apply Hiff' in H. discriminate.
  - assert (H : ~ out_of_bounds self v') by (apply Hiff'; reflexivity).
    rewrite <- Hout in H. apply Hiff in H. discriminate.
Qed.

Lemma validate_value_same_number_witness :
  verdict (validate_value moisture_spec "1_1.50") = verdict (validate_value moisture_spec "115E-1")
  /\ exists b, verdict (validate_value moisture_spec "1_1.50") = Some b.
Proof.
  apply (validate_value_same_number moisture_spec "1_1.50" "115E-1"
           (Finite false 1150 (-2)) (Finite false 115 (-1))).
  - reflexivity.
  - exact moisture_spec_bounds_finite.
  - reflexivity.
  - reflexivity.
  - vm_compute. reflexivity.
Defined.

Lemma at_most_trans_below (m a b : Decimal) :
  is_nan m = false -> at_most a b -> ~ strictly_below a m -> ~ strictly_below b m.
Proof.
  intros Hm (Ha & Hb & Hab).
  destruct m as [s1 c1 e1|[|]|], a as [s2 c2 e2|[|]|], b as [s3 c3 e3|[|]|];
    simpl in *; try discriminate; try tauto.
  intros H1 H2. apply Hab. eapply Qlt_le_trans; [exact H2|]. apply Qnot_lt_le. exact H1.
Qed.

Lemma at_most_trans_above (m a b : Decimal) :
  is_nan m = false -> at_most a b -> ~ strictly_below m b -> ~ strictly_below m a.
Proof.
  intros Hm (Ha & Hb & Hab).
  destruct m as [s1 c1 e1|[|]|], a as [s2 c2 e2|[|]|], b as [s3 c3 e3|[|]|];
    simpl in *; try discriminate; try tauto.
  intros H1 H2. apply Hab. eapply Qle_lt_trans; [|exact H2]. apply Qnot_lt_le. exact H1.
Qed.

(** X4. The values that a numeric specification accepts form an interval:
    a value between two accepted values is accepted. *)
Theorem validate_value_accepts_interval (self : ProductSpecification)
    (lo a hi : string) (vlo v vhi : Decimal) :
  data_type (parameter self) = "Numeric" ->
  bounds_finite self ->
  parse_decimal lo = Some vlo ->
  parse_decimal a = Some v ->
  parse_decimal hi = Some vhi ->
  at_most vlo v -> at_most v vhi ->
  validate_value self lo = Return (true, None) ->
  validate_value self hi = Return (true, None) ->
  validate_value self a = Return (true, None).
Proof.
  intros Hd Hb Hplo Hp Hphi Hlo Hhi Hpass_lo Hpass_hi.
  pose proof Hb as [Hfmin Hfmax].
  assert (Hfin : forall m, is_finite m = true -> is_nan m = false)
    by (intros [ | | ]; simpl; congruence).
  destruct Hlo as (Hnlo & Hnv & Hlo'). destruct Hhi as (_ & Hnhi & Hhi').
  destruct (validate_value_numeric_verdict self lo vlo Hd Hb Hplo Hnlo)
    as (b1 & m1 & E1 & Hiff1).
  destruct (validate_value_numeric_verdict self hi vhi Hd Hb Hphi Hnhi)
    as (b2 & m2 & E2 & Hiff2).
  rewrite Hpass_lo in E1. rewrite Hpass_hi in E2.
  inversion E1; subst b1 m1. inversion E2; subst b2 m2.
  assert (Hin_lo : ~ out_of_bounds self vlo) by (apply Hiff1; reflexivity).
  assert (Hin_hi : ~ out_of_bounds self vhi) by (apply Hiff2; reflexivity).
  assert (Hin : ~ out_of_bounds self v).
  { intros [(m & Hm & H)|(m & Hm & H)].
    - revert H. apply (at_most_trans_below m vlo v).
      + apply Hfin, Hfmin. exact Hm.
      + repeat split; assumption.
      + intros H. apply Hin_lo. left. eauto.
    - revert H. apply (at_most_trans_above m v vhi).
      + apply Hfin, Hfmax. exact Hm.
      + repeat split; assumption.
      + intros H. apply Hin_hi. right. eauto. }
  rewrite (validate_value_numeric self a v Hd Hp).
  assert (Hmin : match min_value self with Some m => dec_lt v m | None => Return false end
                 = Return false).
  { destruct (min_value self) as [mn|] eqn:E; [|reflexivity].
    destruct (dec_lt_spec v mn Hnv (Hfin _ (Hfmin _ eq_refl))) as ([|] & -> & Hr);
      [|reflexivity].
    exfalso. apply Hin. left. exists mn. split; [exact E|]. apply Hr. reflexivity. }
  assert (Hmax : match max_value self with Some m => dec_gt v m | None => Return false end
                 = Return false).
  { unfold dec_gt. destruct (max_value self) as [mx|] eqn:E; [|reflexivity].
    destruct (dec_lt_spec mx v (Hfin _ (Hfmax _ eq_refl)) Hnv) as ([|] & -> & Hr);
      [|reflexivity].
    exfalso. apply Hin. right. exists mx. split; [exact E|]. apply Hr. reflexivity. }
  rewrite Hmin, Hmax. reflexivity.
Qed.

Lemma validate_value_accepts_interval_witness :
  validate_value moisture_spec "11.25" = Return (true, None).
Proof.
  apply (validate_value_accepts_interval moisture_spec "10" "11.25" "12.0"
           (Finite false 10 0) (Finite false 1125 (-2)) (Finite false 120 (-1))).
  - reflexivity.
  - exact moisture_spec_bounds_finite.
  - reflexivity.
  - reflexivity.
  - reflexivity.
  - repeat split. vm_compute. discriminate.
  - repeat split. vm_compute. discriminate.
  - reflexivity.
  - reflexivity.
Defined.

(** X5. A value that parses as a NaN (the text [NaN] is a decimal) is
    accepted when the specification has no bound and makes the validator
    raise [InvalidOperation] as soon as one bound is set; an infinite value
    returns and fails against the bound on its side. *)
Theorem validate_value_nan_and_infinity (self : ProductSpecification)
    (actual_value : string) (value : Decimal) :
  data_type (parameter self) = "Numeric" ->
  bounds_finite self ->
  parse_decimal actual_value = Some value ->
  (is_nan value = true ->
     (min_value self = None -> max_value self = None ->
        validate_value self actual_value = Return (true, None))
     /\ (min_value self <> None \/ max_value self <> None ->
         validate_value self actual_value = Raise InvalidOperation))
  /\ (value = Infinity false -> max_value self <> None ->
      exists msg, validate_value self actual_value = Return (false, Some msg))
  /\ (value = Infinity true -> min_value self <> None ->
      exists msg, validate_value self actual_value = Return (false, Some msg)).
Proof.
  intros Hd [Hfmin Hfmax] Hp.
  rewrite (validate_value_numeric self actual_value value Hd Hp). unfold dec_gt.
  split; [|split].
  - intros Hnan.
    assert (Hl : forall m, dec_lt value m = Raise InvalidOperation)
      by (intros m; apply dec_lt_nan; auto).
    assert (Hg : forall m, dec_lt m value = Raise InvalidOperation)
      by (intros m; apply dec_lt_nan; auto).
    split.
    + intros -> ->. reflexivity.
    + intros H. destruct (min_value self) as [mn|]; [rewrite Hl; reflexivity|].
      destruct (max_value self) as [mx|]; [rewrite Hg; reflexivity|].
      destruct H; congruence.
  - intros -> Hmax. destruct (max_value self) as [mx|] eqn:Emax; [|congruence].
    pose proof (Hfmax mx eq_refl) as Hf. destruct mx as [s c e| |]; try discriminate.
    destruct (min_value self) as [mn|] eqn:Emin.
    + pose proof (Hfmin mn eq_refl) as Hf'. destruct mn as [s' c' e'| |]; try discriminate.
      cbn. eexists. reflexivity.
    + cbn. eexists. reflexivity.
  - intros -> Hmin. destruct (min_value self) as [mn|] eqn:Emin; [|congruence].
    pose proof (Hfmin mn eq_refl) as Hf. destruct mn as [s c e| |]; try discriminate.
    cbn. eexists. reflexivity.
Qed.

Lemma validate_value_nan_and_infinity_witness :
  validate_value moisture_spec "NaN" = Raise InvalidOperation
  /\ validate_value (sample_spec "Numeric" None None "") "NaN" = Return (true, None)
  /\ exists msg, validate_value moisture_spec "Infinity" = Return (false, Some msg).
Proof.
  destruct (validate_value_nan_and_infinity moisture_spec "NaN" (NaN false false 0)
              eq_refl moisture_spec_bounds_finite eq_refl) as (H1 & _).
  destruct (validate_value_nan_and_infinity (sample_spec "Numeric" None None "") "NaN"
              (NaN false false 0) eq_refl) as (H2 & _).
  { split; intros m [=]. }
  { reflexivity. }
  destruct (validate_value_nan_and_infinity moisture_spec "Infinity" (Infinity false)
              eq_refl moisture_spec_bounds_finite eq_refl) as (_ & H3 & _).
  split; [|split].
  - apply H1; [reflexivity|]. left. discriminate.
  - apply H2; reflexivity.
  - apply H3; [reflexivity|discriminate].
Defined.

(** ** The request: progress and repeated advances *)

Lemma advance_step_refused (self : TestRequest) (dbs : Database) :
  can_proceed_to_next_step self = false ->
  advance_step (self, dbs) = (Return false, (self, dbs)).
Proof.
  intros H. unfold advance_step, bind, get. cbn [fst]. rewrite H. reflexivity.
Qed.

Lemma advance_step_advances (self : TestRequest) (dbs : Database) :
  request_stored self dbs ->
  can_proceed_to_next_step self = true ->
  advance_step (self, dbs)
  = (Return true,
     (advanced self,
      with_test_requests (map (write_step_and_status (advanced self)) (test_requests dbs))
                         dbs)).
Proof.
  intros Hs Hp. unfold request_stored in Hs.
  unfold advance_step, bind, get, modify, ret. cbn [fst snd]. rewrite Hp. cbn [fst snd].
  unfold TestRequest_save, model_save. cbn.
  destruct (current_step self + 1 =? 4) eqn:E; cbn; rewrite Hs;
    unfold advanced; rewrite E; reflexivity.
Qed.

Lemma can_proceed_true (self : TestRequest) :
  can_proceed_to_next_step self = true
  <-> (status self <> "Rejected" /\ current_step self < 4).
Proof.
  destruct (can_proceed_to_next_step self) eqn:E.
  - split; [intros _|reflexivity].
    unfold can_proceed_to_next_step in E.
    destruct (String.eqb (status self) "Rejected") eqn:Es; [discriminate|].
    destruct (4 <=? current_step self) eqn:Ec; [discriminate|].
    apply eqb_string_false in Es. apply Z.leb_gt in Ec. auto.
  - apply can_proceed_false in E. split; [discriminate|]. intros [H1 H2].
    destruct E; [congruence|lia].
Qed.

Lemma request_stored_written (self obj : TestRequest) (dbs : Database) :
  request_stored self dbs ->
  request_stored self
    (with_test_requests (map (write_step_and_status obj) (test_requests dbs)) dbs).
Proof.
  unfold request_stored. cbn.
  induction (test_requests dbs) as [|r rows IH]; [auto|]. cbn.
  assert (Hk : req_id (write_step_and_status obj r) = req_id r).
  { unfold write_step_and_status. destruct (String.eqb _ _); reflexivity. }
  rewrite Hk. destruct (String.eqb (req_id r) (req_id self)); cbn; auto.
Qed.

Lemma progress_plain (self : TestRequest) :
  status self <> "Approved" ->
  status self <> "Submitted for Review" ->
  current_step self <> 4 ->
  get_progress_percentage self = 25 * current_step self.
Proof.
  intros Ha Hs H4. unfold get_progress_percentage.
  apply eqb_string_false in Ha, Hs. apply Z.eqb_neq in H4.
  rewrite Ha, Hs, H4, andb_false_r. cbn [orb].
  apply progress_quotient.
Qed.

(** X6. For a step between 0 and 4 the progress is a multiple of 25 between
    0 and 100, and it is 100 exactly when the request is approved, or is
    at step 4 and not waiting for review. *)
Theorem get_progress_percentage_range (self : TestRequest) :
  0 <= current_step self <= 4 ->
  0 <= get_progress_percentage self <= 100
  /\ (get_progress_percentage self mod 25 = 0)
  /\ (get_progress_percentage self = 100
      <-> status self = "Approved"
          \/ (current_step self = 4 /\ status self <> "Submitted for Review")).
Proof.
  intros Hstep. unfold get_progress_percentage.
  destruct (String.eqb (status self) "Approved") eqn:Ea;
    [apply eqb_string_true in Ea | apply eqb_string_false in Ea]; cbn [orb].
  { split; [lia|]. split; [reflexivity|]. split; auto. }
  destruct (String.eqb (status self) "Submitted for Review") eqn:Es;
    [apply eqb_string_true in Es | apply eqb_string_false in Es].
  - destruct (String.eqb (status self) "Completed" && (current_step self =? 4)) eqn:Ec.
    + apply andb_true_iff in Ec. destruct Ec as [Ec _]. apply eqb_string_true in Ec.
      congruence.
    + split; [lia|]. split; [reflexivity|]. split; [discriminate|].
      intros [H|[_ H]]; congruence.
  - destruct (current_step self =? 4) eqn:E4;
      [apply Z.eqb_eq in E4 | apply Z.eqb_neq in E4].
    + rewrite andb_true_r. destruct (String.eqb (status self) "Completed");
        (split; [lia|]); (split; [reflexivity|]); split; auto.
    + rewrite andb_false_r.
      destruct (progress_quotient (current_step self)) as [-> _].
      split; [lia|]. split.
      * rewrite Z.mul_comm. apply Z.mod_mul. discriminate.
      * split; [lia|]. intros [H|[H _]]; congruence.
Qed.

Lemma get_progress_percentage_range_witness :
  get_progress_percentage (sample_request "In-Progress" 3) mod 25 = 0.
Proof.
  apply (get_progress_percentage_range (sample_request "In-Progress" 3)).
  cbn. lia.
Defined.

(** X7. Repeated advances: from a stored request that is not rejected, at a
    step of at most 4, [n] calls of [advance_step] leave the step at
    [min (step + n) 4]; when at least one call advanced, the status is
    Completed once step 4 is reached and In-Progress before; the stored row
    carries the same step and status. *)
Theorem advance_times_spec (n : nat) (self : TestRequest) (dbs : Database) :
  request_stored self dbs ->
  status self <> "Rejected" ->
  current_step self <= 4 ->
  let st' := advance_times n (self, dbs) in
  current_step (fst st') = Z.min (current_step self + Z.of_nat n) 4
  /\ (current_step self < 4 -> (0 < n)%nat ->
      status (fst st')
      = (if 4 <=? current_step self + Z.of_nat n then "Completed" else "In-Progress")
      /\ exists row, find_request (req_id self) (snd st') = Some row
                     /\ current_step row = current_step (fst st')
                     /\ status row = status (fst st'))
  /\ (current_step self = 4 -> st' = (self, dbs)).
Proof.
  revert self dbs. induction n as [|n IH]; intros self dbs Hs Hrej Hstep.
  - cbn. split; [lia|]. split; [lia|]. reflexivity.
  - cbn [advance_times].
    destruct (Z.eq_dec (current_step self) 4) as [E4|N4].
    + assert (Hp : can_proceed_to_next_step self = false)
        by (apply can_proceed_false; right; lia).
      rewrite (advance_step_refused self dbs Hp). cbn [snd].
      destruct (IH self dbs Hs Hrej Hstep) as (H1 & _ & H3).
      cbn zeta. split; [rewrite H1; lia|]. split; [lia|]. intros _. apply H3. exact E4.
    + assert (Hp : can_proceed_to_next_step self = true)
        by (apply can_proceed_true; split; [exact Hrej|lia]).
      rewrite (advance_step_advances self dbs Hs Hp). cbn [snd].
      set (dbs1 := with_test_requests _ dbs).
      assert (Hs1 : request_stored (advanced self) dbs1)
        by (apply (request_stored_written self (advanced self) dbs Hs)).
      assert (Hrej1 : status (advanced self) <> "Rejected")
        by (unfold advanced; cbn; destruct (_ =? 4); discriminate).
      assert (Hstep1 : current_step (advanced self) = current_step self + 1) by reflexivity.
      destruct (IH (advanced self) dbs1 Hs1 Hrej1 ltac:(rewrite Hstep1; lia))
        as (H1 & H2 & H3).
      cbn zeta in *. split; [rewrite H1, Hstep1; lia|]. split; [|lia].
      intros _ _.
      destruct (Z.eq_dec (current_step self + 1) 4) as [E|N].
      * rewrite (H3 ltac:(rewrite Hstep1; exact E)). cbn [fst snd].
        replace (4 <=? current_step self + Z.of_nat (S n)) with true
          by (symmetry; apply Z.leb_le; lia).
        split; [unfold advanced; rewrite (proj2 (Z.eqb_eq _ _) E); reflexivity|].
        destruct (find_request_written ["current_step"; "status"; "updated_at"]
                    (advanced self) dbs Hs) as (row & _ & Hrow).
        eexists. split; [exact Hrow|]. split; reflexivity.
      * destruct n as [|n'].
        -- cbn [advance_times fst snd].
           replace (4 <=? current_step self + Z.of_nat 1) with false
             by (symmetry; apply Z.leb_gt; lia).
           split; [unfold advanced; rewrite (proj2 (Z.eqb_neq _ _) N); reflexivity|].
           destruct (find_request_written ["current_step"; "status"; "updated_at"]
                       (advanced self) dbs Hs) as (row & _ & Hrow).
           eexists. split; [exact Hrow|]. split; reflexivity.
        -- destruct H2 as (Hst & row & Hrow & Hrc & Hrs); [rewrite Hstep1; lia|lia|].
           assert (Hfinal : status (fst (advance_times (S n') (advanced self, dbs1)))
                            = (if 4 <=? current_step self + Z.of_nat (S (S n'))
                               then "Completed" else "In-Progress")).
           { rewrite Hst, Hstep1.
             replace (current_step self + 1 + Z.of_nat (S n'))
               with (current_step self + Z.of_nat (S (S n'))) by lia.
             reflexivity. }
           split; [exact Hfinal|]. exists row.
           split; [exact Hrow|]. split; [exact Hrc|exact Hrs].
Qed.

Lemma advance_times_spec_witness :
  current_step (fst (advance_times 5 (sample_request "Pending" 1,
                                      sample_db "Pending" 1 "" None []))) = 4.
Proof.
  apply (advance_times_spec 5 (sample_request "Pending" 1)
           (sample_db "Pending" 1 "" None [])).
  - reflexivity.
  - discriminate.
  - cbn. lia.
Defined.

Lemma lookup_map {A B} (f : A -> B) (l : list A) (i : nat) :
  map f l !! i = option_map f (l !! i).
Proof.
  revert i. induction l as [|x l IH]; intros [|i]; cbn; try reflexivity. apply IH.
Qed.

(** X8. An advance writes two columns of one row: in the table of requests
    every row with another key is as it was, the row of the request keeps
    its stored batch number, product, controller and activity flag (what
    the object holds in those fields is not written) and takes the new
    step and status; the other tables are not touched. *)
Theorem advance_step_writes_two_columns (self : TestRequest) (dbs : Database) :
  request_stored self dbs ->
  status self <> "Rejected" ->
  current_step self < 4 ->
  let dbs' := snd (snd (advance_step (self, dbs))) in
  test_results dbs' = test_results dbs
  /\ specifications dbs' = specifications dbs
  /\ parameters dbs' = parameters dbs
  /\ length (test_requests dbs') = length (test_requests dbs)
  /\ forall i row,
       test_requests dbs !! i = Some row ->
       (req_id row <> req_id self -> test_requests dbs' !! i = Some row)
       /\ (req_id row = req_id self ->
           exists row',
             test_requests dbs' !! i = Some row'
             /\ req_id row' = req_id row
             /\ batch_number row' = batch_number row
             /\ product row' = product row
             /\ controller_user row' = controller_user row
             /\ req_is_active row' = req_is_active row
             /\ current_step row' = current_step self + 1
             /\ status row' = status (advanced self)).
Proof.
  intros Hs Hrej Hstep.
  assert (Hp : can_proceed_to_next_step self = true) by (apply can_proceed_true; auto).
  rewrite (advance_step_advances self dbs Hs Hp). cbn [snd].
  cbn [test_results specifications parameters test_requests with_test_requests].
  repeat (split; [reflexivity|]). split; [apply length_map|].
  intros i row Hi. rewrite lookup_map, Hi. cbn [option_map].
  unfold write_step_and_status. change (req_id (advanced self)) with (req_id self). split.
  - intros Hne. apply eqb_string_false in Hne. rewrite Hne. reflexivity.
  - intros He. apply eqb_string_true in He. rewrite He.
    eexists. split; [reflexivity|]. repeat split.
Qed.

Lemma advance_step_writes_two_columns_witness :
  test_results (snd (snd (advance_step (sample_request "Pending" 1,
                                        sample_db "Pending" 1 "11.0" None []))))
  = test_results (sample_db "Pending" 1 "11.0" None []).
Proof.
  apply (advance_step_writes_two_columns (sample_request "Pending" 1)
           (sample_db "Pending" 1 "11.0" None [])).
  - reflexivity.
  - discriminate.
  - cbn. lia.
Defined.

(** X9. An advance raises the progress of a request that is neither
    approved nor submitted for review; an approved request, which the
    guard does not stop, falls from 100 to the progress of its next
    step when that step is below 4. *)
Theorem advance_step_progress (self : TestRequest) (dbs : Database) :
  request_stored self dbs ->
  status self <> "Rejected" ->
  current_step self < 4 ->
  fst (advance_step (self, dbs)) = Return true
  /\ (status self <> "Approved" -> status self <> "Submitted for Review" ->
      get_progress_percentage self
      < get_progress_percentage (fst (snd (advance_step (self, dbs)))))
  /\ (status self = "Approved" -> current_step self + 1 < 4 ->
      get_progress_percentage self = 100
      /\ get_progress_percentage (fst (snd (advance_step (self, dbs))))
         = 25 * (current_step self + 1)).
Proof.
  intros Hs Hrej Hstep.
  assert (Hp : can_proceed_to_next_step self = true) by (apply can_proceed_true; auto).
  rewrite (advance_step_advances self dbs Hs Hp). cbn [fst snd].
  split; [reflexivity|].
  assert (Hafter : get_progress_percentage (advanced self)
                   = if current_step self + 1 =? 4 then 100
                     else 25 * (current_step self + 1)).
  { destruct (current_step self + 1 =? 4) eqn:E.
    - unfold get_progress_percentage, advanced. rewrite E. cbn. rewrite E. reflexivity.
    - rewrite progress_plain.
      + reflexivity.
      + unfold advanced. rewrite E. discriminate.
      + unfold advanced. rewrite E. discriminate.
      + apply Z.eqb_neq in E. exact E. }
  split.
  - intros Ha Hsub. rewrite Hafter, (progress_plain self Ha Hsub) by lia.
    destruct (current_step self + 1 =? 4); lia.
  - intros Ha Hnext. rewrite Hafter.
    replace (current_step self + 1 =? 4) with false by (symmetry; apply Z.eqb_neq; lia).
    split; [|reflexivity].
    unfold get_progress_percentage. rewrite Ha. reflexivity.
Qed.

Lemma advance_step_progress_witness :
  get_progress_percentage (sample_request "Approved" 1) = 100
  /\ get_progress_percentage
       (fst (snd (advance_step (sample_request "Approved" 1,
                                sample_db "Approved" 1 "" None [])))) = 25 * (1 + 1).
Proof.
  apply (advance_step_progress (sample_request "Approved" 1)
           (sample_db "Approved" 1 "" None [])).
  - reflexivity.
  - discriminate.
  - cbn. lia.
  - reflexivity.
  - cbn. lia.
Defined.

(** ** The evaluator: what it writes *)

Lemma erase_row_same (id : ID) (row row' : TestResult) :
  erase_row id row' = erase_row id row ->
  set_pass_fail_status None row' = set_pass_fail_status None row
  /\ (result_id row <> id -> row' = row).
Proof.
  unfold erase_row. intros H.
  destruct (String.eqb (result_id row') id) eqn:E', (String.eqb (result_id row) id) eqn:E.
  - split; [exact H|]. intros Hne. apply eqb_string_true in E. congruence.
  - exfalso. apply (f_equal result_id) in H. cbn in H.
    apply eqb_string_true in E'. apply eqb_string_false in E. congruence.
  - exfalso. apply (f_equal result_id) in H. cbn in H.
    apply eqb_string_true in E. apply eqb_string_false in E'. congruence.
  - subst row'. split; reflexivity.
Qed.

(** X10. Whatever its outcome, [calculate_pass_fail] changes nothing but
    the pass/fail status of the object and of the rows that have its key:
    the requests, specifications and parameters are as before, no result
    row is added or removed, every row keeps its other columns, and a row
    with another key is untouched. *)
Theorem calculate_pass_fail_frame (depth : nat) (self : TestResult) (dbs : Database) :
  let st' := snd (calculate_pass_fail depth (self, dbs)) in
  set_pass_fail_status None (fst st') = set_pass_fail_status None self
  /\ test_requests (snd st') = test_requests dbs
  /\ specifications (snd st') = specifications dbs
  /\ parameters (snd st') = parameters dbs
  /\ length (test_results (snd st')) = length (test_results dbs)
  /\ forall i row,
       test_results dbs !! i = Some row ->
       exists row',
         test_results (snd st') !! i = Some row'
         /\ set_pass_fail_status None row' = set_pass_fail_status None row
         /\ (result_id row <> result_id self -> row' = row).
Proof.
  cbn zeta.
  pose proof (proj2 (erase_state_preserved depth) (self, dbs)) as H.
  destruct (calculate_pass_fail depth (self, dbs)) as [o [self' dbs']]. cbn [fst snd] in *.
  unfold erase_state in H. cbn [fst snd] in H.
  pose proof (f_equal fst H) as Hself. pose proof (f_equal snd H) as Hdb.
  cbn [fst snd] in Hself, Hdb.
  assert (Hid : result_id self' = result_id self)
    by (exact (f_equal result_id Hself)).
  rewrite Hid in Hdb.
  pose proof (f_equal test_requests Hdb) as Hq.
  pose proof (f_equal test_results Hdb) as Hrows.
  pose proof (f_equal specifications Hdb) as Hsp.
  pose proof (f_equal parameters Hdb) as Hpa.
  cbn in Hq, Hrows, Hsp, Hpa.
  split; [exact Hself|]. split; [exact Hq|]. split; [exact Hsp|]. split; [exact Hpa|].
  split.
  - rewrite <- (length_map (erase_row (result_id self)) (test_results dbs')), Hrows.
    apply length_map.
  - intros i row Hi.
    assert (Hl : map (erase_row (result_id self)) (test_results dbs') !! i
                 = Some (erase_row (result_id self) row))
      by (rewrite Hrows, lookup_map, Hi; reflexivity).
    rewrite lookup_map in Hl.
    destruct (test_results dbs' !! i) as [row'|]; [|discriminate].
    cbn in Hl. injection Hl as Hl. exists row'. split; [reflexivity|].
    apply erase_row_same. exact Hl.
Qed.

(** X11. With a stored result, an applicable specification and a validator
    that returns, [calculate_pass_fail] returns the validator's verdict and
    stores it: the object and its row carry the verdict as their status. *)
Theorem calculate_pass_fail_stores_verdict (d : nat) (self : TestResult) (dbs : Database)
    (spec : ProductSpecification) (r : bool * option string) :
  result_stored self dbs ->
  first_specification self dbs = Return (Some spec) ->
  validate_value spec (actual_value self) = Return r ->
  exists dbs',
    calculate_pass_fail (S (S d)) (self, dbs)
    = (Return (fst r), (set_pass_fail_status (Some (fst r)) self, dbs'))
    /\ exists row, find_result (result_id self) dbs' = Some row
                   /\ pass_fail_status row = Some (fst r).
Proof.
  intros Hs Hspec Hv.
  rewrite (calculate_pass_fail_verdict d self dbs spec r Hs Hspec Hv).
  eexists. split; [reflexivity|].
  rewrite find_result_replaced
    by (intros row; unfold write_status; destruct (String.eqb _ _); reflexivity).
  replace (with_test_results (test_results dbs) dbs) with dbs by (destruct dbs; reflexivity).
  destruct (find_result_stored self dbs Hs) as (row0 & -> & Hk).
  cbn [option_map]. eexists. split; [reflexivity|].
  unfold write_status. rewrite (proj2 (eqb_string_true _ _) Hk). reflexivity.
Qed.

Lemma calculate_pass_fail_stores_verdict_witness :
  exists dbs',
    calculate_pass_fail 2 (sample_result "13.0" None,
                           sample_db "In-Progress" 3 "13.0" None [moisture_spec])
    = (Return false, (sample_result "13.0" (Some false), dbs')).
Proof.
  destruct (calculate_pass_fail_stores_verdict 0 (sample_result "13.0" None)
              (sample_db "In-Progress" 3 "13.0" None [moisture_spec]) moisture_spec
              (false, Some "Value 13.0 is above maximum 12.0000"))
    as (dbs' & H & _); try reflexivity.
  exists dbs'. exact H.
Defined.

(** X12. With an empty value the evaluator does return without a verdict:
    when no specification applies, or the evaluation fails (as the empty
    string does on a numeric parameter), [calculate_pass_fail] on a stored
    result returns false and leaves the status blank in the object and in
    its row. *)
Theorem calculate_pass_fail_empty_value_unknown (d : nat) (self : TestResult)
    (dbs : Database) :
  result_stored self dbs ->
  actual_value self = "" ->
  (forall b, evaluation self dbs <> Return (Some b)) ->
  exists dbs',
    calculate_pass_fail (S (S d)) (self, dbs)
    = (Return false, (set_pass_fail_status None self, dbs'))
    /\ exists row, find_result (result_id self) dbs' = Some row
                   /\ pass_fail_status row = None.
Proof.
  intros Hs Ha He.
  assert (Hstore : store_status (S d) None false (self, dbs)
                   = (Return false,
                      (set_pass_fail_status None self,
                       with_test_results
                         (map (write_status (result_id self) None) (test_results dbs)) dbs))).
  { rewrite store_status_unfold, save_unfold.
    cbn [actual_value set_pass_fail_status]. rewrite Ha. cbn [truthy].
    rewrite andb_false_r, super_save_status. unfold result_stored in Hs.
    cbn [result_id set_pass_fail_status]. rewrite Hs. reflexivity. }
  assert (Hrun : calculate_pass_fail (S (S d)) (self, dbs)
                 = (Return false,
                    (set_pass_fail_status None self,
                     with_test_results
                       (map (write_status (result_id self) None) (test_results dbs)) dbs))).
  { rewrite calculate_pass_fail_unfold. cbn [fst snd].
    destruct (evaluation self dbs) as [[b|]|e].
    - exfalso. exact (He b eq_refl).
    - unfold try_except_Exception. rewrite Hstore. reflexivity.
    - exact Hstore. }
  rewrite Hrun. eexists. split; [reflexivity|].
  rewrite find_result_replaced
    by (intros row; unfold write_status; destruct (String.eqb _ _); reflexivity).
  replace (with_test_results (test_results dbs) dbs) with dbs by (destruct dbs; reflexivity).
  destruct (find_result_stored self dbs Hs) as (row0 & -> & Hk).
  cbn [option_map]. eexists. split; [reflexivity|].
  unfold write_status. rewrite (proj2 (eqb_string_true _ _) Hk). reflexivity.
Qed.

Lemma calculate_pass_fail_empty_value_unknown_witness :
  evaluation (sample_result "" (Some true))
             (sample_db "In-Progress" 3 "" (Some true) [moisture_spec])
  = Raise InvalidOperation
  /\ exists dbs',
       calculate_pass_fail 2 (sample_result "" (Some true),
                              sample_db "In-Progress" 3 "" (Some true) [moisture_spec])
       = (Return false, (sample_result "" None, dbs')).
Proof.
  split; [reflexivity|].
  destruct (calculate_pass_fail_empty_value_unknown 0 (sample_result "" (Some true))
              (sample_db "In-Progress" 3 "" (Some true) [moisture_spec]))
    as (dbs' & H & _).
  - reflexivity.
  - reflexivity.
  - intros b. discriminate.
  - exists dbs'. exact H.
Defined.

(** ** The views: what they leave alone *)

Section ResultFrame.
(** A part of the database that writing the table of results leaves
    alone. *)
Context {X : Type} (part : Database -> X).
Hypothesis part_results : forall rows d, part (with_test_results rows d) = part d.

Lemma super_save_part (kw : SaveArgs) (st : TestResult * Database) :
  part (snd (snd (super_save kw st))) = part (snd st).
Proof.
  destruct st as [self d]. unfold super_save.
  destruct (model_save _ _ _ _ _); cbn [snd]; [apply part_results|reflexivity].
Qed.

Lemma result_methods_part (d : nat) :
  (forall kw st, part (snd (snd (save d kw st))) = part (snd st))
  /\ (forall st, part (snd (snd (calculate_pass_fail d st))) = part (snd st)).
Proof.
  induction d as [|d [IHs IHc]].
  - split; intros; reflexivity.
  - assert (Hstore : forall v b st,
              part (snd (snd (store_status d v b st))) = part (snd st)).
    { intros v b [self dbs]. rewrite store_status_unfold.
      pose proof (IHs status_fields (set_pass_fail_status v self, dbs)) as H.
      destruct (save d status_fields (set_pass_fail_status v self, dbs)) as [[[]|e] st'];
        exact H. }
    split.
    + intros kw [self dbs]. rewrite save_unfold.
      pose proof (super_save_part kw (self, dbs)) as Hsup.
      destruct (negb _ && _); [|exact Hsup].
      destruct (super_save kw (self, dbs)) as [[[]|e] st1]; cbn [snd] in *; [|exact Hsup].
      destruct (_ && _); [|exact Hsup].
      pose proof (IHc st1) as H.
      destruct (calculate_pass_fail d st1) as [[?|?] st2]; cbn [snd] in *; congruence.
    + intros st. rewrite calculate_pass_fail_unfold.
      assert (Htry : forall v b,
                part (snd (snd (try_except_Exception (store_status d v b)
                                  (store_status d None false) st)))
                = part (snd st)).
      { intros v b. unfold try_except_Exception.
        pose proof (Hstore v b st) as H1.
        destruct (store_status d v b st) as [[?|?] st1]; cbn [snd] in *; [exact H1|].
        rewrite Hstore. exact H1. }
      destruct (evaluation (fst st) (snd st)) as [[b|]|e];
        [apply Htry|apply Htry|apply Hstore].
Qed.
End ResultFrame.

Section SiteFrame.
(** A relation between the states before and after that every step of a
    view keeps. *)
Variable P : Site -> Site -> Prop.
Hypothesis P_refl : forall s, P s s.
Hypothesis P_trans : forall s1 s2 s3, P s1 s2 -> P s2 s3 -> P s1 s3.

Lemma frames_ret {A} (a : A) : frames P (ret a).
Proof. intros s. apply P_refl. Qed.

Lemma frames_raise {A} (e : Exn) : frames P (@raise Site A e).
Proof. intros s. apply P_refl. Qed.

Lemma frames_get : frames P (@get Site).
Proof. intros s. apply P_refl. Qed.

Lemma frames_bind {A B} (m : M Site A) (k : A -> M Site B) :
  frames P m -> (forall a, frames P (k a)) -> frames P (bind m k).
Proof. intros Hm Hk. exact (bind_frame P m k P_refl P_trans Hm Hk). Qed.

Lemma frames_get_object_or_404 (test_id : ID) : frames P (get_object_or_404 test_id).
Proof.
  unfold get_object_or_404. apply frames_bind; [apply frames_get|].
  intros s0. destruct (head _); [apply frames_ret|apply frames_raise].
Qed.

Hypothesis P_message : forall level text, frames P (add_message level text).
Hypothesis P_uuid : forall uuid4, frames P (draw_uuid uuid4).
Hypothesis P_result : forall A obj (m : M (TestResult * Database) A),
    (forall st, test_requests (snd (snd (m st))) = test_requests (snd st)
                /\ specifications (snd (snd (m st))) = specifications (snd st)
                /\ parameters (snd (snd (m st))) = parameters (snd st)) ->
    frames P (on_result obj m).

Lemma frames_enter_result (depth : nat) (uuid4 : nat -> ID) (request : HttpRequest)
    (u : User) (test_request : TestRequest) (param : TestParameter) :
  frames P (enter_result depth uuid4 request u test_request param).
Proof.
  assert (Hm : forall d,
            (forall kw st,
               test_requests (snd (snd (save d kw st))) = test_requests (snd st)
               /\ specifications (snd (snd (save d kw st))) = specifications (snd st)
               /\ parameters (snd (snd (save d kw st))) = parameters (snd st))
            /\ (forall st,
                  test_requests (snd (snd (calculate_pass_fail d st)))
                  = test_requests (snd st)
                  /\ specifications (snd (snd (calculate_pass_fail d st)))
                     = specifications (snd st)
                  /\ parameters (snd (snd (calculate_pass_fail d st)))
                     = parameters (snd st))).
  { intros d.
    pose proof (result_methods_part test_requests (fun _ _ => eq_refl) d) as [A1 A2].
    pose proof (result_methods_part specifications (fun _ _ => eq_refl) d) as [B1 B2].
    pose proof (result_methods_part parameters (fun _ _ => eq_refl) d) as [C1 C2].
    split; intros; repeat split; auto. }
  unfold enter_result. destruct (post_has _ request); [|apply frames_ret].
  apply frames_bind.
  - unfold get_or_create. apply frames_bind; [apply frames_get|].
    intros s0. destruct (List.filter _ _) as [|r [|r' l]];
      [|apply frames_ret|apply frames_raise].
    apply frames_bind; [apply P_uuid|]. intros id.
    apply frames_bind; [|intros; apply frames_ret].
    apply P_result. apply Hm.
  - intros gc. apply frames_bind.
    + destruct (negb (snd gc)); [|apply frames_ret].
      apply frames_bind; [|intros; apply frames_ret]. apply P_result. apply Hm.
    + intros result. apply frames_bind; [|intros; apply frames_ret].
      apply P_result. apply Hm.
Qed.

Lemma frames_enter_results (depth : nat) (uuid4 : nat -> ID) (request : HttpRequest)
    (u : User) (test_request : TestRequest) (params : list TestParameter) :
  frames P (enter_results depth uuid4 request u test_request params).
Proof.
  induction params as [|param rest IH]; [apply frames_ret|].
  cbn [enter_results]. apply frames_bind; [apply frames_enter_result|].
  intros _. exact IH.
Qed.
End SiteFrame.

Lemma same_results_refl (s : Site) : same_results s s.
Proof. reflexivity. Qed.

Lemma same_results_trans (s1 s2 s3 : Site) :
  same_results s1 s2 -> same_results s2 s3 -> same_results s1 s3.
Proof. unfold same_results. congruence. Qed.

Lemma same_catalog_refl (s : Site) : same_catalog s s.
Proof. split; reflexivity. Qed.

Lemma same_catalog_trans (s1 s2 s3 : Site) :
  same_catalog s1 s2 -> same_catalog s2 s3 -> same_catalog s1 s3.
Proof. unfold same_catalog. intros [A B] [C D]. split; congruence. Qed.

Lemma same_dialogue_refl (s : Site) : same_dialogue s s.
Proof. split; reflexivity. Qed.

Lemma same_dialogue_trans (s1 s2 s3 : Site) :
  same_dialogue s1 s2 -> same_dialogue s2 s3 -> same_dialogue s1 s3.
Proof. unfold same_dialogue. intros [A B] [C D]. split; congruence. Qed.

(** The result entries of step 3 leave the specifications and parameters,
    the session and the messages alone. *)
Lemma enter_results_catalog (depth : nat) (uuid4 : nat -> ID) (request : HttpRequest)
    (u : User) (test_request : TestRequest) (params : list TestParameter) (s : Site) :
  same_catalog s (snd (enter_results depth uuid4 request u test_request params s)).
Proof.
  revert s.
  apply (frames_enter_results same_catalog same_catalog_refl same_catalog_trans).
  - intros uuid s0. split; reflexivity.
  - intros A obj m Hm s0. unfold on_result. destruct (Hm (obj, db s0)) as (_ & H1 & H2).
    destruct (m (obj, db s0)) as [[a|e] [obj' d]]; split; assumption.
Qed.

Lemma enter_results_dialogue (depth : nat) (uuid4 : nat -> ID) (request : HttpRequest)
    (u : User) (test_request : TestRequest) (params : list TestParameter) (s : Site) :
  same_dialogue s (snd (enter_results depth uuid4 request u test_request params s)).
Proof.
  revert s.
  apply (frames_enter_results same_dialogue same_dialogue_refl same_dialogue_trans).
  - intros uuid s0. split; reflexivity.
  - intros A obj m Hm s0. unfold on_result.
    destruct (m (obj, db s0)) as [[a|e] [obj' d]]; split; reflexivity.
Qed.

(** Saving a fetched request and answering. *)
Lemma save_and_respond (obj obj' : TestRequest) (s0 : Site) (level text : string)
    (r : HttpResponse) :
  In obj (test_requests (db s0)) ->
  req_id obj' = req_id obj ->
  (on_request obj' (TestRequest_save plain_save) ;; add_message level text ;; ret r) s0
  = (Return r,
     {| db := with_test_requests (map (replace_request obj') (test_requests (db s0))) (db s0);
        session := session s0;
        messages := (messages s0 ++ [(level, text)])%list;
        uuid_calls := uuid_calls s0 |}).
Proof.
  intros Hin Hid. unfold bind at 1.
  rewrite (on_request_save_present obj obj' s0 Hin Hid). reflexivity.
Qed.

(** X13. [pipeline_step] is all or nothing: when it raises (no such
    request, an invalid selection at step 2, a result entry that fails at
    step 3), the database, the session and the queued messages are what
    they were before the call. *)
Theorem pipeline_step_all_or_nothing (depth : nat) (uuid4 : nat -> ID)
    (request : HttpRequest) (test_id : ID) (step : Z) (s : Site) (e : Exn) (s' : Site) :
  pipeline_step depth uuid4 request test_id step s = (Raise e, s') ->
  db s' = db s /\ session s' = session s /\ messages s' = messages s.
Proof.
  intros H. unfold pipeline_step in H.
  destruct (user request) as [u|] eqn:Hu; [|discriminate].
  destruct (negb (has_controller_access (Some u) || has_admin_access (Some u)));
    [discriminate|].
  unfold bind at 1 in H. unfold get_object_or_404 in H.
  unfold bind at 1, get at 1 in H.
  destruct (head (List.filter _ (test_requests (db s)))) as [obj|] eqn:Hobj;
    [|inversion H; auto].
  apply head_filter_Some in Hobj. destruct Hobj as [Hin _].
  unfold ret at 1 in H.
  destruct (negb (controller_user obj =? user_id u)%N && negb (is_admin u));
    [discriminate|].
  destruct (step =? 2).
  { destruct (String.eqb (method request) "POST"); [|discriminate].
    unfold bind at 1, get at 1 in H.
    destruct (TestParameterSelectionForm request obj (db s)) as [sel|];
      [|inversion H; auto].
    unfold bind at 1, modify at 1 in H.
    rewrite (save_and_respond obj) in H by (assumption || reflexivity). discriminate. }
  destruct (step =? 3).
  { unfold bind at 1, get at 1 in H.
    destruct (default [] (session s !! session_key test_id)) as [|pid pids];
      [discriminate|].
    destruct (String.eqb (method request) "POST"); [|discriminate].
    unfold atomic in H. unfold bind at 1 in H.
    match type of H with context [enter_results ?a ?b ?c ?d ?e ?f s] =>
      pose proof (enter_results_frame a b c d e f s) as Hreq;
      pose proof (enter_results_dialogue a b c d e f s) as Hdia;
      destruct (enter_results a b c d e f s) as [[[]|e0] s1] end;
      cbn [snd] in Hreq, Hdia.
    - rewrite (save_and_respond obj) in H
        by (try rewrite Hreq; assumption || reflexivity).
      discriminate.
    - inversion H; subst. destruct Hdia as [Hse Hme]. auto. }
  destruct (step =? 4).
  { destruct (String.eqb (method request) "POST"); [|discriminate].
    destruct (TestReviewForm request) as [action|]; [|discriminate].
    destruct (String.eqb action "submit");
      [rewrite (save_and_respond obj) in H by (assumption || reflexivity); discriminate|].
    destruct (String.eqb action "approve");
      [rewrite (save_and_respond obj) in H by (assumption || reflexivity); discriminate|].
    destruct (String.eqb action "reject");
      [rewrite (save_and_respond obj) in H by (assumption || reflexivity); discriminate|].
    discriminate. }
  discriminate.
Qed.

Lemma pipeline_step_all_or_nothing_witness :
  db (snd (pipeline_step 3 (fun _ => "new") (controller_post "approve") "r1" 2
             (sample_site "Pending" 1)))
  = db (sample_site "Pending" 1).
Proof.
  destruct (pipeline_step 3 (fun _ => "new") (controller_post "approve") "r1" 2
              (sample_site "Pending" 1)) as [o s'] eqn:E.
  assert (Ho : o = Raise UnboundLocalError).
  { apply (f_equal fst) in E. vm_compute in E. symmetry. exact E. }
  subst o. apply pipeline_step_all_or_nothing in E. cbn [snd]. apply E.
Defined.

Lemma replace_request_keys (obj' : TestRequest) (rows : list TestRequest) :
  map req_id (map (replace_request obj') rows) = map req_id rows.
Proof.
  induction rows as [|r rows IH]; [reflexivity|]. cbn. rewrite IH. f_equal.
  unfold replace_request. destruct (String.eqb (req_id r) (req_id obj')) eqn:E; [|reflexivity].
  symmetry. apply eqb_string_true. exact E.
Qed.

Lemma replace_request_other (obj' : TestRequest) (rows : list TestRequest) (i : nat)
    (row : TestRequest) :
  rows !! i = Some row -> req_id row <> req_id obj' ->
  map (replace_request obj') rows !! i = Some row.
Proof.
  intros Hi Hne. rewrite lookup_map, Hi. cbn. unfold replace_request.
  apply eqb_string_false in Hne. rewrite Hne. reflexivity.
Qed.

(** What [pipeline_step] does to the other tables: the specifications and
    parameters stay, and so do the results unless results are posted at
    step 3. *)
Lemma pipeline_step_tables (depth : nat) (uuid4 : nat -> ID) (request : HttpRequest)
    (test_id : ID) (step : Z) (s : Site) (o : Outcome HttpResponse) (s' : Site) :
  pipeline_step depth uuid4 request test_id step s = (o, s') ->
  same_catalog s s' /\ (same_results s s' \/ (step = 3 /\ method request = "POST")).
Proof.
  assert (Hsame : forall s0, same_catalog s0 s0 /\ (same_results s0 s0 \/ (step = 3 /\ method request = "POST")))
    by (intros s0; split; [split; reflexivity|left; reflexivity]).
  intros H. unfold pipeline_step in H.
  destruct (user request) as [u|] eqn:Hu; [|inversion H; apply Hsame].
  destruct (negb (has_controller_access (Some u) || has_admin_access (Some u)));
    [inversion H; split; [split; reflexivity|left; reflexivity]|].
  unfold bind at 1 in H. unfold get_object_or_404 in H.
  unfold bind at 1, get at 1 in H.
  destruct (head (List.filter _ (test_requests (db s)))) as [obj|] eqn:Hobj;
    [|inversion H; apply Hsame].
  apply head_filter_Some in Hobj. destruct Hobj as [Hin _].
  unfold ret at 1 in H.
  destruct (negb (controller_user obj =? user_id u)%N && negb (is_admin u));
    [inversion H; split; [split; reflexivity|left; reflexivity]|].
  destruct (step =? 2).
  { destruct (String.eqb (method request) "POST"); [|inversion H; apply Hsame].
    unfold bind at 1, get at 1 in H.
    destruct (TestParameterSelectionForm request obj (db s)) as [sel|];
      [|inversion H; apply Hsame].
    unfold bind at 1, modify at 1 in H.
    rewrite (save_and_respond obj) in H by (assumption || reflexivity).
    inversion H. split; [split; reflexivity|left; reflexivity]. }
  destruct (step =? 3) eqn:E3.
  { apply Z.eqb_eq in E3.
    unfold bind at 1, get at 1 in H.
    destruct (default [] (session s !! session_key test_id)) as [|pid pids];
      [inversion H; split; [split; reflexivity|left; reflexivity]|].
    destruct (String.eqb (method request) "POST") eqn:Em; [|inversion H; apply Hsame].
    apply eqb_string_true in Em.
    unfold atomic in H. unfold bind at 1 in H.
    match type of H with context [enter_results ?a ?b ?c ?d ?e ?f s] =>
      pose proof (enter_results_frame a b c d e f s) as Hreq;
      pose proof (enter_results_catalog a b c d e f s) as Hcat;
      destruct (enter_results a b c d e f s) as [[[]|e0] s1] end;
      cbn [snd] in Hreq, Hcat.
    - rewrite (save_and_respond obj) in H
        by (try rewrite Hreq; assumption || reflexivity).
      inversion H. split; [exact Hcat|right; auto].
    - inversion H. split; [split; reflexivity|left; reflexivity]. }
  destruct (step =? 4).
  { destruct (String.eqb (method request) "POST"); [|inversion H; apply Hsame].
    destruct (TestReviewForm request) as [action|]; [|inversion H; apply Hsame].
    destruct (String.eqb action "submit");
      [rewrite (save_and_respond obj) in H by (assumption || reflexivity);
       inversion H; split; [split; reflexivity|left; reflexivity]|].
    destruct (String.eqb action "approve");
      [rewrite (save_and_respond obj) in H by (assumption || reflexivity);
       inversion H; split; [split; reflexivity|left; reflexivity]|].
    destruct (String.eqb action "reject");
      [rewrite (save_and_respond obj) in H by (assumption || reflexivity);
       inversion H; split; [split; reflexivity|left; reflexivity]|].
    inversion H; apply Hsame. }
  inversion H; split; [split; reflexivity|left; reflexivity].
Qed.

(** X14. [pipeline_step] touches one request at most: whatever the call and
    its outcome, the table of requests keeps its keys in their order, every
    request with a key other than [test_id] is as it was, the
    specifications and the parameters are as they were, and so are the
    results unless the call posts results at step 3. *)
Theorem pipeline_step_touches_one_request (depth : nat) (uuid4 : nat -> ID)
    (request : HttpRequest) (test_id : ID) (step : Z) (s : Site)
    (o : Outcome HttpResponse) (s' : Site) :
  pipeline_step depth uuid4 request test_id step s = (o, s') ->
  map req_id (test_requests (db s')) = map req_id (test_requests (db s))
  /\ (forall i row, test_requests (db s) !! i = Some row -> req_id row <> test_id ->
                    test_requests (db s') !! i = Some row)
  /\ same_catalog s s'
  /\ (same_results s s' \/ (step = 3 /\ method request = "POST")).
Proof.
  intros H. destruct (pipeline_step_tables _ _ _ _ _ _ _ _ H) as [Hcat Hres].
  destruct (pipeline_step_effect _ _ _ _ _ _ _ _ H) as [Hsame|Hrepl].
  - unfold same_requests in Hsame. rewrite Hsame. auto.
  - destruct Hrepl as (u & obj & obj' & _ & _ & _ & Hkey & _ & Hid & Hrows & _).
    rewrite Hrows. split; [apply replace_request_keys|]. split; [|auto].
    intros i row Hi Hne. apply replace_request_other; [exact Hi|]. congruence.
Qed.

Lemma pipeline_step_touches_one_request_witness :
  map req_id (test_requests (db (snd (pipeline_step 3 (fun _ => "new")
                                        (controller_post "approve") "r1" 4
                                        (sample_site "In-Progress" 3)))))
  = ["r1"].
Proof.
  destruct (pipeline_step 3 (fun _ => "new") (controller_post "approve") "r1" 4
              (sample_site "In-Progress" 3)) as [o s'] eqn:E.
  apply pipeline_step_touches_one_request in E. cbn [snd]. apply E.
Defined.

(** X15. Only a POST writes: a call of [pipeline_step] or of
    [pipeline_start] with another method leaves the database and the
    session as they were, whoever calls and whatever the step. *)
Theorem other_methods_write_nothing (depth : nat) (uuid4 : nat -> ID) (c : ViewCall)
    (request : HttpRequest) (s : Site) :
  method request <> "POST" ->
  (exists test_id step, c = call_pipeline_step request test_id step)
  \/ (exists form, c = call_pipeline_start request form) ->
  db (snd (run_view depth uuid4 c s)) = db s
  /\ session (snd (run_view depth uuid4 c s)) = session s
  /\ uuid_calls (snd (run_view depth uuid4 c s)) = uuid_calls s.
Proof.
  intros Hm Hc. apply eqb_string_false in Hm.
  destruct (run_view depth uuid4 c s) as [o s'] eqn:H. cbn [snd].
  destruct Hc as [(test_id & step & ->)|(form & ->)]; cbn [run_view] in H.
  - unfold pipeline_step in H.
    destruct (user request) as [u|]; [|inversion H; auto].
    destruct (negb _); [inversion H; auto|].
    unfold bind at 1, get_object_or_404 in H. unfold bind at 1, get at 1 in H.
    destruct (head _) as [obj|]; [|inversion H; auto].
    unfold ret at 1 in H.
    destruct (negb _ && negb _); [inversion H; auto|].
    rewrite Hm in H.
    destruct (step =? 2); [inversion H; auto|].
    destruct (step =? 3).
    { unfold bind at 1, get at 1 in H.
      destruct (default [] (session s !! session_key test_id)); inversion H; auto. }
    destruct (step =? 4); inversion H; auto.
  - unfold pipeline_start in H.
    destruct (user request) as [u|]; [|inversion H; auto].
    destruct (negb _); [inversion H; auto|].
    rewrite Hm in H. inversion H; auto.
Qed.

Lemma other_methods_write_nothing_witness :
  db (snd (run_view 3 (fun _ => "new")
             (call_pipeline_step {| user := Some {| user_id := 7%N; role := "CONTROLLER" |};
                                    method := "GET"; POST := ∅ |} "r1" 3)
             (sample_site "In-Progress" 2)))
  = db (sample_site "In-Progress" 2).
Proof.
  apply (other_methods_write_nothing 3 (fun _ => "new")
           (call_pipeline_step {| user := Some {| user_id := 7%N; role := "CONTROLLER" |};
                                  method := "GET"; POST := ∅ |} "r1" 3)
           {| user := Some {| user_id := 7%N; role := "CONTROLLER" |};
              method := "GET"; POST := ∅ |}).
  - cbn. discriminate.
  - left. exists "r1", 3. reflexivity.
Defined.

(** ** The views: the selection of step 2 *)

Lemma str_in_In (x : string) (xs : list string) : str_in x xs = true <-> In x xs.
Proof.
  unfold str_in. rewrite existsb_exists. split.
  - intros (y & Hin & Heq). apply eqb_string_true in Heq. subst y. exact Hin.
  - intros Hin. exists x. split; [exact Hin|apply String.eqb_refl].
Qed.

Lemma head_filter_In {A} (P : A -> bool) (l : list A) (x : A) :
  In x l -> P x = true -> exists y, head (List.filter P l) = Some y.
Proof.
  intros Hin HP. assert (H : In x (List.filter P l)) by (apply filter_In; auto).
  destruct (List.filter P l) as [|y l']; [destruct H|]. exists y. reflexivity.
Qed.

(** A choice of the selection form: an active parameter with an active
    specification for the product of the request. *)
Lemma selectable_parameter_spec (tr : TestRequest) (d : Database) (p : TestParameter) :
  In p (selectable_parameters tr d) <->
  In p (parameters d) /\ param_is_active p = true
  /\ exists sp, In sp (specifications d) /\ spec_product sp = product tr
                /\ spec_is_active sp = true /\ param_id (parameter sp) = param_id p.
Proof.
  unfold selectable_parameters. rewrite filter_In, andb_true_iff, str_in_In, in_map_iff.
  split.
  - intros (Hin & (sp & Hid & Hsp) & Hact). apply filter_In in Hsp.
    destruct Hsp as [Hsp Hc]. apply andb_true_iff in Hc. destruct Hc as [Hprod Hspact].
    apply eqb_string_true in Hprod. repeat split; try assumption.
    exists sp. auto.
  - intros (Hin & Hact & sp & Hsp & Hprod & Hspact & Hid). repeat split; try assumption.
    exists sp. split; [exact Hid|]. apply filter_In. split; [exact Hsp|].
    apply andb_true_iff. split; [apply eqb_string_true; exact Hprod|exact Hspact].
Qed.

(** A valid selection: the posted values are not empty, each is the key of
    a choice, and the cleaned data are the choices whose key is posted. *)
Lemma selection_form_valid (request : HttpRequest) (tr : TestRequest) (d : Database)
    (sel : list TestParameter) :
  TestParameterSelectionForm request tr d = Some sel <->
  post_list "parameters" request <> []
  /\ (forall v, In v (post_list "parameters" request) ->
                In v (map param_id (selectable_parameters tr d)))
  /\ sel = List.filter (fun p => str_in (param_id p) (post_list "parameters" request))
                       (selectable_parameters tr d).
Proof.
  unfold TestParameterSelectionForm.
  destruct (bool_decide (post_list "parameters" request = [])) eqn:Ee.
  - apply bool_decide_eq_true_1 in Ee. split; [discriminate|]. intros [Hne _]. contradiction.
  - apply bool_decide_eq_false_1 in Ee.
    destruct (forallb _ (post_list "parameters" request)) eqn:Ef.
    + rewrite forallb_forall in Ef. split.
      * intros [= <-]. split; [exact Ee|]. split; [|reflexivity].
        intros v Hv. apply str_in_In. apply Ef. exact Hv.
      * intros (_ & _ & ->). reflexivity.
    + split; [discriminate|]. intros (_ & Hall & _). exfalso.
      assert (Ht : forallb (fun v => str_in v (map param_id (selectable_parameters tr d)))
                     (post_list "parameters" request) = true).
      { apply forallb_forall. intros v Hv. apply str_in_In. apply Hall. exact Hv. }
      rewrite Ht in Ef. discriminate.
Qed.

Lemma selection_nonempty (request : HttpRequest) (tr : TestRequest) (d : Database)
    (sel : list TestParameter) :
  TestParameterSelectionForm request tr d = Some sel -> sel <> [].
Proof.
  intros H. apply selection_form_valid in H. destruct H as (Hne & Hall & ->).
  destruct (post_list "parameters" request) as [|v vs] eqn:Ev; [contradiction|].
  assert (Hv : In v (map param_id (selectable_parameters tr d))) by (apply Hall; left; auto).
  apply in_map_iff in Hv. destruct Hv as (p & Hid & Hp).
  intros Hnil.
  assert (Hin : In p (List.filter (fun p => str_in (param_id p) (v :: vs))
                                  (selectable_parameters tr d))).
  { apply filter_In. split; [exact Hp|]. apply str_in_In. left. auto. }
  rewrite Hnil in Hin. destruct Hin.
Qed.

(** X16. What the selection form of step 2 admits: a valid form yields at
    least one parameter; each one is a stored, active parameter whose key
    was posted and for which the product of the request has an active
    specification; and every posted key is the key of one of them. *)
Theorem selection_form_admits (request : HttpRequest) (tr : TestRequest) (d : Database)
    (sel : list TestParameter) :
  TestParameterSelectionForm request tr d = Some sel ->
  sel <> []
  /\ (forall v, In v (post_list "parameters" request) ->
                exists p, In p sel /\ param_id p = v)
  /\ (forall p, In p sel ->
        In p (parameters d) /\ param_is_active p = true
        /\ In (param_id p) (post_list "parameters" request)
        /\ exists sp, In sp (specifications d) /\ spec_product sp = product tr
                      /\ spec_is_active sp = true
                      /\ param_id (parameter sp) = param_id p).
Proof.
  intros H. split; [exact (selection_nonempty _ _ _ _ H)|].
  apply selection_form_valid in H. destruct H as (_ & Hall & ->). split.
  - intros v Hv. specialize (Hall v Hv). apply in_map_iff in Hall.
    destruct Hall as (p & Hid & Hp). exists p. split; [|exact Hid].
    apply filter_In. split; [exact Hp|]. apply str_in_In. rewrite Hid. exact Hv.
  - intros p Hp. apply filter_In in Hp. destruct Hp as [Hp Hposted].
    apply str_in_In in Hposted. apply selectable_parameter_spec in Hp.
    destruct Hp as (Hin & Hact & Hsp). auto.
Qed.

Lemma selection_form_admits_witness :
  [moisture "Numeric"] <> [].
Proof.
  apply (selection_form_admits
           {| user := None; method := "POST"; POST := {[ "parameters" := ["p1"] ]} |}
           (sample_request "Pending" 1)
           (sample_db "Pending" 1 "11" None [moisture_spec])
           [moisture "Numeric"]).
  vm_compute. reflexivity.
Defined.

(** X17. A parameter that the selection form admitted is evaluated against
    a specification: for a result of the request and of that parameter,
    [first_specification] finds an active specification of the product
    and of the parameter, so that [calculate_pass_fail] does not take its
    branch for a missing specification. *)
Theorem selected_parameter_has_specification (request : HttpRequest) (tr : TestRequest)
    (d : Database) (sel : list TestParameter) (p : TestParameter) (self : TestResult) :
  TestParameterSelectionForm request tr d = Some sel ->
  In p sel ->
  find_request (req_id tr) d = Some tr ->
  test_request_id self = Some (req_id tr) ->
  parameter_id self = Some (param_id p) ->
  exists spec,
    first_specification self d = Return (Some spec)
    /\ In spec (specifications d)
    /\ spec_product spec = product tr
    /\ param_id (parameter spec) = param_id p
    /\ spec_is_active spec = true.
Proof.
  intros Hform Hp Hreq Hrid Hpid.
  apply selection_form_valid in Hform. destruct Hform as (_ & _ & ->).
  apply filter_In in Hp. destruct Hp as [Hp _].
  apply selectable_parameter_spec in Hp. destruct Hp as (Hin & _ & sp & Hsp & Hprod & Hact & Hid).
  unfold first_specification, related_request, related_parameter.
  rewrite Hrid, Hreq, Hpid. cbn [obind].
  destruct (head_filter_In (fun q => String.eqb (param_id q) (param_id p)) (parameters d) p Hin
              (String.eqb_refl _)) as [p' Hp'].
  unfold find_parameter. rewrite Hp'. cbn [obind].
  apply head_filter_Some in Hp'. destruct Hp' as [_ Hkey]. apply eqb_string_true in Hkey.
  rewrite Hkey.
  destruct (head_filter_In
              (fun sp0 => String.eqb (spec_product sp0) (product tr)
                          && String.eqb (param_id (parameter sp0)) (param_id p)
                          && spec_is_active sp0)
              (specifications d) sp Hsp) as [spec Hspec].
  { rewrite Hprod, Hid, Hact, !String.eqb_refl. reflexivity. }
  exists spec. rewrite Hspec. split; [reflexivity|].
  apply head_filter_Some in Hspec. destruct Hspec as [Hs Hc].
  apply andb_true_iff in Hc. destruct Hc as [Hc H3]. apply andb_true_iff in Hc.
  destruct Hc as [H1 H2]. apply eqb_string_true in H1, H2. auto.
Qed.

Lemma selected_parameter_has_specification_witness :
  exists spec,
    first_specification (sample_result "11" None)
                        (sample_db "Pending" 1 "11" None [moisture_spec])
    = Return (Some spec)
    /\ spec_is_active spec = true.
Proof.
  destruct (selected_parameter_has_specification
              {| user := None; method := "POST"; POST := {[ "parameters" := ["p1"] ]} |}
              (sample_request "Pending" 1)
              (sample_db "Pending" 1 "11" None [moisture_spec])
              [moisture "Numeric"] (moisture "Numeric") (sample_result "11" None))
    as (spec & H1 & _ & _ & _ & H5).
  - vm_compute. reflexivity.
  - left. reflexivity.
  - vm_compute. reflexivity.
  - reflexivity.
  - reflexivity.
  - exists spec. split; assumption.
Defined.

Lemma access_granted (u : User) :
  is_controller u = true \/ is_admin u = true ->
  negb (has_controller_access (Some u) || has_admin_access (Some u)) = false.
Proof. cbn. intros [-> | ->]; [reflexivity|]. rewrite orb_true_r. reflexivity. Qed.

Lemma owner_granted (u : User) (obj : TestRequest) :
  controller_user obj = user_id u \/ is_admin u = true ->
  negb (controller_user obj =? user_id u)%N && negb (is_admin u) = false.
Proof.
  intros [-> | ->]; [rewrite N.eqb_refl; reflexivity|]. cbn. apply andb_false_r.
Qed.

(** The guards of [pipeline_step] pass: an admitted user, a request that is
    found and that the user owns or administers. *)
Ltac pass_guards Hu Hrole Hget Hown :=
  unfold pipeline_step; rewrite Hu, (access_granted _ Hrole);
  unfold bind at 1; rewrite Hget, (owner_granted _ _ Hown).

(** X18. A POST at step 2 whose selection is not valid (no parameter
    posted, or a posted key that is not the key of a choice) raises
    [UnboundLocalError]: the view goes on to render with [specifications],
    which only the other branch binds.  Nothing is written. *)
Theorem invalid_selection_raises (depth : nat) (uuid4 : nat -> ID) (request : HttpRequest)
    (test_id : ID) (s : Site) (u : User) (obj : TestRequest) :
  user request = Some u ->
  is_controller u = true \/ is_admin u = true ->
  get_object_or_404 test_id s = (Return obj, s) ->
  controller_user obj = user_id u \/ is_admin u = true ->
  method request = "POST" ->
  post_list "parameters" request = []
  \/ (exists v, In v (post_list "parameters" request)
                /\ ~ In v (map param_id (selectable_parameters obj (db s)))) ->
  pipeline_step depth uuid4 request test_id 2 s = (Raise UnboundLocalError, s).
Proof.
  intros Hu Hrole Hget Hown Hm Hbad.
  assert (Hform : TestParameterSelectionForm request obj (db s) = None).
  { destruct (TestParameterSelectionForm request obj (db s)) as [sel|] eqn:E; [|reflexivity].
    apply selection_form_valid in E. destruct E as (Hne & Hall & _).
    destruct Hbad as [Hnil|(v & Hv & Hnot)]; [contradiction|].
    exfalso. apply Hnot. apply Hall. exact Hv. }
  pass_guards Hu Hrole Hget Hown.
  rewrite Hm. cbn [Z.eqb Pos.eqb String.eqb Ascii.eqb Bool.eqb].
  unfold bind at 1, get at 1. rewrite Hform. reflexivity.
Qed.

Lemma invalid_selection_raises_witness :
  pipeline_step 3 (fun _ => "new") (controller_post "approve") "r1" 2
                (sample_site "Pending" 1)
  = (Raise UnboundLocalError, sample_site "Pending" 1).
Proof.
  apply (invalid_selection_raises 3 (fun _ => "new") (controller_post "approve") "r1"
           (sample_site "Pending" 1) {| user_id := 7%N; role := "CONTROLLER" |}
           (sample_request "Pending" 1)).
  - reflexivity.
  - left. reflexivity.
  - vm_compute. reflexivity.
  - left. reflexivity.
  - reflexivity.
  - left. vm_compute. reflexivity.
Defined.

Lemma head_filter_replaced (test_id : ID) (obj obj' : TestRequest) (rows : list TestRequest) :
  head (List.filter (fun r => String.eqb (req_id r) test_id && req_is_active r) rows)
  = Some obj ->
  req_id obj' = req_id obj ->
  req_is_active obj' = true ->
  head (List.filter (fun r => String.eqb (req_id r) test_id && req_is_active r)
                    (map (replace_request obj') rows))
  = Some obj'.
Proof.
  intros H Hid Hact.
  assert (Hkey : req_id obj = test_id).
  { apply head_filter_Some in H. destruct H as [_ H]. apply andb_true_iff in H.
    apply eqb_string_true. tauto. }
  induction rows as [|r rows IH]; [discriminate|].
  cbn [map List.filter].
  assert (Hr : replace_request obj' r
               = if String.eqb (req_id r) (req_id obj') then obj' else r) by reflexivity.
  destruct (String.eqb (req_id r) (req_id obj')) eqn:E; rewrite Hr.
  - rewrite Hid, Hkey, String.eqb_refl, Hact. reflexivity.
  - assert (E' : String.eqb (req_id r) test_id = false) by (rewrite <- Hkey, <- Hid; exact E).
    rewrite E'. cbn [andb]. apply IH. cbn [List.filter] in H. rewrite E' in H. exact H.
Qed.

(** X19. A valid selection at step 2 opens step 3.  Whatever the status
    and step of the request were (an approved request included), the POST
    returns the redirect to step 3, stores the keys of the selected
    parameters in the session, leaves the request In-Progress at step 2
    (progress 50) and queues one message; a following GET of step 3 by the
    same user then renders the results page and changes nothing. *)
Theorem valid_selection_opens_step_3 (depth : nat) (uuid4 : nat -> ID)
    (request get_request : HttpRequest) (test_id : ID) (s : Site) (u : User)
    (obj : TestRequest) (sel : list TestParameter) :
  user request = Some u ->
  is_controller u = true \/ is_admin u = true ->
  get_object_or_404 test_id s = (Return obj, s) ->
  controller_user obj = user_id u \/ is_admin u = true ->
  method request = "POST" ->
  TestParameterSelectionForm request obj (db s) = Some sel ->
  user get_request = Some u ->
  method get_request <> "POST" ->
  let obj' := set_status "In-Progress" (set_current_step 2 obj) in
  let s1 :=
    {| db := with_test_requests (map (replace_request obj') (test_requests (db s))) (db s);
       session := <[session_key test_id := map param_id sel]> (session s);
       messages := (messages s ++ [("success", "Parameters selected. Proceed to step 3.")])%list;
       uuid_calls := uuid_calls s |} in
  pipeline_step depth uuid4 request test_id 2 s
  = (Return (redirect "testing:pipeline_step" (Some test_id) (Some 3)), s1)
  /\ get_progress_percentage obj' = 50
  /\ pipeline_step depth uuid4 get_request test_id 3 s1
     = (Return (render "testing/pipeline_step_3.html"), s1).
Proof.
  intros Hu Hrole Hget Hown Hm Hform Hu' Hm' obj' s1.
  assert (Hhead : head (List.filter (fun r => String.eqb (req_id r) test_id && req_is_active r)
                                    (test_requests (db s))) = Some obj).
  { unfold get_object_or_404, bind, get in Hget.
    destruct (head _) as [r|]; [|discriminate]. inversion Hget. reflexivity. }
  pose proof (head_filter_Some _ _ _ Hhead) as [Hin Hsel].
  apply andb_true_iff in Hsel. destruct Hsel as [_ Hact].
  split; [|split].
  - pass_guards Hu Hrole Hget Hown.
    rewrite Hm. cbn [Z.eqb Pos.eqb String.eqb Ascii.eqb Bool.eqb].
    unfold bind at 1, get at 1. rewrite Hform.
    unfold bind at 1, modify at 1.
    rewrite (save_and_respond obj) by (assumption || reflexivity). reflexivity.
  - reflexivity.
  - assert (Hget1 : get_object_or_404 test_id s1 = (Return obj', s1)).
    { unfold get_object_or_404, bind, get. cbn [db s1 test_requests with_test_requests].
      rewrite (head_filter_replaced test_id obj obj') by (assumption || reflexivity).
      reflexivity. }
    assert (Hown1 : controller_user obj' = user_id u \/ is_admin u = true) by exact Hown.
    pass_guards Hu' Hrole Hget1 Hown1.
    cbn [Z.eqb Pos.eqb].
    unfold bind at 1, get at 1. cbn [session s1]. rewrite lookup_insert_eq.
    cbn [from_option default]. unfold id.
    pose proof (selection_nonempty _ _ _ _ Hform) as Hne.
    destruct sel as [|p ps]; [contradiction|]. cbn [map].
    apply eqb_string_false in Hm'. rewrite Hm'. reflexivity.
Qed.

Lemma valid_selection_opens_step_3_witness :
  fst (pipeline_step 3 (fun _ => "new")
         {| user := Some {| user_id := 7%N; role := "CONTROLLER" |};
            method := "POST"; POST := {[ "parameters" := ["p1"] ]} |}
         "r1" 2
         {| db := sample_db "Approved" 4 "11" None [moisture_spec];
            session := ∅; messages := []; uuid_calls := 0 |})
  = Return (redirect "testing:pipeline_step" (Some "r1") (Some 3)).
Proof.
  destruct (valid_selection_opens_step_3 3 (fun _ => "new")
              {| user := Some {| user_id := 7%N; role := "CONTROLLER" |};
                 method := "POST"; POST := {[ "parameters" := ["p1"] ]} |}
              {| user := Some {| user_id := 7%N; role := "CONTROLLER" |};
                 method := "GET"; POST := ∅ |}
              "r1"
              {| db := sample_db "Approved" 4 "11" None [moisture_spec];
                 session := ∅; messages := []; uuid_calls := 0 |}
              {| user_id := 7%N; role := "CONTROLLER" |}
              (sample_request "Approved" 4) [moisture "Numeric"]) as (H & _ & _).
  - reflexivity.
  - left. reflexivity.
  - vm_compute. reflexivity.
  - left. reflexivity.
  - reflexivity.
  - vm_compute. reflexivity.
  - reflexivity.
  - cbn. discriminate.
  - rewrite H. reflexivity.
Defined.

(** ** The views: registration and the callers they refuse *)

Lemma key_absent (id : ID) (rows : list TestRequest) :
  ~ In id (map req_id rows) ->
  existsb (fun row => String.eqb (req_id row) id) rows = false
  /\ List.filter (fun r => String.eqb (req_id r) id && req_is_active r) rows = [].
Proof.
  induction rows as [|r rows IH]; intros Hnot; [split; reflexivity|].
  cbn in Hnot. cbn.
  assert (E : String.eqb (req_id r) id = false) by (apply eqb_string_false; tauto).
  rewrite E. cbn. apply IH. tauto.
Qed.

(** X20. Registration opens step 2.  A valid form posted to
    [pipeline_start] by an admitted user, with a key drawn that no request
    has, appends a Pending request at step 1 (progress 25) owned by the
    user, queues one message and redirects to step 2 of the new request;
    a following GET of step 2 by the same user renders the selection page
    and changes nothing. *)
Theorem pipeline_start_opens_step_2 (depth : nat) (uuid4 : nat -> ID)
    (request get_request : HttpRequest) (f : TestRequestForm) (s : Site) (u : User) :
  user request = Some u ->
  is_controller u = true \/ is_admin u = true ->
  method request = "POST" ->
  ~ In (uuid4 (uuid_calls s)) (map req_id (test_requests (db s))) ->
  user get_request = Some u ->
  method get_request <> "POST" ->
  let id := uuid4 (uuid_calls s) in
  let obj := {| req_id := id; batch_number := form_batch_number f;
                product := form_product f; controller_user := user_id u;
                status := "Pending"; current_step := 1; req_is_active := true |} in
  let s1 :=
    {| db := with_test_requests (test_requests (db s) ++ [obj])%list (db s);
       session := session s;
       messages := (messages s ++ [("success", "Test request created. Proceed to step 2.")])%list;
       uuid_calls := S (uuid_calls s) |} in
  pipeline_start uuid4 request (Some f) s
  = (Return (redirect "testing:pipeline_step" (Some id) (Some 2)), s1)
  /\ get_progress_percentage obj = 25
  /\ pipeline_step depth uuid4 get_request id 2 s1
     = (Return (render "testing/pipeline_step_2.html"), s1).
Proof.
  intros Hu Hrole Hm Hfresh Hu' Hm' id obj s1. subst id.
  destruct (key_absent _ _ Hfresh) as [Habs Hnone].
  split; [|split].
  - unfold pipeline_start. rewrite Hu, (access_granted _ Hrole), Hm.
    cbn [String.eqb Ascii.eqb Bool.eqb].
    unfold bind at 1, draw_uuid at 1. unfold bind at 1.
    unfold on_request, TestRequest_save, model_save, save_insert. cbn.
    rewrite Habs. reflexivity.
  - reflexivity.
  - assert (Hget1 : get_object_or_404 (uuid4 (uuid_calls s)) s1 = (Return obj, s1)).
    { unfold get_object_or_404, bind, get. cbn [db s1 test_requests with_test_requests].
      rewrite List.filter_app, Hnone. cbn.
      rewrite String.eqb_refl. reflexivity. }
    assert (Hown1 : controller_user obj = user_id u \/ is_admin u = true)
      by (left; reflexivity).
    pass_guards Hu' Hrole Hget1 Hown1.
    cbn [Z.eqb Pos.eqb]. apply eqb_string_false in Hm'. rewrite Hm'. reflexivity.
Qed.

Lemma pipeline_start_opens_step_2_witness :
  fst (pipeline_start (fun _ => "new") (controller_post "approve")
         (Some {| form_batch_number := "BATCH-002"; form_product := "corn" |})
         (sample_site "Pending" 1))
  = Return (redirect "testing:pipeline_step" (Some "new") (Some 2)).
Proof.
  destruct (pipeline_start_opens_step_2 3 (fun _ => "new") (controller_post "approve")
              {| user := Some {| user_id := 7%N; role := "CONTROLLER" |};
                 method := "GET"; POST := ∅ |}
              {| form_batch_number := "BATCH-002"; form_product := "corn" |}
              (sample_site "Pending" 1)
              {| user_id := 7%N; role := "CONTROLLER" |}) as (H & _ & _).
  - reflexivity.
  - left. reflexivity.
  - reflexivity.
  - cbn. intros [H|[]]. discriminate.
  - reflexivity.
  - cbn. discriminate.
  - rewrite H. reflexivity.
Defined.

(** X21. The testing views refuse a caller who is neither a controller nor
    an admin before they look at anything: the anonymous user is sent to
    the login page and nothing at all changes; a user with another role is
    sent to the dashboard, and the only change is one error message. *)
Theorem views_refuse_strangers (depth : nat) (uuid4 : nat -> ID) (c : ViewCall) (s : Site) :
  has_controller_access (caller c) = false ->
  has_admin_access (caller c) = false ->
  exists text,
    run_view depth uuid4 c s
    = match caller c with
      | None => (Return (redirect "login" None None), s)
      | Some _ =>
          (Return (redirect "dashboard" None None),
           {| db := db s; session := session s;
              messages := (messages s ++ [("error", text)])%list;
              uuid_calls := uuid_calls s |})
      end.
Proof.
  intros Hc Ha.
  destruct c as [request form|request test_id step|request test_id]; cbn [caller run_view] in *.
  - exists "Controller access required.". unfold pipeline_start.
    destruct (user request) as [u|]; [|reflexivity].
    rewrite Hc, Ha. reflexivity.
  - exists "Controller access required.". unfold pipeline_step.
    destruct (user request) as [u|]; [|reflexivity].
    rewrite Hc, Ha. reflexivity.
  - exists "You do not have permission to access this page.".
    unfold TestRequestDetailView_post.
    destruct (user request) as [u|]; [|reflexivity].
    cbn in Hc, Ha. unfold is_controller in Hc. unfold is_admin in Ha.
    unfold str_in. cbn [existsb]. rewrite Hc, Ha. reflexivity.
Qed.

Lemma views_refuse_strangers_witness :
  exists text,
    run_view 3 (fun _ => "new")
      (call_detail_post {| user := Some {| user_id := 9%N; role := "VIEWER" |};
                           method := "POST"; POST := {[ "action" := ["approve"] ]} |} "r1")
      (sample_site "Submitted for Review" 4)
    = (Return (redirect "dashboard" None None),
       {| db := db (sample_site "Submitted for Review" 4); session := ∅;
          messages := [("error", text)]; uuid_calls := 0 |}).
Proof.
  apply (views_refuse_strangers 3 (fun _ => "new")
           (call_detail_post {| user := Some {| user_id := 9%N; role := "VIEWER" |};
                                method := "POST"; POST := {[ "action" := ["approve"] ]} |}
                             "r1")
           (sample_site "Submitted for Review" 4)); reflexivity.
Defined.

(** ** The views: which requests they find *)

Lemma filter_key_none (Q : TestRequest -> bool) (id : ID) (rows : list TestRequest) :
  ~ In id (map req_id rows) ->
  List.filter (fun r => String.eqb (req_id r) id && Q r) rows = []
  /\ List.filter (fun r => String.eqb (req_id r) id) (List.filter Q rows) = [].
Proof.
  induction rows as [|r rows IH]; intros Hnot; [split; reflexivity|].
  cbn in Hnot.
  assert (E : String.eqb (req_id r) id = false) by (apply eqb_string_false; tauto).
  destruct IH as [IH1 IH2]; [tauto|]. cbn. rewrite E. cbn. split; [exact IH1|].
  destruct (Q r); cbn; [rewrite E|]; exact IH2.
Qed.

(** With unique keys, a lookup by key under a further condition finds the
    row of the key when that row meets the condition, and nothing
    otherwise; it does not matter which of the two is filtered first. *)
Lemma head_filter_key (Q : TestRequest -> bool) (id : ID) (rows : list TestRequest) :
  NoDup (map req_id rows) ->
  let found := match head (List.filter (fun r => String.eqb (req_id r) id) rows) with
               | Some r => if Q r then Some r else None
               | None => None
               end in
  head (List.filter (fun r => String.eqb (req_id r) id && Q r) rows) = found
  /\ head (List.filter (fun r => String.eqb (req_id r) id) (List.filter Q rows)) = found.
Proof.
  induction rows as [|r rows IH]; intros Hnd; [split; reflexivity|].
  cbn in Hnd. apply NoDup_cons in Hnd. destruct Hnd as [Hnotin Hnd].
  specialize (IH Hnd). cbn zeta in IH. destruct IH as [IH1 IH2].
  cbn. destruct (String.eqb (req_id r) id) eqn:E.
  - apply eqb_string_true in E.
    assert (Hnot : ~ In id (map req_id rows)).
    { intros Hin. apply Hnotin. rewrite E. apply list_elem_of_In. exact Hin. }
    destruct (filter_key_none Q id rows Hnot) as [F1 F2].
    cbn. destruct (Q r) eqn:EQ; cbn.
    + pose proof (proj2 (eqb_string_true _ _) E) as E'. rewrite ?E'. auto.
    + rewrite F1, F2. auto.
  - cbn. split; [exact IH1|]. destruct (Q r); cbn; [rewrite E|]; exact IH2.
Qed.

(** X22. With unique keys the detail view and the pipeline find the same
    requests: [TestRequestDetailView.get_object] returns the request that
    [get_object_or_404] of [pipeline_step] returns when the user owns it
    or is an admin, and raises [Http404] in every other case. *)
Theorem detail_view_finds_what_pipeline_serves (u : User) (test_id : ID) (s : Site) :
  NoDup (map req_id (test_requests (db s))) ->
  get_object u test_id s
  = match get_object_or_404 test_id s with
    | (Return obj, _) =>
        if (controller_user obj =? user_id u)%N || is_admin u
        then (Return obj, s) else (Raise Http404, s)
    | (Raise e, _) => (Raise e, s)
    end.
Proof.
  intros Hnd. unfold get_object, get_object_or_404, bind, get. cbv beta iota zeta.
  destruct (head_filter_key (fun r => req_is_active r) test_id _ Hnd) as [A1 A2].
  destruct (head_filter_key (fun r => (controller_user r =? user_id u)%N && req_is_active r)
              test_id _ Hnd) as [_ B2].
  cbn beta zeta in A1, A2, B2. rewrite A1.
  destruct (is_admin u).
  - rewrite A2.
    destruct (head (List.filter (fun r => String.eqb (req_id r) test_id)
                                (test_requests (db s)))) as [r|]; [|reflexivity].
    destruct (req_is_active r); [|reflexivity]. cbn. rewrite orb_true_r. reflexivity.
  - rewrite B2.
    destruct (head (List.filter (fun r => String.eqb (req_id r) test_id)
                                (test_requests (db s)))) as [r|]; [|reflexivity].
    destruct (req_is_active r); cbn; [|rewrite andb_false_r; reflexivity].
    rewrite andb_true_r, orb_false_r.
    destruct (controller_user r =? user_id u)%N; reflexivity.
Qed.

Lemma detail_view_finds_what_pipeline_serves_witness :
  get_object {| user_id := 8%N; role := "CONTROLLER" |} "r1" (sample_site "Pending" 1)
  = (Raise Http404, sample_site "Pending" 1).
Proof.
  rewrite (detail_view_finds_what_pipeline_serves {| user_id := 8%N; role := "CONTROLLER" |}
             "r1" (sample_site "Pending" 1)).
  - reflexivity.
  - cbn. apply NoDup_singleton.
Defined.

Lemma soft_deleted_rows (obj : TestRequest) (rows : list TestRequest) :
  let hide := fun row => if String.eqb (req_id row) (req_id obj)
                         then set_req_is_active false row else row in
  List.filter (fun r => String.eqb (req_id r) (req_id obj) && req_is_active r) (map hide rows)
  = []
  /\ map (fun r => (req_id r, status r, current_step r)) (map hide rows)
     = map (fun r => (req_id r, status r, current_step r)) rows.
Proof.
  intros hide. induction rows as [|r rows [IH1 IH2]]; [split; reflexivity|].
  cbn [map List.filter]. rewrite IH2.
  assert (Hr : hide r = if String.eqb (req_id r) (req_id obj)
                        then set_req_is_active false r else r) by reflexivity.
  destruct (String.eqb (req_id r) (req_id obj)) eqn:E; rewrite Hr.
  - cbn. rewrite E. cbn. auto.
  - rewrite E. cbn. auto.
Qed.

(** X23. A soft deletion hides a request from the pipeline and keeps its
    data.  [soft_delete] on a stored request returns, clears the activity
    flag of the object and of its row, and leaves the key, the status and
    the step of every row as they were; afterwards [pipeline_step] raises
    [Http404] for the key, whatever the step and whoever of the admitted
    users calls, the owner and the admins included. *)
Theorem soft_delete_hides_request (depth : nat) (uuid4 : nat -> ID) (request : HttpRequest)
    (step : Z) (obj : TestRequest) (s : Site) :
  In obj (test_requests (db s)) ->
  exists s',
    on_request obj soft_delete s = (Return (tt, set_req_is_active false obj), s')
    /\ map (fun r => (req_id r, status r, current_step r)) (test_requests (db s'))
       = map (fun r => (req_id r, status r, current_step r)) (test_requests (db s))
    /\ (forall row, In row (test_requests (db s')) -> req_id row = req_id obj ->
                    req_is_active row = false)
    /\ (has_controller_access (user request) || has_admin_access (user request) = true ->
        pipeline_step depth uuid4 request (req_id obj) step s' = (Raise Http404, s')).
Proof.
  intros Hin. pose proof (request_key_present obj _ Hin) as Hp.
  destruct (soft_deleted_rows obj (test_requests (db s))) as [Hnone Hkeep].
  cbn zeta in Hnone, Hkeep.
  eexists. split; [|split; [|split]].
  - unfold on_request, soft_delete, bind, modify, TestRequest_save, model_save, save_fields.
    cbn. rewrite Hp. reflexivity.
  - exact Hkeep.
  - intros row Hrow Hid. cbn in Hrow. apply in_map_iff in Hrow.
    destruct Hrow as (r & Hr & _). apply eqb_string_true in Hid.
    destruct (String.eqb (req_id r) (req_id obj)) eqn:E.
    + subst row. reflexivity.
    + subst row. rewrite Hid in E. discriminate.
  - intros Hacc. unfold pipeline_step.
    destruct (user request) as [u|]; [|discriminate].
    rewrite Hacc. cbn [negb].
    unfold bind at 1, get_object_or_404. unfold bind at 1, get at 1.
    cbn [db with_db test_requests with_test_requests].
    match goal with |- context [List.filter ?P (map ?h ?l)] =>
      change (List.filter P (map h l))
        with (List.filter (fun r => String.eqb (req_id r) (req_id obj) && req_is_active r)
                (map (fun row => if String.eqb (req_id row) (req_id obj)
                                 then set_req_is_active false row else row)
                     (test_requests (db s)))) end.
    rewrite Hnone. reflexivity.
Qed.

Lemma soft_delete_hides_request_witness :
  exists s',
    on_request (sample_request "In-Progress" 2) soft_delete (sample_site "In-Progress" 2)
    = (Return (tt, set_req_is_active false (sample_request "In-Progress" 2)), s')
    /\ pipeline_step 3 (fun _ => "new") (admin_post "approve") "r1" 4 s'
       = (Raise Http404, s').
Proof.
  destruct (soft_delete_hides_request 3 (fun _ => "new") (admin_post "approve") 4
              (sample_request "In-Progress" 2) (sample_site "In-Progress" 2))
    as (s' & H1 & _ & _ & H4).
  - left. reflexivity.
  - exists s'. split; [exact H1|]. apply H4. reflexivity.
Defined.

(** ** Permissions and the gates of the views *)

(** X24. The table of [has_permission].  An admin holds exactly the
    permissions [admin_access], [product_manage], [supplier_manage],
    [specification_manage] and [analytics_view]; a controller exactly
    [controller_access] and [test_create]; nobody holds any other key,
    [test_view] among them, which is declared but has no entry; the
    anonymous user holds none. *)
Theorem has_permission_table (user : option User) (permission : string) :
  has_permission user permission
  = (has_admin_access user
     && str_in permission [PERMISSION_ADMIN_ACCESS; PERMISSION_PRODUCT_MANAGE;
                           PERMISSION_SUPPLIER_MANAGE; PERMISSION_SPECIFICATION_MANAGE;
                           PERMISSION_ANALYTICS_VIEW])
    || (has_controller_access user
        && str_in permission [PERMISSION_CONTROLLER_ACCESS; PERMISSION_TEST_CREATE]).
Proof.
  unfold has_permission, permission_map. cbn [list_to_map foldr fst snd uncurry].
  unfold PERMISSION_ADMIN_ACCESS, PERMISSION_CONTROLLER_ACCESS, PERMISSION_PRODUCT_MANAGE,
    PERMISSION_SUPPLIER_MANAGE, PERMISSION_SPECIFICATION_MANAGE, PERMISSION_TEST_CREATE,
    PERMISSION_ANALYTICS_VIEW.
  rewrite !lookup_insert, lookup_empty.
  unfold can_manage_products, can_manage_suppliers, can_manage_specifications,
    can_create_tests, can_view_analytics, str_in. cbn [existsb].
  repeat (case_decide as Hd;
          [subst permission; cbn;
           destruct (has_admin_access user), (has_controller_access user); reflexivity|
           apply not_eq_sym, eqb_string_false in Hd; rewrite Hd; clear Hd]).
  cbn. destruct (has_admin_access user), (has_controller_access user); reflexivity.
Qed.

(** X25. The four gates of the testing views admit the same callers.
    [controller_required], [ControllerRequiredMixin.dispatch],
    [role_required] and [RoleRequiredMixin.dispatch] with the roles ADMIN
    and CONTROLLER run the view for a controller and for an admin; for
    anybody else none of them runs it: the anonymous user is sent to the
    login page with nothing changed, another user to the dashboard with one
    error message queued.  An admin thus passes the gate of
    [pipeline_start] although [has_permission] denies [test_create] to
    admins. *)
Theorem gates_agree (view_func : View) (request : HttpRequest) (s : Site) :
  let gates : list (View -> View) :=
    [controller_required; ControllerRequiredMixin_dispatch;
     role_required ["ADMIN"; "CONTROLLER"];
     RoleRequiredMixin_dispatch ["ADMIN"; "CONTROLLER"]] in
  (if has_controller_access (user request) || has_admin_access (user request)
   then Forall (fun gate => gate view_func request s = view_func request s) gates
   else Forall (fun gate =>
                  exists text,
                    gate view_func request s
                    = match user request with
                      | None => (Return (redirect "login" None None), s)
                      | Some _ =>
                          (Return (redirect "dashboard" None None),
                           {| db := db s; session := session s;
                              messages := (messages s ++ [("error", text)])%list;
                              uuid_calls := uuid_calls s |})
                      end) gates)
  /\ (has_admin_access (user request) = true ->
      has_permission (user request) PERMISSION_TEST_CREATE = false).
Proof.
  cbn zeta. split.
  - destruct (user request) as [u|] eqn:Hu.
    + cbn [has_controller_access has_admin_access]. unfold is_controller, is_admin.
      destruct (String.eqb (role u) "CONTROLLER") eqn:Ec,
               (String.eqb (role u) "ADMIN") eqn:Ea; cbn [orb];
        repeat (apply List.Forall_cons;
                [unfold controller_required, ControllerRequiredMixin_dispatch, role_required,
                   RoleRequiredMixin_dispatch, login_required; cbv beta; rewrite ?Hu;
                 cbn [has_controller_access has_admin_access];
                 unfold is_controller, is_admin, str_in; cbn [existsb];
                 rewrite ?Ec, ?Ea; cbn; try reflexivity; eexists; reflexivity|]);
        apply List.Forall_nil.
    + cbn [has_controller_access has_admin_access orb].
      repeat (apply List.Forall_cons;
              [unfold controller_required, ControllerRequiredMixin_dispatch, role_required,
                 RoleRequiredMixin_dispatch, login_required; cbv beta; rewrite ?Hu;
               exists ""; reflexivity|]);
        apply List.Forall_nil.
  - assert (Hentry : permission_map !! PERMISSION_TEST_CREATE = Some can_create_tests)
      by (vm_compute; reflexivity).
    unfold has_permission. rewrite Hentry. unfold can_create_tests.
    destruct (user request) as [u|]; [|discriminate].
    cbn [has_admin_access has_controller_access]. unfold is_admin, is_controller.
    intros Ha. apply eqb_string_true in Ha. rewrite Ha. reflexivity.
Qed.

(** ** The counts of the analytics dashboard and of the exports *)

Lemma count_if_cons {A} (cond : A -> bool) (x : A) (l : list A) :
  count_if cond (x :: l) = ((if cond x then 1 else 0) + count_if cond l)%nat.
Proof. unfold count_if. cbn. destruct (cond x); reflexivity. Qed.

Lemma progress_counts_sum (filtered_tests : list TestRequest) :
  (progress_0_25 filtered_tests + progress_26_50 filtered_tests
   + progress_51_75 filtered_tests + progress_76_100 filtered_tests)%nat
  = length filtered_tests.
Proof.
  unfold progress_0_25, progress_26_50, progress_51_75, progress_76_100.
  induction filtered_tests as [|t l IH]; [reflexivity|].
  rewrite !count_if_cons. cbn [length]. rewrite <- IH.
  generalize (get_progress_percentage t). intros p.
  destruct (p <=? 25) eqn:E1, (26 <=? p) eqn:E2, (p <=? 50) eqn:E3, (51 <=? p) eqn:E4,
           (p <=? 75) eqn:E5, (76 <=? p) eqn:E6; cbn [andb];
    first [apply Z.leb_le in E1 | apply Z.leb_gt in E1];
    first [apply Z.leb_le in E2 | apply Z.leb_gt in E2];
    first [apply Z.leb_le in E3 | apply Z.leb_gt in E3];
    first [apply Z.leb_le in E4 | apply Z.leb_gt in E4];
    first [apply Z.leb_le in E5 | apply Z.leb_gt in E5];
    first [apply Z.leb_le in E6 | apply Z.leb_gt in E6];
    lia.
Qed.

(** X26. The four progress ranges of the analytics dashboard count every
    test once: the counts for at most 25, 26 to 50, 51 to 75 and at least
    76 add up to the number of tests, whatever the progress values are.
    [progress_data] has as many labels as counts, lists no count of 0,
    and its counts add up to the number of tests as well. *)
Theorem progress_ranges_partition (filtered_tests : list TestRequest) :
  (progress_0_25 filtered_tests + progress_26_50 filtered_tests
   + progress_51_75 filtered_tests + progress_76_100 filtered_tests)%nat
  = length filtered_tests
  /\ length (fst (progress_data filtered_tests)) = length (snd (progress_data filtered_tests))
  /\ Forall (fun n => (0 < n)%nat) (snd (progress_data filtered_tests))
  /\ list_sum (snd (progress_data filtered_tests)) = length filtered_tests.
Proof.
  pose proof (progress_counts_sum filtered_tests) as Hsum.
  split; [exact Hsum|]. unfold progress_data. rewrite <- Hsum. clear Hsum.
  generalize (progress_0_25 filtered_tests) (progress_26_50 filtered_tests)
             (progress_51_75 filtered_tests) (progress_76_100 filtered_tests).
  intros n1 n2 n3 n4.
  destruct (0 <? n1)%nat eqn:E1, (0 <? n2)%nat eqn:E2, (0 <? n3)%nat eqn:E3,
           (0 <? n4)%nat eqn:E4; cbn;
    first [apply Nat.ltb_lt in E1 | apply Nat.ltb_ge in E1];
    first [apply Nat.ltb_lt in E2 | apply Nat.ltb_ge in E2];
    first [apply Nat.ltb_lt in E3 | apply Nat.ltb_ge in E3];
    first [apply Nat.ltb_lt in E4 | apply Nat.ltb_ge in E4];
    (split; [reflexivity|]); (split; [repeat constructor; assumption|lia]).
Qed.


(** ** Step 3: a value without a verdict *)






(** ** From submission to approval *)

Lemma find_request_replaced (obj obj' : TestRequest) (rows : list TestRequest) (d : Database) :
  In obj rows ->
  req_id obj' = req_id obj ->
  find_request (req_id obj) (with_test_requests (map (replace_request obj') rows) d)
  = Some obj'.
Proof.
  intros Hin Hid. unfold find_request. cbn [test_requests with_test_requests].
  induction rows as [|r rows IH]; [destruct Hin|].
  cbn [map List.filter].
  assert (Hr : replace_request obj' r
               = if String.eqb (req_id r) (req_id obj') then obj' else r) by reflexivity.
  destruct (String.eqb (req_id r) (req_id obj')) eqn:E; rewrite Hr.
  - rewrite Hid, String.eqb_refl. reflexivity.
  - rewrite Hid in E. rewrite E. apply IH. destruct Hin as [->|Hin]; [|exact Hin].
    rewrite String.eqb_refl in E. discriminate.
Qed.

(** X29. From submission to approval.  With unique keys: the owner's POST
    of the action submit at step 4 leaves the request Submitted for Review
    at step 4, progress 75, and redirects to the detail page; the POST of
    the action approve to the detail view by an admin then finds that
    request, leaves it Approved, progress 100, and redirects to the detail
    page again. *)
Theorem submitted_request_is_approved_by_admin (depth : nat) (uuid4 : nat -> ID)
    (request admin_request : HttpRequest) (test_id : ID) (s : Site) (u a : User)
    (obj : TestRequest) :
  NoDup (map req_id (test_requests (db s))) ->
  user request = Some u ->
  is_controller u = true \/ is_admin u = true ->
  get_object_or_404 test_id s = (Return obj, s) ->
  controller_user obj = user_id u \/ is_admin u = true ->
  method request = "POST" ->
  post_get "action" request = Some "submit" ->
  user admin_request = Some a ->
  is_admin a = true ->
  post_get "action" admin_request = Some "approve" ->
  let obj1 := set_status "Submitted for Review" (set_current_step 4 obj) in
  let obj2 := set_status "Approved" obj1 in
  exists s1 s2,
    pipeline_step depth uuid4 request test_id 4 s
    = (Return (redirect "testing:detail" (Some test_id) None), s1)
    /\ find_request test_id (db s1) = Some obj1
    /\ get_progress_percentage obj1 = 75
    /\ TestRequestDetailView_post admin_request test_id s1
       = (Return (redirect "testing:detail" (Some test_id) None), s2)
    /\ find_request test_id (db s2) = Some obj2
    /\ get_progress_percentage obj2 = 100.
Proof.
  intros Hnd Hu Hrole Hget Hown Hm Hact Hu' Hadm Hact' obj1 obj2.
  assert (Hhead : head (List.filter (fun r => String.eqb (req_id r) test_id && req_is_active r)
                                    (test_requests (db s))) = Some obj).
  { unfold get_object_or_404, bind, get in Hget.
    destruct (head _) as [r|]; [|discriminate]. inversion Hget. reflexivity. }
  pose proof (head_filter_Some _ _ _ Hhead) as [Hin Hsel].
  apply andb_true_iff in Hsel. destruct Hsel as [Hkey Hactive].
  apply eqb_string_true in Hkey. subst test_id.
  set (rows1 := map (replace_request obj1) (test_requests (db s))).
  set (s1 := {| db := with_test_requests rows1 (db s); session := session s;
                messages := (messages s ++ [("success",
                               "Test request submitted for review. Progress: 75%")])%list;
                uuid_calls := uuid_calls s |}).
  assert (Hfind1 : find_request (req_id obj) (db s1) = Some obj1).
  { apply (find_request_replaced obj obj1); [exact Hin|reflexivity]. }
  assert (Hin1 : In obj1 (test_requests (db s1))).
  { unfold find_request in Hfind1. apply head_filter_Some in Hfind1. tauto. }
  set (s2 := {| db := with_test_requests (map (replace_request obj2) rows1) (db s1);
                session := session s1;
                messages := (messages s1 ++ [("success",
                               "Test request approved. Progress: 100%")])%list;
                uuid_calls := uuid_calls s1 |}).
  exists s1, s2. split; [|split; [exact Hfind1|split; [reflexivity|split; [|split]]]].
  - assert (Hform : TestReviewForm request = Some "submit")
      by (unfold TestReviewForm; rewrite Hact; reflexivity).
    pass_guards Hu Hrole Hget Hown.
    cbn [Z.eqb Pos.eqb]. rewrite Hm. cbn [String.eqb Ascii.eqb Bool.eqb]. rewrite Hform.
    cbn [String.eqb Ascii.eqb Bool.eqb].
    rewrite (save_and_respond obj) by (assumption || reflexivity). reflexivity.
  - assert (Hnd1 : NoDup (map req_id (test_requests (db s1)))).
    { cbn [db s1 test_requests with_test_requests]. unfold rows1.
      rewrite replace_request_keys. exact Hnd. }
    assert (Hobj : get_object a (req_id obj) s1 = (Return obj1, s1)).
    { unfold get_object, bind, get. cbv beta iota zeta. rewrite Hadm.
      destruct (head_filter_key (fun r => req_is_active r) (req_id obj) _ Hnd1) as [_ A2].
      cbn beta zeta in A2. rewrite A2.
      unfold find_request in Hfind1. rewrite Hfind1.
      cbn [req_is_active obj1 set_status set_current_step]. rewrite Hactive. reflexivity. }
    unfold TestRequestDetailView_post. rewrite Hu'.
    assert (Hrole' : negb (str_in (role a) ["ADMIN"; "CONTROLLER"]) = false).
    { unfold is_admin in Hadm. unfold str_in. cbn [existsb]. rewrite Hadm. reflexivity. }
    rewrite Hrole'. unfold bind at 1. rewrite Hobj, Hadm. cbn [negb].
    cbn [status obj1 set_status]. cbn [String.eqb Ascii.eqb Bool.eqb].
    rewrite Hact'. rewrite bool_decide_eq_true_2 by reflexivity.
    unfold bind at 1. unfold bind at 1.
    rewrite (on_request_save_present obj1 (set_status "Approved" obj1) s1 Hin1 eq_refl).
    reflexivity.
  - change (req_id obj) with (req_id obj1).
    apply (find_request_replaced obj1 obj2); [exact Hin1|reflexivity].
  - reflexivity.
Qed.

Lemma submitted_request_is_approved_by_admin_witness :
  exists s1 s2,
    pipeline_step 3 (fun _ => "new") (controller_post "submit") "r1" 4
                  (sample_site "In-Progress" 3)
    = (Return (redirect "testing:detail" (Some "r1") None), s1)
    /\ TestRequestDetailView_post (admin_post "approve") "r1" s1
       = (Return (redirect "testing:detail" (Some "r1") None), s2).
Proof.
  destruct (submitted_request_is_approved_by_admin 3 (fun _ => "new")
              (controller_post "submit") (admin_post "approve") "r1"
              (sample_site "In-Progress" 3)
              {| user_id := 7%N; role := "CONTROLLER" |}
              {| user_id := 1%N; role := "ADMIN" |}
              (sample_request "In-Progress" 3))
    as (s1 & s2 & H1 & _ & _ & H4 & _).
  - cbn. apply NoDup_singleton.
  - reflexivity.
  - left. reflexivity.
  - vm_compute. reflexivity.
  - left. reflexivity.
  - reflexivity.
  - vm_compute. reflexivity.
  - reflexivity.
  - reflexivity.
  - vm_compute. reflexivity.
  - exists s1, s2. split; assumption.
Defined.
